(** * ATS Resume Scanner (app.py): a shallow embedding and its properties

    The program is one Streamlit script.  Each user interaction re-runs the
    script from top to bottom; the script reads two widgets (job description
    text and an uploaded PDF), keeps the last upload in the session state and,
    when one of three buttons is pressed, rasterizes page 1 of the PDF, sends
    it with a fixed prompt and the job text to a hosted model and renders the
    answer.

    Embedding:
    - a Python [str] is a list of Unicode code points ([pystr]); slicing,
      [strip], [startswith] and [join] work on code points as in Python;
    - [json.loads] is a recursive-descent parser following the standard
      library's scanner (objects, arrays, strings with escapes, numbers,
      [true]/[false]/[null], [NaN]/[Infinity]); it ends in one of three
      ways, a value, [JSONDecodeError], or one of the two exceptions the
      interpreter's limits bring about ([RecursionError] on deep nesting,
      [ValueError] on a long integer literal), and the limits are part of
      the world;
    - [base64.b64encode] is written out, and checked against a decoder
      written from RFC 4648;
    - effects (widgets rendered, provider requests, sleeping, rasterizing,
      the session slot, the conversion cache, read cursors of uploaded
      files) live in an explicit world threaded by a state-and-exception
      monad [M]; an exception keeps the effects that happened before it;
    - the hosted model, pdf2image and the JPEG encoder are parameters of a
      Section. *)

From Stdlib Require Import Strings.String Strings.Ascii Strings.Byte NArith ZArith QArith List Lia Bool.
From stdpp Require Import base option list gmap.
Import ListNotations.

#[local] Set Warnings "-register-all".
#[local] Open Scope N_scope.
#[local] Open Scope list_scope.

(* ===================================================================== *)
(** ** Python strings as code-point sequences *)
(* ===================================================================== *)

Module PyStr.

Definition codepoint := N.
Definition pystr := list codepoint.
Definition bytes := list byte.

(** Decoding of UTF-8 source literals into code points (the source file is
    UTF-8; Python string literals denote code-point sequences). *)
Definition cont (b : N) : N := N.land b 63.

Fixpoint utf8_decode (bs : list N) : pystr :=
  match bs with
  | [] => []
  | b0 :: r0 =>
    if b0 <? 128 then b0 :: utf8_decode r0
    else if b0 <? 224 then
      match r0 with
      | b1 :: r1 => (N.shiftl (N.land b0 31) 6 + cont b1) :: utf8_decode r1
      | _ => [b0]
      end
    else if b0 <? 240 then
      match r0 with
      | b1 :: b2 :: r2 =>
        (N.shiftl (N.land b0 15) 12 + N.shiftl (cont b1) 6 + cont b2)
          :: utf8_decode r2
      | _ => [b0]
      end
    else
      match r0 with
      | b1 :: b2 :: b3 :: r3 =>
        (N.shiftl (N.land b0 7) 18 + N.shiftl (cont b1) 12
         + N.shiftl (cont b2) 6 + cont b3) :: utf8_decode r3
      | _ => [b0]
      end
  end.

(** [str "..."] is the Python string written as that literal. *)
Definition str (s : string) : pystr :=
  utf8_decode (List.map N_of_ascii (list_ascii_of_string s)).

(** A single character. *)
Definition chr (a : ascii) : codepoint := N_of_ascii a.

Definition str_eqb (a b : pystr) : bool := bool_decide (a = b).

(** [str.isspace] on one code point: the characters removed by [str.strip()]
    with no argument. *)
Definition py_isspace (c : codepoint) : bool :=
  ((9 <=? c) && (c <=? 13)) || ((28 <=? c) && (c <=? 32))
  || (c =? 133) || (c =? 160) || (c =? 5760)
  || ((8192 <=? c) && (c <=? 8202))
  || (c =? 8232) || (c =? 8233) || (c =? 8239) || (c =? 8287)
  || (c =? 12288).

Fixpoint lstrip (s : pystr) : pystr :=
  match s with
  | c :: r => if py_isspace c then lstrip r else s
  | [] => []
  end.

Definition rstrip (s : pystr) : pystr := rev (lstrip (rev s)).

(** [s.strip()] *)
Definition strip (s : pystr) : pystr := rstrip (lstrip s).

(** [s.startswith(p)] *)
Fixpoint startswith (s p : pystr) : bool :=
  match p, s with
  | [], _ => true
  | _ :: _, [] => false
  | a :: p', b :: s' => (a =? b) && startswith s' p'
  end.

(** Normalisation of one slice bound against a length, as [s[i:j]] does:
    a negative bound counts from the end, and both are clamped. *)
Definition slice_bound (len i : Z) : Z :=
  if (i <? 0)%Z then Z.max (i + len) 0 else Z.min i len.

(** [s[start:stop]] *)
Definition slice {A} (s : list A) (start stop : Z) : list A :=
  let len := Z.of_nat (length s) in
  let lo := slice_bound len start in
  let hi := slice_bound len stop in
  take (Z.to_nat (hi - lo)) (drop (Z.to_nat lo) s).

(** [sep.join(items)] for a list of strings. *)
Fixpoint join (sep : pystr) (items : list pystr) : pystr :=
  match items with
  | [] => []
  | [x] => x
  | x :: r => x ++ sep ++ join sep r
  end.

End PyStr.
Import PyStr.

(* ===================================================================== *)
(** ** JSON values and [json.loads] *)
(* ===================================================================== *)

Module Json.

(** A float as [json.loads] reads it: the decimal literal before rounding
    to binary64 ([digits * 10^exp10], with its sign), or one of the
    constants.  Only its truth value is ever consulted by the program. *)
Inductive pyfloat :=
| FNaN
| FInf (neg : bool)
| FDec (neg : bool) (digits : N) (exp10 : Z).

(** The Python value [json.loads] returns.  A [dict] keeps insertion order
    and has unique keys. *)
Inductive json :=
| JNull
| JBool (b : bool)
| JInt (z : Z)
| JFloat (f : pyfloat)
| JStr (s : pystr)
| JList (l : list json)
| JDict (d : list (pystr * json)).

(** [d[k] = v] on an insertion-ordered dict. *)
Fixpoint dict_set (k : pystr) (v : json) (d : list (pystr * json))
  : list (pystr * json) :=
  match d with
  | [] => [(k, v)]
  | (k', v') :: r =>
    if str_eqb k' k then (k', v) :: r else (k', v') :: dict_set k v r
  end.

(** [dict(pairs)] *)
Definition dict_of_pairs (pairs : list (pystr * json)) : list (pystr * json) :=
  fold_left (fun d kv => dict_set (fst kv) (snd kv) d) pairs [].

(** [d.get(k)] without default: [None] when the key is absent. *)
Fixpoint dict_lookup (k : pystr) (d : list (pystr * json)) : option json :=
  match d with
  | [] => None
  | (k', v) :: r => if str_eqb k' k then Some v else dict_lookup k r
  end.

(** Characters used by the scanner. *)
Definition QUOTE : codepoint := 34.
Definition BACKSLASH : codepoint := 92.

Definition is_ws (c : codepoint) : bool :=
  (c =? 32) || (c =? 9) || (c =? 10) || (c =? 13).

(** [WHITESPACE.match(s, end).end()] *)
Fixpoint skip_ws (s : pystr) : pystr :=
  match s with
  | c :: r => if is_ws c then skip_ws r else s
  | [] => []
  end.

Definition is_digit (c : codepoint) : bool := (48 <=? c) && (c <=? 57).

Definition hex_value (c : codepoint) : option N :=
  if (48 <=? c) && (c <=? 57) then Some (c - 48)
  else if (65 <=? c) && (c <=? 70) then Some (c - 55)
  else if (97 <=? c) && (c <=? 102) then Some (c - 87)
  else None.

(** [_decode_uXXXX]: four hexadecimal digits. *)
Definition decode_uXXXX (h1 h2 h3 h4 : codepoint) : option N :=
  match hex_value h1, hex_value h2, hex_value h3, hex_value h4 with
  | Some a, Some b, Some c, Some d => Some (((a * 16 + b) * 16 + c) * 16 + d)
  | _, _, _, _ => None
  end.

(** [BACKSLASH] table of the one-character escapes. *)
Definition simple_escape (e : codepoint) : option codepoint :=
  if e =? QUOTE then Some QUOTE
  else if e =? BACKSLASH then Some BACKSLASH
  else if e =? chr "/" then Some (chr "/")
  else if e =? chr "b" then Some 8
  else if e =? chr "f" then Some 12
  else if e =? chr "n" then Some 10
  else if e =? chr "r" then Some 13
  else if e =? chr "t" then Some 9
  else None.

Definition is_high_surrogate (u : N) : bool := (55296 <=? u) && (u <=? 56319).
Definition is_low_surrogate (u : N) : bool := (56320 <=? u) && (u <=? 57343).

(** [scanstring] in strict mode, entered after the opening quote: the
    decoded string and the input after the closing quote. *)
Fixpoint scanstring (s : pystr) (acc : pystr) : option (pystr * pystr) :=
  match s with
  | [] => None
  | c :: r =>
    if c =? QUOTE then Some (rev acc, r)
    else if c =? BACKSLASH then
      match r with
      | [] => None
      | e :: r1 =>
        if e =? chr "u" then
          match r1 with
          | h1 :: h2 :: h3 :: h4 :: r5 =>
            match decode_uXXXX h1 h2 h3 h4 with
            | None => None
            | Some uni =>
              if is_high_surrogate uni then
                match r5 with
                | b :: u :: r7 =>
                  if (b =? BACKSLASH) && (u =? chr "u") then
                    match r7 with
                    | g1 :: g2 :: g3 :: g4 :: r11 =>
                      match decode_uXXXX g1 g2 g3 g4 with
                      | None => None
                      | Some uni2 =>
                        if is_low_surrogate uni2 then
                          scanstring r11
                            ((65536 + N.lor (N.shiftl (uni - 55296) 10)
                                            (uni2 - 56320)) :: acc)
                        else scanstring r5 (uni :: acc)
                      end
                    | _ => None
                    end
                  else scanstring r5 (uni :: acc)
                | _ => scanstring r5 (uni :: acc)
                end
              else scanstring r5 (uni :: acc)
            end
          | _ => None
          end
        else
          match simple_escape e with
          | Some ch => scanstring r1 (ch :: acc)
          | None => None
          end
      end
    else if c <? 32 then None
    else scanstring r (c :: acc)
  end.

(** Longest prefix of decimal digits. *)
Fixpoint span_digits (s : pystr) : pystr * pystr :=
  match s with
  | c :: r =>
    if is_digit c then let '(ds, r') := span_digits r in (c :: ds, r')
    else ([], s)
  | [] => ([], [])
  end.

Definition digits_value (ds : pystr) : N :=
  fold_left (fun acc c => acc * 10 + (c - 48)) ds 0.

(** Integer group of [NUMBER_RE]: an optional minus sign, then either a
    single 0 or a non-zero digit followed by any digits. *)
Definition match_integer (s : pystr) : option (bool * pystr * pystr) :=
  let '(neg, s1) :=
    match s with
    | c :: r => if c =? chr "-" then (true, r) else (false, s)
    | [] => (false, s)
    end in
  match s1 with
  | c :: r =>
    if c =? chr "0" then Some (neg, [c], r)
    else if is_digit c then
      let '(ds, r') := span_digits s1 in Some (neg, ds, r')
    else None
  | [] => None
  end.

(** Fraction group of [NUMBER_RE] (a dot and at least one digit): its
    digits, when it matches. *)
Definition match_frac (s : pystr) : option pystr * pystr :=
  match s with
  | c :: r =>
    if c =? chr "." then
      match span_digits r with
      | ([], _) => (None, s)
      | (ds, r') => (Some ds, r')
      end
    else (None, s)
  | [] => (None, s)
  end.

(** Exponent group of [NUMBER_RE] (e or E, an optional sign, at least one
    digit): its value, when it matches. *)
Definition match_exp (s : pystr) : option Z * pystr :=
  match s with
  | c :: r =>
    if (c =? chr "e") || (c =? chr "E") then
      let '(eneg, r1) :=
        match r with
        | sg :: r' =>
          if sg =? chr "-" then (true, r')
          else if sg =? chr "+" then (false, r')
          else (false, r)
        | [] => (false, r)
        end in
      match span_digits r1 with
      | ([], _) => (None, s)
      | (ds, r2) =>
        let v := Z.of_N (digits_value ds) in
        (Some (if eneg then (- v)%Z else v), r2)
      end
    else (None, s)
  | [] => (None, s)
  end.

(** How a call of the decoder can fail: [json.JSONDecodeError] for a text
    that is not JSON, [RecursionError] when arrays and objects are nested
    deeper than the interpreter allows, [ValueError] when an integer
    literal has more digits than the interpreter converts. *)
Inductive decode_error :=
| DecodeError
| RecursionLimit
| IntDigitsLimit.

Inductive scanned (A : Type) :=
| Scanned (a : A)
| Refused (e : decode_error).
Arguments Scanned {A} a.
Arguments Refused {A} e.

(** The two settings of the interpreter the decoder runs into:
    [max_nesting] is the number of nested arrays and objects the scanner
    may enter before the recursion guard fires (it depends on the
    recursion limit and on the stack already in use), [max_int_digits] is
    [sys.get_int_max_str_digits()], where 0 means no limit (the
    interpreter accepts 0 or a value of at least 640; one without the
    setting behaves as with 0). *)
Record limits := {
  max_nesting : nat;
  max_int_digits : nat
}.

(** [int(digits)] refuses a literal with more digits than the limit. *)
Definition too_many_digits (max_digits n : nat) : bool :=
  (0 <? max_digits)%nat && (max_digits <? n)%nat.

(** [match_number] and the conversion of its groups: [int(integer)] when
    there is neither fraction nor exponent, [float(...)] otherwise.  [None]
    when the regular expression does not match. *)
Definition match_number (max_digits : nat) (s : pystr)
  : option (scanned (json * pystr)) :=
  match match_integer s with
  | None => None
  | Some (neg, ints, r0) =>
    let '(frac, r1) := match_frac r0 in
    let '(exp, r2) := match_exp r1 in
    match frac, exp with
    | None, None =>
      if too_many_digits max_digits (length ints)
      then Some (Refused IntDigitsLimit)
      else
        let v := Z.of_N (digits_value ints) in
        Some (Scanned (JInt (if neg then (- v)%Z else v), r2))
    | _, _ =>
      let fds := default [] frac in
      let e := default 0%Z exp in
      Some (Scanned (JFloat (FDec neg (digits_value (ints ++ fds))
                                  (e - Z.of_nat (length fds))), r2))
    end
  end.

Section Scanner.

(** [JSONArray] and [JSONObject] receive the scanner for nested values as
    an argument, as in the library. *)
Variable scan_once : pystr -> scanned (json * pystr).

(** The [while True] loop of [JSONArray], entered at a value.  [n] bounds
    the number of rounds; [JSONArray] supplies the length of the input,
    which no run of the loop uses up ([JSONArray_fuel]). *)
Fixpoint array_loop (n : nat) (s : pystr) (values : list json)
  : scanned (json * pystr) :=
  match n with
  | O => Refused DecodeError
  | S n' =>
    match scan_once s with
    | Refused e => Refused e
    | Scanned (value, r) =>
      match skip_ws r with
      | c :: r' =>
        if c =? chr "]" then Scanned (JList (values ++ [value]), r')
        else if c =? chr "," then
          array_loop n' (skip_ws r') (values ++ [value])
        else Refused DecodeError
      | [] => Refused DecodeError
      end
    end
  end.

(** [JSONArray], entered after the opening bracket. *)
Definition JSONArray (s : pystr) : scanned (json * pystr) :=
  match skip_ws s with
  | c :: r =>
    if c =? chr "]" then Scanned (JList [], r)
    else array_loop (length s) (skip_ws s) []
  | [] => Refused DecodeError
  end.

(** The [while True] loop of [JSONObject], entered after the opening
    quote of a property name. *)
Fixpoint object_loop (n : nat) (s : pystr) (pairs : list (pystr * json))
  : scanned (json * pystr) :=
  match n with
  | O => Refused DecodeError
  | S n' =>
    match scanstring s [] with
    | None => Refused DecodeError
    | Some (key, r) =>
      match skip_ws r with
      | c :: r1 =>
        if c =? chr ":" then
          match scan_once (skip_ws r1) with
          | Refused e => Refused e
          | Scanned (value, r2) =>
            match skip_ws r2 with
            | d :: r3 =>
              if d =? chr "}" then
                Scanned (JDict (dict_of_pairs (pairs ++ [(key, value)])), r3)
              else if d =? chr "," then
                match skip_ws r3 with
                | q :: r4 =>
                  if q =? QUOTE then
                    object_loop n' r4 (pairs ++ [(key, value)])
                  else Refused DecodeError
                | [] => Refused DecodeError
                end
              else Refused DecodeError
            | [] => Refused DecodeError
            end
          end
        else Refused DecodeError
      | [] => Refused DecodeError
      end
    end
  end.

(** [JSONObject], entered after the opening brace. *)
Definition JSONObject (s : pystr) : scanned (json * pystr) :=
  match skip_ws s with
  | c :: r =>
    if c =? chr "}" then Scanned (JDict [], r)
    else if c =? QUOTE then object_loop (length s) r []
    else Refused DecodeError
  | [] => Refused DecodeError
  end.

End Scanner.

(** [scan_once]: one JSON value at the head of the input.  [depth] is the
    number of arrays and objects that may still be entered: opening one
    more raises [RecursionError], as the scanner's recursion guard does. *)
Fixpoint scan_once (max_digits depth : nat) (s : pystr) {struct depth}
  : scanned (json * pystr) :=
  match s with
  | [] => Refused DecodeError
  | c :: r =>
    if c =? QUOTE then
      match scanstring r [] with
      | Some (v, r') => Scanned (JStr v, r')
      | None => Refused DecodeError
      end
    else if c =? chr "{" then
      match depth with
      | O => Refused RecursionLimit
      | S depth' => JSONObject (scan_once max_digits depth') r
      end
    else if c =? chr "[" then
      match depth with
      | O => Refused RecursionLimit
      | S depth' => JSONArray (scan_once max_digits depth') r
      end
    else if startswith s (str "null") then Scanned (JNull, drop 4 s)
    else if startswith s (str "true") then Scanned (JBool true, drop 4 s)
    else if startswith s (str "false") then Scanned (JBool false, drop 5 s)
    else
      match match_number max_digits s with
      | Some res => res
      | None =>
        if startswith s (str "NaN") then Scanned (JFloat FNaN, drop 3 s)
        else if startswith s (str "Infinity") then
          Scanned (JFloat (FInf false), drop 8 s)
        else if startswith s (str "-Infinity") then
          Scanned (JFloat (FInf true), drop 9 s)
        else Refused DecodeError
      end
  end.

(** [json.loads(s)] under the interpreter's limits: the value, or the way
    the call fails. *)
Definition json_loads (lim : limits) (s : pystr) : scanned json :=
  match scan_once (max_int_digits lim) (max_nesting lim) (skip_ws s) with
  | Scanned (obj, r) =>
    match skip_ws r with
    | [] => Scanned obj
    | _ :: _ => Refused DecodeError
    end
  | Refused e => Refused e
  end.

(** A decimal literal that [float()] rounds to zero: no non-zero digit, or
    a magnitude of at most [2^-1075] (half the least subnormal). *)
Definition float_is_zero (f : pyfloat) : bool :=
  match f with
  | FNaN => false
  | FInf _ => false
  | FDec _ digits exp10 =>
    if digits =? 0 then true
    else if (0 <=? exp10)%Z then false
    else (Z.of_N digits * 2 ^ 1075 <=? 10 ^ (- exp10))%Z
  end.

(** [bool(v)] *)
Definition truthy (v : json) : bool :=
  match v with
  | JNull => false
  | JBool b => b
  | JInt z => negb (z =? 0)%Z
  | JFloat f => negb (float_is_zero f)
  | JStr s => match s with [] => false | _ => true end
  | JList l => match l with [] => false | _ => true end
  | JDict d => match d with [] => false | _ => true end
  end.

End Json.
Import Json.

(* ===================================================================== *)
(** ** [base64.b64encode(...).decode()] *)
(* ===================================================================== *)

Module Base64.

(** The standard alphabet: A-Z, a-z, 0-9, plus and slash. *)
Definition b64_char (i : N) : codepoint :=
  if i <? 26 then 65 + i
  else if i <? 52 then 97 + (i - 26)
  else if i <? 62 then 48 + (i - 52)
  else if i =? 62 then 43
  else 47.

Definition PAD : codepoint := 61.

Fixpoint b64encode (bs : bytes) : pystr :=
  match bs with
  | [] => []
  | [a] =>
    let x := Byte.to_N a in
    [b64_char (N.shiftr x 2); b64_char (N.shiftl (N.land x 3) 4); PAD; PAD]
  | [a; b] =>
    let x := Byte.to_N a in
    let y := Byte.to_N b in
    [b64_char (N.shiftr x 2);
     b64_char (N.lor (N.shiftl (N.land x 3) 4) (N.shiftr y 4));
     b64_char (N.shiftl (N.land y 15) 2); PAD]
  | a :: b :: c :: r =>
    let x := Byte.to_N a in
    let y := Byte.to_N b in
    let z := Byte.to_N c in
    b64_char (N.shiftr x 2)
    :: b64_char (N.lor (N.shiftl (N.land x 3) 4) (N.shiftr y 4))
    :: b64_char (N.lor (N.shiftl (N.land y 15) 2) (N.shiftr z 6))
    :: b64_char (N.land z 63)
    :: b64encode r
  end.

(** Decoding, written from RFC 4648 and not from the encoder: the value of
    a character of the alphabet (table 1 of the RFC). *)
Definition b64_value (c : codepoint) : option N :=
  if (65 <=? c) && (c <=? 90) then Some (c - 65)
  else if (97 <=? c) && (c <=? 122) then Some (c - 71)
  else if (48 <=? c) && (c <=? 57) then Some (c + 4)
  else if c =? 43 then Some 62
  else if c =? 47 then Some 63
  else None.

(** The bytes with the given values, when each fits a byte. *)
Fixpoint bytes_of (ns : list N) : option bytes :=
  match ns with
  | [] => Some []
  | n :: r =>
    match Byte.of_N n, bytes_of r with
    | Some b, Some bs => Some (b :: bs)
    | _, _ => None
    end
  end.

(** [b64decode]: every group of four characters carries 24 bits, the first
    character the highest six; a last group ending in one or two pad
    characters carries two bytes or one, and the bits it does not use must
    be zero (section 3.5 of the RFC), so that a text decodes in one way. *)
Fixpoint b64decode (s : pystr) : option bytes :=
  match s with
  | [] => Some []
  | c1 :: c2 :: c3 :: c4 :: r =>
    match b64_value c1, b64_value c2 with
    | Some v1, Some v2 =>
      let x := N.lor (N.shiftl v1 2) (N.shiftr v2 4) in
      if c3 =? PAD then
        if c4 =? PAD then
          match r with
          | [] => if N.land v2 15 =? 0 then bytes_of [x] else None
          | _ :: _ => None
          end
        else None
      else
        match b64_value c3 with
        | None => None
        | Some v3 =>
          let y := N.lor (N.shiftl (N.land v2 15) 4) (N.shiftr v3 2) in
          if c4 =? PAD then
            match r with
            | [] => if N.land v3 3 =? 0 then bytes_of [x; y] else None
            | _ :: _ => None
            end
          else
            match b64_value c4 with
            | None => None
            | Some v4 =>
              let z := N.lor (N.shiftl (N.land v3 3) 6) v4 in
              match bytes_of [x; y; z], b64decode r with
              | Some b, Some rest => Some (b ++ rest)
              | _, _ => None
              end
            end
        end
    | _, _ => None
    end
  | _ => None
  end.

(** The alphabet of table 1, as text. *)
Definition B64_ALPHABET : pystr :=
  str "ABCDEFGHIJKLMNOPQRSTUVWXYZabcdefghijklmnopqrstuvwxyz0123456789+/".

(** The numbers below [k], in order. *)
Definition below (k : nat) : list N := List.map N.of_nat (seq 0 k).

End Base64.
Import Base64.

(* ===================================================================== *)
(** ** Values, exceptions, events and the world *)
(* ===================================================================== *)

(** The object returned by [st.file_uploader]: its identity, its name and
    its content.  Its read cursor is mutable and lives in the world. *)
Record UploadedFile := {
  file_id : nat;
  file_name : pystr;
  file_bytes : bytes
}.

(** The dict [{"mime_type": ..., "data": ...}] built by [input_pdf_setup]. *)
Record part := {
  mime_type : pystr;
  data : pystr
}.

(** One [model.generate_content] call: the three-element content list and
    the generation config [{"temperature": ...}]. *)
Record request := {
  req_prompt : pystr;
  req_image : part;
  req_job : pystr;
  req_temperature : Q
}.

(** Classes of [google.api_core.exceptions]; every class but the first is
    unrelated to [ResourceExhausted]. *)
Inductive api_error :=
| ResourceExhausted
| ServiceUnavailable
| Unauthenticated
| PermissionDenied
| InvalidArgument
| DeadlineExceeded
| InternalServerError.

Inductive exn :=
| GoogleAPIError (e : api_error)
| JSONDecodeError
| FileNotFoundError (msg : pystr)
| IndexError
| TypeError
| AttributeError
| ValueError
| RecursionError
| LibraryError (name : pystr).

(** What a run of the script does to the outside, in order. *)
Inductive event :=
| StPageConfig (page_title : pystr)
| StHeader (s : pystr)
| StTextArea (label : pystr)
| StFileUploader (label : pystr)
| StColumns (n : nat)
| StButton (label : pystr)
| StSuccess (s : pystr)
| StWarning (s : pystr)
| StError (s : pystr)
| StSubheader (s : pystr)
| StWrite (s : pystr)
| StSpinner (s : pystr)
| GenerateContent (r : request)
| Sleep (seconds : N)
| ConvertFromBytes (b : bytes).

(** Process state seen by the script: what has happened so far, the
    [resume] key of [st.session_state] (absent, [None] or a file), the read
    cursor of each uploaded-file object, the store behind
    [st.cache_data], and the limits of the interpreter the process runs
    in, which the script never changes. *)
Record world := {
  trace : list event;
  resume : option (option UploadedFile);
  cursor : gmap nat nat;
  cache : gmap (option nat) (list part);
  interpreter : limits
}.

Definition emit (e : event) (w : world) : world :=
  {| trace := trace w ++ [e]; resume := resume w;
     cursor := cursor w; cache := cache w; interpreter := interpreter w |}.

Definition set_resume (r : option UploadedFile) (w : world) : world :=
  {| trace := trace w; resume := Some r;
     cursor := cursor w; cache := cache w; interpreter := interpreter w |}.

Definition set_cursor (f : nat) (pos : nat) (w : world) : world :=
  {| trace := trace w; resume := resume w;
     cursor := <[f := pos]> (cursor w); cache := cache w;
     interpreter := interpreter w |}.

Definition set_cache (k : option nat) (v : list part) (w : world) : world :=
  {| trace := trace w; resume := resume w;
     cursor := cursor w; cache := <[k := v]> (cache w);
     interpreter := interpreter w |}.

(* ===================================================================== *)
(** ** State-and-exception monad *)
(* ===================================================================== *)

Inductive outcome (A : Type) :=
| Ret (a : A)
| Raise (e : exn).
Arguments Ret {A} a.
Arguments Raise {A} e.

Definition M (A : Type) : Type := world -> outcome A * world.

Definition ret {A} (a : A) : M A := fun w => (Ret a, w).

Definition raise {A} (e : exn) : M A := fun w => (Raise e, w).

Definition bind {A B} (m : M A) (k : A -> M B) : M B :=
  fun w =>
    match m w with
    | (Ret a, w') => k a w'
    | (Raise e, w') => (Raise e, w')
    end.

(** [try: body  except <classes>: handler]; effects of the body up to the
    exception stay. *)
Definition try_except {A} (body : M A) (catches : exn -> bool) (handler : M A)
  : M A :=
  fun w =>
    match body w with
    | (Ret a, w') => (Ret a, w')
    | (Raise e, w') => if catches e then handler w' else (Raise e, w')
    end.

Definition do (e : event) : M unit := fun w => (Ret tt, emit e w).

Declare Scope py_scope.
Delimit Scope py_scope with py.
Notation "x <- m ;; k" := (bind m (fun x => k))
  (at level 100, m at next level, right associativity) : py_scope.
Notation "m ;; k" := (bind m (fun _ => k))
  (at level 100, right associativity) : py_scope.
#[local] Open Scope py_scope.

(** [l[0]] *)
Definition index0 {A} (l : list A) : M A :=
  match l with
  | x :: _ => ret x
  | [] => raise IndexError
  end.

(** [b and m()] with short-circuit. *)
Definition py_and (b : bool) (m : M bool) : M bool :=
  if b then m else ret false.

(* ===================================================================== *)
(** ** app.py *)
(* ===================================================================== *)

(** What the user has set when a run of the script starts: the text area,
    the file picker and the three buttons. *)
Record inputs := {
  input_text : pystr;
  uploaded_file : option UploadedFile;
  submit1 : bool;
  submit2 : bool;
  submit3 : bool
}.

Definition QUOTA_WARNING : pystr :=
  str "⚠️ Gemini API quota exceeded. Please wait a few seconds and try again.".

Definition input_prompt1 : pystr := str "
You are an experienced Technical Human Resource Manager.
Review the resume against the job description and provide strengths and weaknesses.
".

Definition input_prompt2 : pystr :=
  str "
As an expert ATS scanner, identify skills required from the job description.
Return JSON only in this format:
{ " ++ [QUOTE] ++ str "Technical Skills" ++ [QUOTE] ++ str ": [], "
  ++ [QUOTE] ++ str "Analytical Skills" ++ [QUOTE] ++ str ": [], "
  ++ [QUOTE] ++ str "Soft Skills" ++ [QUOTE] ++ str ": [] }
".

Definition input_prompt3 : pystr := str "
Evaluate the resume against the job description.
Return:
1) Percentage match
2) Missing keywords
3) Final thoughts
".

Definition is_ResourceExhausted (e : exn) : bool :=
  match e with
  | GoogleAPIError ResourceExhausted => true
  | _ => false
  end.

Definition is_JSONDecodeError (e : exn) : bool :=
  match e with
  | JSONDecodeError => true
  | _ => false
  end.

(** The fence test and slice of [get_gemini_response_keywords]:
    [if text.startswith(FENCE): text = text[7:-3]]. *)
Definition FENCE : pystr := str "```".

Definition strip_fence (text : pystr) : pystr :=
  if startswith text FENCE then slice text 7 (-3) else text.

(** The exception class behind each failure of the decoder. *)
Definition exn_of_decode_error (e : decode_error) : exn :=
  match e with
  | DecodeError => JSONDecodeError
  | RecursionLimit => RecursionError
  | IntDigitsLimit => ValueError
  end.

(** [json.loads] as a computation, under the limits of the interpreter the
    process runs in. *)
Definition loads (text : pystr) : M json :=
  fun w =>
    match json_loads (interpreter w) text with
    | Scanned v => (Ret v, w)
    | Refused e => (Raise (exn_of_decode_error e), w)
    end.

(** [response.get(key, default)]: only a dict has the method. *)
Definition py_get (response : json) (key : pystr) (dflt : json) : M json :=
  match response with
  | JDict d => ret (default dflt (dict_lookup key d))
  | _ => raise AttributeError
  end.

(** The strings of a list, when every item is a string. *)
Fixpoint all_str (l : list json) : option (list pystr) :=
  match l with
  | [] => Some []
  | JStr s :: r =>
    match all_str r with
    | Some ss => Some (s :: ss)
    | None => None
    end
  | _ :: _ => None
  end.

(** [sep.join(v)] for a Python value: a list must hold strings only, a
    string is joined by characters, a dict by keys; anything else is not
    iterable. *)
Definition py_join (sep : pystr) (v : json) : M pystr :=
  match v with
  | JList l =>
    match all_str l with
    | Some ss => ret (join sep ss)
    | None => raise TypeError
    end
  | JStr s => ret (join sep (List.map (fun c => [c]) s))
  | JDict d => ret (join sep (List.map fst d))
  | _ => raise TypeError
  end.

Section App.

(** A rendered page as PIL holds it. *)
Variable image : Type.

(** The hosted model: for the events so far and a request, either the
    text of the response or the exception raised by the call. *)
Variable generate_content : list event -> request -> pystr + exn.

(** [pdf2image.convert_from_bytes]: the pages, or an exception. *)
Variable convert_from_bytes : bytes -> list image + exn.

(** [Image.save(buffer, format="JPEG")] then [buffer.getvalue()]. *)
Variable save_jpeg : image -> bytes + exn.

(** [model.generate_content([prompt, image, job], generation_config=
    {"temperature": 0.2})] followed by [response.text]. *)
Definition model_generate_text (prompt : pystr) (img : part) (job : pystr)
  : M pystr :=
  fun w =>
    let r := {| req_prompt := prompt; req_image := img; req_job := job;
                req_temperature := (2 # 10)%Q |} in
    match generate_content (trace w) r with
    | inl text => (Ret text, emit (GenerateContent r) w)
    | inr e => (Raise e, emit (GenerateContent r) w)
    end.

Definition time_sleep (seconds : N) : M unit := do (Sleep seconds).

Definition get_gemini_response (prompt : pystr) (pdf_content : list part)
           (job_description : pystr) : M pystr :=
  try_except
    (img <- index0 pdf_content ;;
     model_generate_text prompt img job_description)
    is_ResourceExhausted
    (time_sleep 10 ;;
     ret QUOTA_WARNING).

(** Python's [None] is [JNull]. *)
Definition get_gemini_response_keywords (prompt : pystr)
           (pdf_content : list part) (job_description : pystr) : M json :=
  try_except
    (img <- index0 pdf_content ;;
     response_text <- model_generate_text prompt img job_description ;;
     loads (strip_fence (strip response_text)))
    (fun e => is_ResourceExhausted e || is_JSONDecodeError e)
    (ret JNull).

(** [uploaded_file.read()]: the bytes from the cursor on; the cursor
    moves to the end. *)
Definition file_read (f : UploadedFile) : M bytes :=
  fun w =>
    let pos := default 0%nat (cursor w !! file_id f) in
    (Ret (drop pos (file_bytes f)),
     set_cursor (file_id f) (Nat.max pos (length (file_bytes f))) w).

Definition pdf2image_convert (b : bytes) : M (list image) :=
  fun w =>
    match convert_from_bytes b with
    | inl images => (Ret images, emit (ConvertFromBytes b) w)
    | inr e => (Raise e, emit (ConvertFromBytes b) w)
    end.

Definition image_save_jpeg (page : image) : M bytes :=
  match save_jpeg page with
  | inl b => ret b
  | inr e => raise e
  end.

(** The undecorated function. *)
Definition input_pdf_setup_body (uploaded : option UploadedFile)
  : M (list part) :=
  match uploaded with
  | None => raise (FileNotFoundError (str "No file uploaded"))
  | Some f =>
    content <- file_read f ;;
    images <- pdf2image_convert content ;;
    first_page <- index0 images ;;
    img_byte_arr <- image_save_jpeg first_page ;;
    ret [ {| mime_type := str "image/jpeg";
             data := b64encode img_byte_arr |} ]
  end.

(** Modelled from the spec: the decorator [st.cache_data] belongs to the
    Streamlit library and is not part of the source.  The spec describes
    it for this function as a memo table keyed by the identity of the
    uploaded file object: a hit returns the stored result without running
    the body, a miss runs the body and stores its result when it
    returns. *)
Definition cache_key (uploaded : option UploadedFile) : option nat :=
  file_id <$> uploaded.

Definition st_cache_data (f : option UploadedFile -> M (list part))
           (uploaded : option UploadedFile) : M (list part) :=
  fun w =>
    match cache w !! cache_key uploaded with
    | Some v => (Ret v, w)
    | None =>
      match f uploaded w with
      | (Ret v, w') => (Ret v, set_cache (cache_key uploaded) v w')
      | (Raise e, w') => (Raise e, w')
      end
    end.

Definition input_pdf_setup : option UploadedFile -> M (list part) :=
  st_cache_data input_pdf_setup_body.

(** [st.session_state.resume]: an attribute error when the key is
    absent. *)
Definition session_resume : M (option UploadedFile) :=
  fun w =>
    match resume w with
    | Some r => (Ret r, w)
    | None => (Raise AttributeError, w)
    end.

Definition session_set_resume (r : option UploadedFile) : M unit :=
  fun w => (Ret tt, set_resume r w).

(** [if "resume" not in st.session_state: st.session_state.resume = None] *)
Definition session_init : M unit :=
  fun w =>
    match resume w with
    | Some _ => (Ret tt, w)
    | None => (Ret tt, set_resume None w)
    end.

Definition validate_inputs (i : inputs) : M bool :=
  match strip (input_text i) with
  | [] =>
    do (StWarning (str "Please enter a job description.")) ;;
    ret false
  | _ :: _ =>
    r <- session_resume ;;
    match r with
    | None =>
      do (StWarning (str "Please upload a resume.")) ;;
      ret false
    | Some _ => ret true
    end
  end.

(** The f-string of one output line. *)
Definition skills_line (label : pystr) (items : pystr) : pystr :=
  str "**" ++ label ++ str ":** " ++ items.

Definition write_skills (response : json) (label : pystr) : M unit :=
  v <- py_get response label (JList []) ;;
  joined <- py_join (str ", ") v ;;
  do (StWrite (skills_line label joined)).

(** Lines 130-136: what "Get Keywords" does with the returned value. *)
Definition render_keywords (response : json) : M unit :=
  if truthy response then
    do (StSubheader (str "Extracted Skills")) ;;
    write_skills response (str "Technical Skills") ;;
    write_skills response (str "Analytical Skills") ;;
    write_skills response (str "Soft Skills")
  else
    do (StError (str "Could not extract skills. Please try again.")).

Definition action1 (i : inputs) : M unit :=
  do (StSpinner (str "Analyzing resume...")) ;;
  r <- session_resume ;;
  pdf_content <- input_pdf_setup r ;;
  response <- get_gemini_response input_prompt1 pdf_content (input_text i) ;;
  do (StSubheader (str "Resume Evaluation")) ;;
  do (StWrite response).

Definition action2 (i : inputs) : M unit :=
  do (StSpinner (str "Extracting keywords...")) ;;
  r <- session_resume ;;
  pdf_content <- input_pdf_setup r ;;
  response <- get_gemini_response_keywords input_prompt2 pdf_content
                (input_text i) ;;
  render_keywords response.

Definition action3 (i : inputs) : M unit :=
  do (StSpinner (str "Calculating match percentage...")) ;;
  r <- session_resume ;;
  pdf_content <- input_pdf_setup r ;;
  response <- get_gemini_response input_prompt3 pdf_content (input_text i) ;;
  do (StSubheader (str "ATS Match Result")) ;;
  do (StWrite response).

(** Lines 60-82: page set-up, widgets and the session slot. *)
Definition layout (i : inputs) : M unit :=
  do (StPageConfig (str "ATS Resume Scanner")) ;;
  do (StHeader (str "Application Tracking System")) ;;
  do (StTextArea (str "Job Description:")) ;;
  do (StFileUploader (str "Upload your resume (PDF)")) ;;
  session_init ;;
  match uploaded_file i with
  | Some f =>
    do (StSuccess (str "PDF uploaded successfully")) ;;
    session_set_resume (Some f)
  | None => ret tt
  end ;;
  do (StColumns 3) ;;
  do (StButton (str "Tell Me About the Resume")) ;;
  do (StButton (str "Get Keywords")) ;;
  do (StButton (str "Percentage Match")).

(** Lines 118-143: the [if]/[elif] chain over the buttons. *)
Definition button_actions (i : inputs) : M unit :=
  c1 <- py_and (submit1 i) (validate_inputs i) ;;
  if c1 then action1 i
  else
    c2 <- py_and (submit2 i) (validate_inputs i) ;;
    if c2 then action2 i
    else
      c3 <- py_and (submit3 i) (validate_inputs i) ;;
      if c3 then action3 i
      else ret tt.

(** One run of the script. *)
Definition run_script (i : inputs) : M unit :=
  layout i ;;
  button_actions i.

End App.

Arguments str : simpl never.
#[global] Strategy 1000 [str].

(** *** Sessions, presses and observations *)

Inductive button :=
| TellMeAboutTheResume
| GetKeywords
| PercentageMatch.

(** A run in which exactly one button is pressed (a Streamlit button is
    true only in the run its click triggers). *)
Definition press (b : button) (text : pystr) (up : option UploadedFile)
  : inputs :=
  {| input_text := text;
     uploaded_file := up;
     submit1 := match b with TellMeAboutTheResume => true | _ => false end;
     submit2 := match b with GetKeywords => true | _ => false end;
     submit3 := match b with PercentageMatch => true | _ => false end |}.

(** What every run renders before it looks at the buttons. *)
Definition layout_events (up : option UploadedFile) : list event :=
  [StPageConfig (str "ATS Resume Scanner");
   StHeader (str "Application Tracking System");
   StTextArea (str "Job Description:");
   StFileUploader (str "Upload your resume (PDF)")]
  ++ match up with
     | Some _ => [StSuccess (str "PDF uploaded successfully")]
     | None => []
     end
  ++ [StColumns 3;
      StButton (str "Tell Me About the Resume");
      StButton (str "Get Keywords");
      StButton (str "Percentage Match")].

(** The session slot after lines 66-71. *)
Definition slot_after_layout (up : option UploadedFile) (w : world)
  : option UploadedFile :=
  match up with
  | Some f => Some f
  | None => default None (resume w)
  end.

(** The inputs handed to pdf2image so far. *)
Fixpoint rasterizations (tr : list event) : list bytes :=
  match tr with
  | ConvertFromBytes b :: r => b :: rasterizations r
  | _ :: r => rasterizations r
  | [] => []
  end.

(** The requests sent to the hosted model so far. *)
Fixpoint requests (tr : list event) : list request :=
  match tr with
  | GenerateContent q :: r => q :: requests r
  | _ :: r => requests r
  | [] => []
  end.

(** The bytes [read()] would return for a file in a world. *)
Definition unread (f : UploadedFile) (w : world) : bytes :=
  drop (default 0%nat (cursor w !! file_id f)) (file_bytes f).

(** The part built from the JPEG bytes of a page. *)
Definition jpeg_part (jpeg : bytes) : part :=
  {| mime_type := str "image/jpeg"; data := b64encode jpeg |}.

(** The request of one action. *)
Definition request_of (prompt : pystr) (img : part) (job : pystr) : request :=
  {| req_prompt := prompt; req_image := img; req_job := job;
     req_temperature := (2 # 10)%Q |}.

Definition prompt_of (b : button) : pystr :=
  match b with
  | TellMeAboutTheResume => input_prompt1
  | GetKeywords => input_prompt2
  | PercentageMatch => input_prompt3
  end.

(** [st.write] renders its string as Markdown, where a pair of asterisks
    switches bold on or off and is not shown: the text a reader sees for a
    line whose only markup is bold. *)
Fixpoint markdown_text (s : pystr) : pystr :=
  match s with
  | 42 :: 42 :: r => markdown_text r
  | c :: r => c :: markdown_text r
  | [] => []
  end.

(** The strings of one category of a parsed response: the empty list when
    the category is absent, nothing when its value is not a list of
    strings. *)
Definition skill_list (d : list (pystr * json)) (label : pystr)
  : option (list pystr) :=
  match dict_lookup label d with
  | None => Some []
  | Some (JList l) => all_str l
  | Some _ => None
  end.

(** [s] without its first [n] and its last [m] items. *)
Definition trim {A} (n m : nat) (s : list A) : list A :=
  rev (drop m (rev (drop n s))).

(** The response body of the keyword example: a fenced JSON object. *)
Definition FENCED_EXAMPLE : pystr :=
  str "```json
{" ++ [QUOTE] ++ str "Technical Skills" ++ [QUOTE] ++ str ":["
  ++ [QUOTE] ++ str "A" ++ [QUOTE] ++ str "],"
  ++ [QUOTE] ++ str "Analytical Skills" ++ [QUOTE] ++ str ":[],"
  ++ [QUOTE] ++ str "Soft Skills" ++ [QUOTE] ++ str ":["
  ++ [QUOTE] ++ str "B" ++ [QUOTE] ++ str "]}
```".

Definition EXAMPLE_SKILLS : json :=
  JDict [(str "Technical Skills", JList [JStr (str "A")]);
         (str "Analytical Skills", JList []);
         (str "Soft Skills", JList [JStr (str "B")])].

Definition EXTRACTION_FAILED : pystr :=
  str "Could not extract skills. Please try again.".

(** What [get_gemini_response_keywords] makes of the decoder's outcome: the
    value, None for a decode error, the exception otherwise. *)
Definition keywords_outcome (r : scanned json) : outcome json :=
  match r with
  | Scanned v => Ret v
  | Refused DecodeError => Ret JNull
  | Refused e => Raise (exn_of_decode_error e)
  end.

(** The items of a line as text: the first item, then every further item
    preceded by a comma and a space. *)
Definition comma_separated (items : list pystr) : pystr :=
  match items with
  | [] => []
  | x :: r => x ++ List.concat (List.map (fun y => [44; 32] ++ y) r)
  end.

(** The world right after [uploaded_file.read()]. *)
Definition after_read (f : UploadedFile) (w : world) : world :=
  set_cursor (file_id f)
    (Nat.max (default 0%nat (cursor w !! file_id f)) (length (file_bytes f)))
    w.

(** The world when the script reaches the button chain. *)
Definition after_layout (up : option UploadedFile) (w : world) : world :=
  {| trace := trace w ++ layout_events up;
     resume := Some (slot_after_layout up w);
     cursor := cursor w;
     cache := cache w;
     interpreter := interpreter w |}.

Definition spinner_of (b : button) : pystr :=
  match b with
  | TellMeAboutTheResume => str "Analyzing resume..."
  | GetKeywords => str "Extracting keywords..."
  | PercentageMatch => str "Calculating match percentage..."
  end.

Section Session.

Variable image : Type.
Variable generate_content : list event -> request -> pystr + exn.
Variable convert_from_bytes : bytes -> list image + exn.
Variable save_jpeg : image -> bytes + exn.

(** What an accepted press does once the page image is at hand: the model
    call of its button and the rendering of the answer. *)
Definition respond (b : button) (text : pystr) (pdf_content : list part)
  : M unit :=
  match b with
  | TellMeAboutTheResume =>
    response <- get_gemini_response generate_content input_prompt1
                  pdf_content text ;;
    do (StSubheader (str "Resume Evaluation")) ;;
    do (StWrite response)
  | GetKeywords =>
    response <- get_gemini_response_keywords generate_content input_prompt2
                  pdf_content text ;;
    render_keywords response
  | PercentageMatch =>
    response <- get_gemini_response generate_content input_prompt3
                  pdf_content text ;;
    do (StSubheader (str "ATS Match Result")) ;;
    do (StWrite response)
  end.

(** A sequence of runs with the same file in the picker, one button press
    each; a run that ends in an exception still leaves its effects. *)
Definition presses (ps : list (button * pystr)) (up : option UploadedFile)
           (w : world) : world :=
  fold_left
    (fun w bp =>
       snd (run_script image generate_content convert_from_bytes save_jpeg
              (press (fst bp) (snd bp) up) w))
    ps w.

End Session.

(** From [w] to [w']: nothing was rasterized, the cache is the same, and
    exactly the requests [qs] were sent to the model. *)
Definition only_sends (qs : list request) (w w' : world) : Prop :=
  rasterizations (trace w') = rasterizations (trace w)
  /\ cache w' = cache w
  /\ requests (trace w') = requests (trace w) ++ qs.

(** A scanner that leaves strictly less input than it was given. *)
Definition shrinks (f : pystr -> scanned (json * pystr)) : Prop :=
  forall s v r, f s = Scanned (v, r) -> (length r < length s)%nat.

(** A scanner [g] that gives every result of [f] other than a refusal for
    nesting depth: what a larger depth allowance does to a scanner. *)
Definition deepens (f g : pystr -> scanned (json * pystr)) : Prop :=
  forall s res, f s = res -> res <> Refused RecursionLimit -> g s = res.

(** *** A concrete session on which the statements are exercised *)

(** The defaults of a CPython process with little on its stack. *)
Definition cpython_defaults : limits :=
  {| max_nesting := 1000; max_int_digits := 4300 |}.

Definition fresh_world : world :=
  {| trace := []; resume := None; cursor := ∅; cache := ∅;
     interpreter := cpython_defaults |}.

Definition sample_file : UploadedFile :=
  {| file_id := 1;
     file_name := str "resume.pdf";
     file_bytes := [x25; x50; x44; x46; x2d; x31; x2e; x34]%byte |}.

(** An upload without content, which the stand-in converter refuses. *)
Definition empty_file : UploadedFile :=
  {| file_id := 2; file_name := str "empty.pdf"; file_bytes := [] |}.

(** A stand-in for pdf2image: an empty input is refused, any other input
    has one page, carried as its own bytes. *)
Definition sample_convert (b : bytes) : list bytes + exn :=
  match b with
  | [] => inr (LibraryError (str "PDFPageCountError"))
  | _ :: _ => inl [b]
  end.

Definition sample_save (page : bytes) : bytes + exn := inl page.

Definition sample_image : part := jpeg_part (file_bytes sample_file).

Definition sample_job : pystr := str "Python developer".

(** A model that always answers with the same text, and one that always
    raises the same exception. *)
Definition answers (text : pystr) : list event -> request -> pystr + exn :=
  fun _ _ => inl text.

Definition fails (e : exn) : list event -> request -> pystr + exn :=
  fun _ _ => inr e.

(** *** Observations used by the further properties *)

(** The subheader each button renders above its result. *)
Definition subheader_of (b : button) : pystr :=
  match b with
  | TellMeAboutTheResume => str "Resume Evaluation"
  | GetKeywords => str "Extracted Skills"
  | PercentageMatch => str "ATS Match Result"
  end.

(** A run triggered by something else than a button (typing, uploading). *)
Definition no_press (text : pystr) (up : option UploadedFile) : inputs :=
  {| input_text := text; uploaded_file := up;
     submit1 := false; submit2 := false; submit3 := false |}.

(** From [w] to [w']: exactly the requests [qs] were sent and exactly the
    inputs [bs] were handed to pdf2image. *)
Definition effects (qs : list request) (bs : list bytes) (w w' : world)
  : Prop :=
  requests (trace w') = requests (trace w) ++ qs
  /\ rasterizations (trace w') = rasterizations (trace w) ++ bs.

(** What every request of a run looks like. *)
Definition request_shape (i : inputs) (q : request) : Prop :=
  req_job q = input_text i
  /\ req_temperature q = (2 # 10)%Q
  /\ (req_prompt q = input_prompt1 \/ req_prompt q = input_prompt2
      \/ req_prompt q = input_prompt3).

(** The values [sep.join] accepts: a list of strings, a string, a dict. *)
Definition joinable (v : json) : bool :=
  match v with
  | JList l => match all_str l with Some _ => true | None => false end
  | JStr _ => true
  | JDict _ => true
  | _ => false
  end.

Definition is_dict (v : json) : bool :=
  match v with
  | JDict _ => true
  | _ => false
  end.

(** A computation that leaves the session's resume slot alone. *)
Definition keeps_slot {A} (m : M A) : Prop :=
  forall w, resume (snd (m w)) = resume w.

Section Reruns.

Variable image : Type.
Variable generate_content : list event -> request -> pystr + exn.
Variable convert_from_bytes : bytes -> list image + exn.
Variable save_jpeg : image -> bytes + exn.

(** The action of a button, whichever it is. *)
Definition action_of (b : button) : inputs -> M unit :=
  match b with
  | TellMeAboutTheResume =>
    action1 image generate_content convert_from_bytes save_jpeg
  | GetKeywords =>
    action2 image generate_content convert_from_bytes save_jpeg
  | PercentageMatch =>
    action3 image generate_content convert_from_bytes save_jpeg
  end.

(** Consecutive runs of the script in one session. *)
Definition run_all (runs : list inputs) (w : world) : world :=
  fold_left
    (fun w i =>
       snd (run_script image generate_content convert_from_bytes save_jpeg
              i w))
    runs w.

End Reruns.

(* ===================================================================== *)
(** * Properties *)
(* ===================================================================== *)

(** ** Sanity checks of the primitives *)

Example str_warning_prefix :
  take 3 QUOTA_WARNING = [9888; 65039; 32].
Proof. reflexivity. Qed.

Example slice_fence : slice (str "```json{}```") 7 (-3) = str "{}".
Proof. reflexivity. Qed.

Example slice_short : slice (str "```") 7 (-3) = [].
Proof. reflexivity. Qed.

Example strip_unicode_space : strip (9 :: 8195 :: str "a b" ++ [10; 160]) = str "a b".
Proof. reflexivity. Qed.

Example join_two : join (str ", ") [str "a"; str "b"] = str "a, b".
Proof. reflexivity. Qed.

Example b64_man : b64encode [x4d; x61; x6e]%byte = str "TWFu".
Proof. reflexivity. Qed.

Example b64_pad : b64encode [x4d; x61]%byte = str "TWE=".
Proof. reflexivity. Qed.

Example loads_trailing_comma :
  json_loads cpython_defaults (str "[1,]") = Refused DecodeError.
Proof. vm_compute. reflexivity. Qed.

Example loads_number_forms :
  json_loads cpython_defaults (str "[-0, 2.50e1, 1E-2, NaN]")
  = Scanned (JList [JInt 0; JFloat (FDec false 250 (-1));
                    JFloat (FDec false 1 (-2)); JFloat FNaN]).
Proof. vm_compute. reflexivity. Qed.

Example loads_duplicate_key :
  json_loads cpython_defaults (FENCE ++ [QUOTE]) = Refused DecodeError
  /\ json_loads cpython_defaults
       ([123; QUOTE; 97; QUOTE; 58; 49; 44; QUOTE; 97; QUOTE; 58; 50; 125])
     = Scanned (JDict [([97], JInt 2)]).
Proof. split; vm_compute; reflexivity. Qed.

(** Nesting beyond the allowance and an integer literal beyond the digit
    limit are refused as such, not as a decode error; a float literal of
    the same length is converted. *)
Example loads_limits :
  json_loads {| max_nesting := 3; max_int_digits := 4 |} (str "[[[[")
  = Refused RecursionLimit
  /\ json_loads {| max_nesting := 3; max_int_digits := 4 |} (str "[[[1]]]")
     = Scanned (JList [JList [JList [JInt 1]]])
  /\ json_loads {| max_nesting := 3; max_int_digits := 4 |} (str "[12345]")
     = Refused IntDigitsLimit
  /\ json_loads {| max_nesting := 3; max_int_digits := 4 |} (str "-1234")
     = Scanned (JInt (-1234))
  /\ json_loads {| max_nesting := 3; max_int_digits := 4 |} (str "12345.0")
     = Scanned (JFloat (FDec false 123450 (-1)))
  /\ json_loads {| max_nesting := 3; max_int_digits := 0 |} (str "1234567")
     = Scanned (JInt 1234567)
  /\ json_loads {| max_nesting := 3; max_int_digits := 4 |} (str "x[[[[")
     = Refused DecodeError.
Proof. repeat split; vm_compute; reflexivity. Qed.

(** ** The scanner: loop bounds and nesting depth *)

Lemma skip_ws_length s : (length (skip_ws s) <= length s)%nat.
Proof.
  induction s as [|c s IH]; [reflexivity|].
  cbn [skip_ws]. destruct (is_ws c); cbn [length]; lia.
Qed.

Ltac break_match :=
  match goal with
  | H : context [match ?x with _ => _ end] |- _ =>
    destruct x eqn:?; try discriminate H
  | H : context [if ?x then _ else _] |- _ =>
    destruct x eqn:?; try discriminate H
  end.

Lemma scanstring_shrinks n :
  forall s acc k r,
    (length s <= n)%nat ->
    scanstring s acc = Some (k, r) -> (length r < length s)%nat.
Proof.
  induction n as [|n IH]; intros s acc k r Hlen Hscan.
  - destruct s; [discriminate Hscan | cbn [length] in Hlen; lia].
  - destruct s as [|c s]; [discriminate Hscan|].
    cbn [scanstring] in Hscan. cbn [length] in *.
    repeat break_match;
      try (injection Hscan as <- <-; cbn [length]; lia);
      try (apply IH in Hscan; cbn [length] in *; lia).
Qed.

Lemma span_digits_length s ds r :
  span_digits s = (ds, r) -> (length r <= length s)%nat.
Proof.
  revert ds r. induction s as [|c s IH]; intros ds r H.
  - injection H as <- <-. reflexivity.
  - cbn [span_digits] in H. destruct (is_digit c).
    + destruct (span_digits s) as [ds' r'] eqn:Hs.
      injection H as <- <-. specialize (IH _ _ eq_refl). cbn [length]. lia.
    + injection H as <- <-. reflexivity.
Qed.

Lemma match_integer_shrinks s neg ds r :
  match_integer s = Some (neg, ds, r) -> (length r < length s)%nat.
Proof.
  unfold match_integer. intros H.
  destruct s as [|c s]; [discriminate H|].
  destruct (c =? chr "-").
  - destruct s as [|c' s]; [discriminate H|].
    destruct (c' =? chr "0"); [injection H as <- <- <-; cbn [length]; lia|].
    destruct (is_digit c') eqn:Hd; [|discriminate H].
    destruct (span_digits (c' :: s)) as [ds' r'] eqn:Hs.
    injection H as <- <- <-.
    cbn [span_digits] in Hs. rewrite Hd in Hs.
    destruct (span_digits s) as [ds2 r2] eqn:Hs2. injection Hs as <- <-.
    apply span_digits_length in Hs2. cbn [length]. lia.
  - destruct (c =? chr "0"); [injection H as <- <- <-; cbn [length]; lia|].
    destruct (is_digit c) eqn:Hd; [|discriminate H].
    destruct (span_digits (c :: s)) as [ds' r'] eqn:Hs.
    injection H as <- <- <-.
    cbn [span_digits] in Hs. rewrite Hd in Hs.
    destruct (span_digits s) as [ds2 r2] eqn:Hs2. injection Hs as <- <-.
    apply span_digits_length in Hs2. cbn [length]. lia.
Qed.

Lemma match_frac_length s frac r :
  match_frac s = (frac, r) -> (length r <= length s)%nat.
Proof.
  unfold match_frac. intros H. destruct s as [|c s].
  - injection H as <- <-. reflexivity.
  - destruct (c =? chr "."); [|injection H as <- <-; reflexivity].
    destruct (span_digits s) as [[|d ds] r'] eqn:Hs.
    + injection H as <- <-. reflexivity.
    + injection H as <- <-. apply span_digits_length in Hs.
      cbn [length]. lia.
Qed.

Lemma match_exp_length s e r :
  match_exp s = (e, r) -> (length r <= length s)%nat.
Proof.
  unfold match_exp. intros H. destruct s as [|c s].
  - injection H as <- <-. reflexivity.
  - destruct ((c =? chr "e") || (c =? chr "E"));
      [|injection H as <- <-; reflexivity].
    destruct s as [|sg s'].
    + cbn [span_digits] in H. injection H as <- <-. reflexivity.
    + destruct (sg =? chr "-").
      * destruct (span_digits s') as [[|d ds] r'] eqn:Hs;
          injection H as <- <-; [reflexivity|].
        apply span_digits_length in Hs. cbn [length]. lia.
      * destruct (sg =? chr "+").
        -- destruct (span_digits s') as [[|d ds] r'] eqn:Hs;
             injection H as <- <-; [reflexivity|].
           apply span_digits_length in Hs. cbn [length]. lia.
        -- destruct (span_digits (sg :: s')) as [[|d ds] r'] eqn:Hs;
             injection H as <- <-; [reflexivity|].
           apply span_digits_length in Hs. cbn [length] in *. lia.
Qed.

Lemma match_number_shrinks m s v r :
  match_number m s = Some (Scanned (v, r)) -> (length r < length s)%nat.
Proof.
  intros H. unfold match_number in H.
  destruct (match_integer s) as [[[neg ints] r0]|] eqn:Hi; [|discriminate H].
  apply match_integer_shrinks in Hi.
  destruct (match_frac r0) as [frac r1] eqn:Hf.
  apply match_frac_length in Hf.
  destruct (match_exp r1) as [e r2] eqn:He.
  apply match_exp_length in He.
  destruct frac, e; try (injection H as <- <-; lia).
  destruct (too_many_digits m (length ints)); [discriminate H|].
  injection H as <- <-. lia.
Qed.

Lemma array_loop_shrinks f n :
  shrinks f ->
  forall s acc v r,
    array_loop f n s acc = Scanned (v, r) -> (length r < length s)%nat.
Proof.
  intros Hf. induction n as [|n IH]; intros s acc v r H; [discriminate H|].
  cbn [array_loop] in H.
  destruct (f s) as [[value r0]|e] eqn:Hs; [|discriminate H].
  apply Hf in Hs. pose proof (skip_ws_length r0) as Hw.
  destruct (skip_ws r0) as [|c r'] eqn:Hr0; [discriminate H|].
  cbn [length] in Hw.
  destruct (c =? chr "]"); [injection H as <- <-; lia|].
  destruct (c =? chr ","); [|discriminate H].
  apply IH in H. pose proof (skip_ws_length r'). lia.
Qed.

Lemma JSONArray_length f :
  shrinks f ->
  forall s v r, JSONArray f s = Scanned (v, r) -> (length r < length s)%nat.
Proof.
  intros Hf s v r H. unfold JSONArray in H.
  pose proof (skip_ws_length s) as Hw.
  destruct (skip_ws s) as [|c r'] eqn:Hs; [discriminate H|].
  cbn [length] in Hw.
  destruct (c =? chr "]"); [injection H as <- <-; lia|].
  apply (array_loop_shrinks f _ Hf) in H. cbn [length] in H. lia.
Qed.

Lemma object_loop_shrinks f n :
  shrinks f ->
  forall s pairs v r,
    object_loop f n s pairs = Scanned (v, r) -> (length r < length s)%nat.
Proof.
  intros Hf. induction n as [|n IH]; intros s pairs v r H; [discriminate H|].
  cbn [object_loop] in H.
  destruct (scanstring s []) as [[key r0]|] eqn:Hk; [|discriminate H].
  apply (scanstring_shrinks _ _ _ _ _ (le_n _)) in Hk.
  pose proof (skip_ws_length r0) as Hw0.
  destruct (skip_ws r0) as [|c r1]; [discriminate H|]. cbn [length] in Hw0.
  destruct (c =? chr ":"); [|discriminate H].
  pose proof (skip_ws_length r1) as Hw1.
  destruct (f (skip_ws r1)) as [[value r2]|e] eqn:Hv; [|discriminate H].
  apply Hf in Hv.
  pose proof (skip_ws_length r2) as Hw2.
  destruct (skip_ws r2) as [|d r3]; [discriminate H|]. cbn [length] in Hw2.
  destruct (d =? chr "}"); [injection H as <- <-; lia|].
  destruct (d =? chr ","); [|discriminate H].
  pose proof (skip_ws_length r3) as Hw3.
  destruct (skip_ws r3) as [|q r4]; [discriminate H|]. cbn [length] in Hw3.
  destruct (q =? QUOTE); [|discriminate H].
  apply IH in H. lia.
Qed.

Lemma JSONObject_length f :
  shrinks f ->
  forall s v r, JSONObject f s = Scanned (v, r) -> (length r < length s)%nat.
Proof.
  intros Hf s v r H. unfold JSONObject in H.
  pose proof (skip_ws_length s) as Hw.
  destruct (skip_ws s) as [|c r'] eqn:Hs; [discriminate H|].
  cbn [length] in Hw.
  destruct (c =? chr "}"); [injection H as <- <-; lia|].
  destruct (c =? QUOTE); [|discriminate H].
  apply (object_loop_shrinks f _ Hf) in H. lia.
Qed.

Lemma scan_once_shrinks m depth : shrinks (scan_once m depth).
Proof.
  induction depth as [|depth IH]; intros s v r H;
    (destruct s as [|c s]; [discriminate H|]); cbn [scan_once] in H.
  all: destruct (c =? QUOTE);
    [destruct (scanstring s []) as [[k r0]|] eqn:Hk; [|discriminate H];
     injection H as <- <-;
     apply (scanstring_shrinks _ _ _ _ _ (le_n _)) in Hk; cbn [length]; lia|].
  all: destruct (c =? chr "{");
    [first [discriminate H
           | apply (JSONObject_length _ IH) in H; cbn [length]; lia]|].
  all: destruct (c =? chr "[");
    [first [discriminate H
           | apply (JSONArray_length _ IH) in H; cbn [length]; lia]|].
  all: destruct (startswith (c :: s) (str "null"));
    [injection H as <- <-; cbn [length drop]; rewrite ?length_drop; lia|].
  all: destruct (startswith (c :: s) (str "true"));
    [injection H as <- <-; cbn [length drop]; rewrite ?length_drop; lia|].
  all: destruct (startswith (c :: s) (str "false"));
    [injection H as <- <-; cbn [length drop]; rewrite ?length_drop; lia|].
  all: destruct (match_number m (c :: s)) as [res|] eqn:Hn;
    [subst res; exact (match_number_shrinks _ _ _ _ Hn)|].
  all: destruct (startswith (c :: s) (str "NaN"));
    [injection H as <- <-; cbn [length drop]; rewrite ?length_drop; lia|].
  all: destruct (startswith (c :: s) (str "Infinity"));
    [injection H as <- <-; cbn [length drop]; rewrite ?length_drop; lia|].
  all: destruct (startswith (c :: s) (str "-Infinity")); [|discriminate H];
    injection H as <- <-; cbn [length drop]; rewrite ?length_drop; lia.
Qed.

(** The bounds of the two loops never decide a parse: every bound that is
    at least the length of the input gives the same result, so the loops
    of [JSONArray] and [JSONObject] run as the unbounded loops of the
    library do. *)
Lemma array_loop_fuel f :
  shrinks f ->
  forall n n' s acc,
    (0 < n)%nat -> (0 < n')%nat ->
    (length s <= n)%nat -> (length s <= n')%nat ->
    array_loop f n s acc = array_loop f n' s acc.
Proof.
  intros Hf. induction n as [|n IH]; intros n' s acc Hp Hp' Hn Hn'; [lia|].
  destruct n' as [|n']; [lia|]. cbn [array_loop].
  destruct (f s) as [[value r0]|e] eqn:Hs; [|reflexivity].
  apply Hf in Hs. pose proof (skip_ws_length r0) as Hw.
  destruct (skip_ws r0) as [|c r']; [reflexivity|]. cbn [length] in Hw.
  destruct (c =? chr "]"); [reflexivity|].
  destruct (c =? chr ","); [|reflexivity].
  pose proof (skip_ws_length r'). apply IH; lia.
Qed.

Lemma object_loop_fuel f :
  shrinks f ->
  forall n n' s pairs,
    (length s < n)%nat -> (length s < n')%nat ->
    object_loop f n s pairs = object_loop f n' s pairs.
Proof.
  intros Hf. induction n as [|n IH]; intros n' s pairs Hn Hn'; [lia|].
  destruct n' as [|n']; [lia|]. cbn [object_loop].
  destruct (scanstring s []) as [[key r0]|] eqn:Hk; [|reflexivity].
  apply (scanstring_shrinks _ _ _ _ _ (le_n _)) in Hk.
  pose proof (skip_ws_length r0) as Hw0.
  destruct (skip_ws r0) as [|c r1]; [reflexivity|]. cbn [length] in Hw0.
  destruct (c =? chr ":"); [|reflexivity].
  pose proof (skip_ws_length r1) as Hw1.
  destruct (f (skip_ws r1)) as [[value r2]|e] eqn:Hv; [|reflexivity].
  apply Hf in Hv.
  pose proof (skip_ws_length r2) as Hw2.
  destruct (skip_ws r2) as [|d r3]; [reflexivity|]. cbn [length] in Hw2.
  destruct (d =? chr "}"); [reflexivity|].
  destruct (d =? chr ","); [|reflexivity].
  pose proof (skip_ws_length r3) as Hw3.
  destruct (skip_ws r3) as [|q r4]; [reflexivity|]. cbn [length] in Hw3.
  destruct (q =? QUOTE); [|reflexivity].
  apply IH; lia.
Qed.

Lemma JSONArray_fuel f s n :
  shrinks f -> (length s <= n)%nat ->
  JSONArray f s
  = match skip_ws s with
    | c :: r =>
      if c =? chr "]" then Scanned (JList [], r)
      else array_loop f n (skip_ws s) []
    | [] => Refused DecodeError
    end.
Proof.
  intros Hf Hn. unfold JSONArray. pose proof (skip_ws_length s) as Hw.
  destruct (skip_ws s) as [|c r] eqn:Hs; [reflexivity|].
  destruct (c =? chr "]"); [reflexivity|]. cbn [length] in Hw.
  apply (array_loop_fuel f Hf); cbn [length]; lia.
Qed.

Lemma JSONObject_fuel f s n :
  shrinks f -> (length s <= n)%nat ->
  JSONObject f s
  = match skip_ws s with
    | c :: r =>
      if c =? chr "}" then Scanned (JDict [], r)
      else if c =? QUOTE then object_loop f n r []
      else Refused DecodeError
    | [] => Refused DecodeError
    end.
Proof.
  intros Hf Hn. unfold JSONObject. pose proof (skip_ws_length s) as Hw.
  destruct (skip_ws s) as [|c r] eqn:Hs; [reflexivity|].
  destruct (c =? chr "}"); [reflexivity|].
  destruct (c =? QUOTE); [|reflexivity]. cbn [length] in Hw.
  apply (object_loop_fuel f Hf); lia.
Qed.

(** A larger depth allowance keeps every result that was not a refusal
    for depth. *)
Lemma array_loop_deepens f g :
  deepens f g ->
  forall n s acc res,
    array_loop f n s acc = res -> res <> Refused RecursionLimit ->
    array_loop g n s acc = res.
Proof.
  intros Hfg. induction n as [|n IH]; intros s acc res H Hres;
    [exact H|].
  cbn [array_loop] in *.
  destruct (f s) as [[value r0]|e] eqn:Hs.
  - rewrite (Hfg s _ Hs) by discriminate.
    destruct (skip_ws r0) as [|c r']; [exact H|].
    destruct (c =? chr "]"); [exact H|].
    destruct (c =? chr ","); [|exact H].
    apply IH; assumption.
  - rewrite (Hfg s _ Hs) by (subst res; exact Hres). exact H.
Qed.

Lemma object_loop_deepens f g :
  deepens f g ->
  forall n s pairs res,
    object_loop f n s pairs = res -> res <> Refused RecursionLimit ->
    object_loop g n s pairs = res.
Proof.
  intros Hfg. induction n as [|n IH]; intros s pairs res H Hres;
    [exact H|].
  cbn [object_loop] in *.
  destruct (scanstring s []) as [[key r0]|]; [|exact H].
  destruct (skip_ws r0) as [|c r1]; [exact H|].
  destruct (c =? chr ":"); [|exact H].
  destruct (f (skip_ws r1)) as [[value r2]|e] eqn:Hv.
  - rewrite (Hfg _ _ Hv) by discriminate.
    destruct (skip_ws r2) as [|d r3]; [exact H|].
    destruct (d =? chr "}"); [exact H|].
    destruct (d =? chr ","); [|exact H].
    destruct (skip_ws r3) as [|q r4]; [exact H|].
    destruct (q =? QUOTE); [|exact H].
    apply IH; assumption.
  - rewrite (Hfg _ _ Hv) by (subst res; exact Hres). exact H.
Qed.

Lemma scan_once_deepens m :
  forall depth depth',
    (depth <= depth')%nat ->
    deepens (scan_once m depth) (scan_once m depth').
Proof.
  induction depth as [|depth IH]; intros depth' Hle s res H Hres.
  - destruct depth' as [|depth']; [exact H|].
    destruct s as [|c s]; [exact H|].
    cbn [scan_once] in *.
    destruct (c =? QUOTE); [exact H|].
    destruct (c =? chr "{"); [subst res; congruence|].
    destruct (c =? chr "["); [subst res; congruence|].
    exact H.
  - destruct depth' as [|depth']; [lia|].
    destruct s as [|c s]; [exact H|].
    cbn [scan_once] in *.
    destruct (c =? QUOTE); [exact H|].
    assert (Hd : deepens (scan_once m depth) (scan_once m depth'))
      by (apply IH; lia).
    destruct (c =? chr "{").
    { unfold JSONObject in *.
      destruct (skip_ws s) as [|c0 r]; [exact H|].
      destruct (c0 =? chr "}"); [exact H|].
      destruct (c0 =? QUOTE); [|exact H].
      apply (object_loop_deepens _ _ Hd); assumption. }
    destruct (c =? chr "[").
    { unfold JSONArray in *.
      destruct (skip_ws s) as [|c0 r]; [exact H|].
      destruct (c0 =? chr "]"); [exact H|].
      apply (array_loop_deepens _ _ Hd); assumption. }
    exact H.
Qed.

(** What [json.loads] gives under some limits, unless it is a refusal for
    depth, it gives under any limits that allow at least that depth and
    convert integers of the same length. *)
Lemma json_loads_deepens lim lim' s res :
  json_loads lim s = res ->
  res <> Refused RecursionLimit ->
  (max_nesting lim <= max_nesting lim')%nat ->
  max_int_digits lim' = max_int_digits lim ->
  json_loads lim' s = res.
Proof.
  unfold json_loads. intros H Hres Hle ->.
  destruct (scan_once (max_int_digits lim) (max_nesting lim) (skip_ws s))
    as [[obj r]|e] eqn:Hs.
  - rewrite (scan_once_deepens _ _ _ Hle _ _ Hs) by discriminate. exact H.
  - rewrite (scan_once_deepens _ _ _ Hle _ _ Hs)
      by (subst res; intros [= ->]; apply Hres; reflexivity).
    exact H.
Qed.

(** ** Base64: the encoder against the decoder of RFC 4648 *)

(** A test that the numbers below [k] pass holds of each of them. *)
Lemma below_spec (P : N -> bool) (k : nat) :
  forallb P (below k) = true -> forall n, (n < N.of_nat k) -> P n = true.
Proof.
  intros H n Hn. rewrite forallb_forall in H. apply H.
  unfold below. apply in_map_iff. exists (N.to_nat n).
  split; [apply N2Nat.id|]. apply in_seq. lia.
Qed.

Lemma below_spec2 (P : N -> N -> bool) (k : nat) :
  forallb (fun x => forallb (P x) (below k)) (below k) = true ->
  forall x y, (x < N.of_nat k) -> (y < N.of_nat k) -> P x y = true.
Proof.
  intros H x y Hx Hy.
  exact (below_spec _ _ (below_spec _ _ H x Hx) y Hy).
Qed.

Lemma below_spec3 (P : N -> N -> N -> bool) (k : nat) :
  forallb (fun x => forallb (fun y => forallb (P x y) (below k)) (below k))
    (below k) = true ->
  forall x y z,
    (x < N.of_nat k) -> (y < N.of_nat k) -> (z < N.of_nat k) -> P x y z = true.
Proof.
  intros H x y z Hx Hy Hz.
  exact (below_spec _ _ (below_spec2 _ _ H x y Hx Hy) z Hz).
Qed.

Lemma to_N_256 (a : byte) : Byte.to_N a < 256.
Proof. pose proof (Byte.to_N_bounded a). lia. Qed.

Ltac split_tests H :=
  repeat match type of H with
         | (_ && _) = true => let H' := fresh H in
                              apply andb_true_iff in H; destruct H as [H H']
         end;
  repeat match goal with
         | T : (_ <? _) = true |- _ => apply N.ltb_lt in T
         | T : (_ =? _) = true |- _ => apply N.eqb_eq in T
         end.

(** The alphabet and its table of values are inverse to each other. *)
Lemma b64_value_char i : (i < 64) -> b64_value (b64_char i) = Some i.
Proof.
  intros H.
  apply (below_spec (fun i => match b64_value (b64_char i) with
                              | Some j => j =? i
                              | None => false
                              end) 64) in H; [| vm_compute; reflexivity].
  cbv beta in H. destruct (b64_value (b64_char i)); [|discriminate].
  apply N.eqb_eq in H. congruence.
Qed.

Lemma b64_char_not_pad i : (i < 64) -> (b64_char i =? PAD) = false.
Proof.
  intros H.
  apply (below_spec (fun i => negb (b64_char i =? PAD)) 64) in H;
    [| vm_compute; reflexivity].
  apply negb_true_iff in H. exact H.
Qed.

Lemma b64_char_value c v :
  b64_value c = Some v -> (v < 64) /\ b64_char v = c.
Proof.
  destruct (N.ltb_spec c 123) as [Hc|Hc].
  - apply (below_spec (fun c => match b64_value c with
                                | Some v => (v <? 64) && (b64_char v =? c)
                                | None => true
                                end) 123) in Hc; [| vm_compute; reflexivity].
    cbv beta in Hc. intros Hv. rewrite Hv in Hc. split_tests Hc. auto.
  - unfold b64_value.
    replace (c <=? 90) with false by (symmetry; apply N.leb_gt; lia).
    replace (c <=? 122) with false by (symmetry; apply N.leb_gt; lia).
    replace (c <=? 57) with false by (symmetry; apply N.leb_gt; lia).
    replace (c =? 43) with false by (symmetry; apply N.eqb_neq; lia).
    replace (c =? 47) with false by (symmetry; apply N.eqb_neq; lia).
    rewrite !andb_false_r. discriminate.
Qed.

(** The sextets of a group of bytes, and the bytes back from them. *)
Lemma sextets_of_byte x :
  (x < 256) ->
  (N.shiftr x 2 < 64) /\ (N.land x 63 < 64)
  /\ (N.shiftl (N.land x 3) 4 < 64)
  /\ N.land (N.shiftl (N.land x 3) 4) 15 = 0
  /\ N.lor (N.shiftl (N.shiftr x 2) 2) (N.shiftr (N.shiftl (N.land x 3) 4) 4)
     = x.
Proof.
  intros H.
  apply (below_spec (fun x =>
           (N.shiftr x 2 <? 64) && (N.land x 63 <? 64)
           && (N.shiftl (N.land x 3) 4 <? 64)
           && (N.land (N.shiftl (N.land x 3) 4) 15 =? 0)
           && (N.lor (N.shiftl (N.shiftr x 2) 2)
                 (N.shiftr (N.shiftl (N.land x 3) 4) 4) =? x)) 256) in H;
    [| vm_compute; reflexivity].
  cbv beta in H. split_tests H. auto.
Qed.

Lemma sextets_of_pair x y :
  (x < 256) -> (y < 256) ->
  let v2 := N.lor (N.shiftl (N.land x 3) 4) (N.shiftr y 4) in
  let v3 := N.shiftl (N.land y 15) 2 in
  (v2 < 64) /\ (v3 < 64) /\ N.land v3 3 = 0
  /\ N.lor (N.shiftl (N.shiftr x 2) 2) (N.shiftr v2 4) = x
  /\ N.lor (N.shiftl (N.land v2 15) 4) (N.shiftr v3 2) = y.
Proof.
  intros Hx Hy v2 v3.
  pose proof (below_spec2 (fun x y =>
    let v2 := N.lor (N.shiftl (N.land x 3) 4) (N.shiftr y 4) in
    let v3 := N.shiftl (N.land y 15) 2 in
    (v2 <? 64) && (v3 <? 64) && (N.land v3 3 =? 0)
    && (N.lor (N.shiftl (N.shiftr x 2) 2) (N.shiftr v2 4) =? x)
    && (N.lor (N.shiftl (N.land v2 15) 4) (N.shiftr v3 2) =? y)) 256
    ltac:(vm_compute; reflexivity) x y Hx Hy) as H.
  cbv beta zeta in H. split_tests H. subst v2 v3. auto.
Qed.

Lemma sextets_of_triple x y z :
  (x < 256) -> (y < 256) -> (z < 256) ->
  let v2 := N.lor (N.shiftl (N.land x 3) 4) (N.shiftr y 4) in
  let v3 := N.lor (N.shiftl (N.land y 15) 2) (N.shiftr z 6) in
  let v4 := N.land z 63 in
  (v3 < 64)
  /\ N.lor (N.shiftl (N.land v2 15) 4) (N.shiftr v3 2) = y
  /\ N.lor (N.shiftl (N.land v3 3) 6) v4 = z.
Proof.
  intros Hx Hy Hz v2 v3 v4.
  pose proof (below_spec2 (fun x y =>
    N.land (N.lor (N.shiftl (N.land x 3) 4) (N.shiftr y 4)) 15
    =? N.shiftr y 4) 256 ltac:(vm_compute; reflexivity) x y Hx Hy) as H2.
  pose proof (below_spec2 (fun y z =>
    let v3 := N.lor (N.shiftl (N.land y 15) 2) (N.shiftr z 6) in
    (v3 <? 64)
    && (N.lor (N.shiftl (N.shiftr y 4) 4) (N.shiftr v3 2) =? y)
    && (N.lor (N.shiftl (N.land v3 3) 6) (N.land z 63) =? z)) 256
    ltac:(vm_compute; reflexivity) y z Hy Hz) as H3.
  cbv beta zeta in H2, H3. split_tests H2. split_tests H3.
  subst v2 v3 v4. rewrite H2. auto.
Qed.

(** The decoder, group by group. *)
Lemma b64decode_group c1 c2 c3 c4 r v1 v2 v3 v4 :
  b64_value c1 = Some v1 -> b64_value c2 = Some v2 ->
  b64_value c3 = Some v3 -> b64_value c4 = Some v4 ->
  (c3 =? PAD) = false -> (c4 =? PAD) = false ->
  b64decode (c1 :: c2 :: c3 :: c4 :: r)
  = match bytes_of [N.lor (N.shiftl v1 2) (N.shiftr v2 4);
                    N.lor (N.shiftl (N.land v2 15) 4) (N.shiftr v3 2);
                    N.lor (N.shiftl (N.land v3 3) 6) v4],
          b64decode r with
    | Some b, Some rest => Some (b ++ rest)
    | _, _ => None
    end.
Proof.
  intros H1 H2 H3 H4 P3 P4. cbn [b64decode].
  rewrite H1, H2, H3, H4, P3, P4. reflexivity.
Qed.

Lemma b64decode_two c1 c2 c3 v1 v2 v3 :
  b64_value c1 = Some v1 -> b64_value c2 = Some v2 ->
  b64_value c3 = Some v3 -> (c3 =? PAD) = false -> N.land v3 3 = 0 ->
  b64decode [c1; c2; c3; PAD]
  = bytes_of [N.lor (N.shiftl v1 2) (N.shiftr v2 4);
              N.lor (N.shiftl (N.land v2 15) 4) (N.shiftr v3 2)].
Proof.
  intros H1 H2 H3 P3 Hz. cbn [b64decode].
  rewrite H1, H2, H3, P3, Hz. reflexivity.
Qed.

Lemma b64decode_one c1 c2 v1 v2 :
  b64_value c1 = Some v1 -> b64_value c2 = Some v2 -> N.land v2 15 = 0 ->
  b64decode [c1; c2; PAD; PAD]
  = bytes_of [N.lor (N.shiftl v1 2) (N.shiftr v2 4)].
Proof.
  intros H1 H2 Hz. cbn [b64decode]. rewrite H1, H2, Hz. reflexivity.
Qed.

Lemma bytes_of_to_N bs : bytes_of (List.map Byte.to_N bs) = Some bs.
Proof.
  induction bs as [|b bs IH]; [reflexivity|].
  cbn [List.map bytes_of]. rewrite Byte.of_to_N, IH. reflexivity.
Qed.

Lemma list_ind3 {A} (P : list A -> Prop) :
  P [] -> (forall a, P [a]) -> (forall a b, P [a; b]) ->
  (forall a b c r, P r -> P (a :: b :: c :: r)) ->
  forall l, P l.
Proof.
  intros H0 H1 H2 H3.
  assert (forall n l, (length l < n)%nat -> P l) as H.
  { induction n as [|n IH]; intros l Hl; [lia|].
    destruct l as [|a [|b [|c r]]]; auto.
    apply H3, IH. cbn [length] in Hl. lia. }
  intros l. apply (H (S (length l))). lia.
Qed.

(** Decoding what the encoder wrote gives the bytes back. *)
Lemma b64decode_b64encode bs : b64decode (b64encode bs) = Some bs.
Proof.
  induction bs as [|a|a b|a b c r IH] using list_ind3.
  - reflexivity.
  - cbn [b64encode]. cbv zeta.
    destruct (sextets_of_byte _ (to_N_256 a)) as (H1 & _ & H2 & Hz & Hx).
    rewrite (b64decode_one _ _ _ _ (b64_value_char _ H1) (b64_value_char _ H2) Hz).
    rewrite Hx. exact (bytes_of_to_N [a]).
  - cbn [b64encode]. cbv zeta.
    destruct (sextets_of_byte _ (to_N_256 a)) as (H1 & _).
    destruct (sextets_of_pair _ _ (to_N_256 a) (to_N_256 b))
      as (H2 & H3 & Hz & Hx & Hy).
    rewrite (b64decode_two _ _ _ _ _ _ (b64_value_char _ H1)
               (b64_value_char _ H2) (b64_value_char _ H3)
               (b64_char_not_pad _ H3) Hz).
    rewrite Hx, Hy. exact (bytes_of_to_N [a; b]).
  - cbn [b64encode]. cbv zeta.
    destruct (sextets_of_byte _ (to_N_256 a)) as (H1 & _).
    destruct (sextets_of_byte _ (to_N_256 c)) as (_ & H4 & _).
    destruct (sextets_of_pair _ _ (to_N_256 a) (to_N_256 b))
      as (H2 & _ & _ & Hx & _).
    destruct (sextets_of_triple _ _ _ (to_N_256 a) (to_N_256 b) (to_N_256 c))
      as (H3 & Hy & Hz).
    rewrite (b64decode_group _ _ _ _ _ _ _ _ _ (b64_value_char _ H1)
               (b64_value_char _ H2) (b64_value_char _ H3)
               (b64_value_char _ H4) (b64_char_not_pad _ H3)
               (b64_char_not_pad _ H4)).
    rewrite Hx, Hy, Hz, IH.
    change (bytes_of [Byte.to_N a; Byte.to_N b; Byte.to_N c])
      with (bytes_of (List.map Byte.to_N [a; b; c])).
    rewrite bytes_of_to_N. reflexivity.
Qed.

Lemma bytes_of_map ns bs : bytes_of ns = Some bs -> List.map Byte.to_N bs = ns.
Proof.
  revert bs. induction ns as [|n ns IH]; intros bs; cbn [bytes_of].
  - intros [= <-]. reflexivity.
  - destruct (Byte.of_N n) as [b|] eqn:Hb; [|discriminate].
    destruct (bytes_of ns) as [r|]; [|discriminate]. intros [= <-].
    cbn [List.map]. rewrite (Byte.to_of_N n Hb), (IH r eq_refl). reflexivity.
Qed.

(** The sextets back from the bytes they were put together to. *)
Lemma bytes_of_sextets v1 v2 v3 v4 :
  (v1 < 64) -> (v2 < 64) -> (v3 < 64) -> (v4 < 64) ->
  let x := N.lor (N.shiftl v1 2) (N.shiftr v2 4) in
  let y := N.lor (N.shiftl (N.land v2 15) 4) (N.shiftr v3 2) in
  let z := N.lor (N.shiftl (N.land v3 3) 6) v4 in
  N.shiftr x 2 = v1
  /\ N.lor (N.shiftl (N.land x 3) 4) (N.shiftr y 4) = v2
  /\ N.lor (N.shiftl (N.land y 15) 2) (N.shiftr z 6) = v3
  /\ N.land z 63 = v4
  /\ (N.land v2 15 = 0 -> N.shiftl (N.land x 3) 4 = v2)
  /\ (N.land v3 3 = 0 -> N.shiftl (N.land y 15) 2 = v3).
Proof.
  intros H1 H2 H3 H4 x y z.
  pose proof (below_spec2 (fun v1 v2 =>
    let x := N.lor (N.shiftl v1 2) (N.shiftr v2 4) in
    (N.shiftr x 2 =? v1)
    && (N.shiftl (N.land x 3) 4 =? N.shiftl (N.shiftr v2 4) 4)) 64
    ltac:(vm_compute; reflexivity) v1 v2 H1 H2) as A.
  pose proof (below_spec2 (fun v2 v3 =>
    let y := N.lor (N.shiftl (N.land v2 15) 4) (N.shiftr v3 2) in
    (N.lor (N.shiftl (N.shiftr v2 4) 4) (N.shiftr y 4) =? v2)
    && (N.shiftl (N.land y 15) 2 =? N.shiftl (N.shiftr v3 2) 2)) 64
    ltac:(vm_compute; reflexivity) v2 v3 H2 H3) as B.
  pose proof (below_spec2 (fun v3 v4 =>
    let z := N.lor (N.shiftl (N.land v3 3) 6) v4 in
    (N.lor (N.shiftl (N.shiftr v3 2) 2) (N.shiftr z 6) =? v3)
    && (N.land z 63 =? v4)) 64
    ltac:(vm_compute; reflexivity) v3 v4 H3 H4) as C.
  assert (forall k v, (v < 64) -> (k = 4 \/ k = 2) ->
            N.land v (2 ^ k - 1) = 0 -> N.shiftl (N.shiftr v k) k = v) as D.
  { intros k v Hv Hk.
    pose proof (below_spec (fun v =>
      (negb (N.land v 15 =? 0) || (N.shiftl (N.shiftr v 4) 4 =? v))
      && (negb (N.land v 3 =? 0) || (N.shiftl (N.shiftr v 2) 2 =? v))) 64
      ltac:(vm_compute; reflexivity) v Hv) as E.
    cbv beta in E. apply andb_true_iff in E. destruct E as [E4 E2].
    destruct Hk as [-> | ->]; intros Hz;
      change (2 ^ 4 - 1) with 15 in *; change (2 ^ 2 - 1) with 3 in *;
      rewrite Hz in *; cbn [N.eqb negb orb] in *;
      apply N.eqb_eq; assumption. }
  cbv beta zeta in A, B, C. split_tests A. split_tests B. split_tests C.
  subst x y z. rewrite A0, B0.
  split; [exact A|]. split; [exact B|]. split; [exact C|]. split; [exact C0|].
  split; intros Hz.
  - apply (D 4 v2 H2); [left; reflexivity | exact Hz].
  - apply (D 2 v3 H3); [right; reflexivity | exact Hz].
Qed.

Lemma list_ind4 {A} (P : list A -> Prop) :
  P [] -> (forall a, P [a]) -> (forall a b, P [a; b]) ->
  (forall a b c, P [a; b; c]) ->
  (forall a b c d r, P r -> P (a :: b :: c :: d :: r)) ->
  forall l, P l.
Proof.
  intros H0 H1 H2 H3 H4.
  assert (forall n l, (length l < n)%nat -> P l) as H.
  { induction n as [|n IH]; intros l Hl; [lia|].
    destruct l as [|a [|b [|c [|d r]]]]; auto.
    apply H4, IH. cbn [length] in Hl. lia. }
  intros l. apply (H (S (length l))). lia.
Qed.

(** The decoder accepts no other text for the bytes than the encoder's. *)
Lemma b64encode_b64decode s bs : b64decode s = Some bs -> s = b64encode bs.
Proof.
  revert bs. induction s as [|c1|c1 c2|c1 c2 c3|c1 c2 c3 c4 r IH] using list_ind4;
    intros bs; cbn [b64decode]; try discriminate.
  - intros [= <-]. reflexivity.
  - destruct (b64_value c1) as [v1|] eqn:E1; [|discriminate].
    destruct (b64_value c2) as [v2|] eqn:E2; [|discriminate].
    destruct (b64_char_value _ _ E1) as [L1 C1].
    destruct (b64_char_value _ _ E2) as [L2 C2].
    destruct (c3 =? PAD) eqn:P3.
    + destruct (c4 =? PAD) eqn:P4; [|discriminate].
      destruct r; [|discriminate].
      destruct (N.land v2 15 =? 0) eqn:Z; [|discriminate].
      apply N.eqb_eq in P3, P4, Z. subst c3 c4. intros Hb.
      apply bytes_of_map in Hb.
      destruct bs as [|a [|? ?]]; try discriminate. injection Hb as Ha.
      destruct (bytes_of_sextets v1 v2 0 0 L1 L2 eq_refl eq_refl)
        as (F1 & _ & _ & _ & F2 & _).
      cbn [b64encode]. cbv zeta. rewrite Ha, F1, (F2 Z), C1, C2. reflexivity.
    + destruct (b64_value c3) as [v3|] eqn:E3; [|discriminate].
      destruct (b64_char_value _ _ E3) as [L3 C3].
      destruct (c4 =? PAD) eqn:P4.
      * destruct r; [|discriminate].
        destruct (N.land v3 3 =? 0) eqn:Z; [|discriminate].
        apply N.eqb_eq in P4, Z. subst c4. intros Hb.
        apply bytes_of_map in Hb.
        destruct bs as [|a [|b [|? ?]]]; try discriminate.
        injection Hb as Ha Hb.
        destruct (bytes_of_sextets v1 v2 v3 0 L1 L2 L3 eq_refl)
          as (F1 & F2 & _ & _ & _ & F3).
        cbn [b64encode]. cbv zeta.
        rewrite Ha, Hb, F1, F2, (F3 Z), C1, C2, C3. reflexivity.
      * destruct (b64_value c4) as [v4|] eqn:E4; [|discriminate].
        destruct (b64_char_value _ _ E4) as [L4 C4].
        destruct (bytes_of _) as [b3|] eqn:Hb; [|discriminate].
        destruct (b64decode r) as [rest|] eqn:Hr; [|discriminate].
        intros [= <-]. apply bytes_of_map in Hb.
        destruct b3 as [|a [|b [|c [|? ?]]]]; try discriminate.
        injection Hb as Ha Hb Hc.
        destruct (bytes_of_sextets v1 v2 v3 v4 L1 L2 L3 L4)
          as (F1 & F2 & F3 & F4 & _).
        cbn [app b64encode]. cbv zeta.
        rewrite Ha, Hb, Hc, F1, F2, F3, F4, C1, C2, C3, C4, <- (IH rest eq_refl).
        reflexivity.
Qed.

(** Hence the text of given bytes is the one text that decodes to them. *)
Lemma b64encode_unique bs text : b64decode text = Some bs <-> text = b64encode bs.
Proof.
  split; [apply b64encode_b64decode|]. intros ->. apply b64decode_b64encode.
Qed.

Example b64_alphabet : List.map b64_char (below 64) = B64_ALPHABET.
Proof. vm_compute. reflexivity. Qed.

(** The test vectors of section 10 of the RFC. *)
Example b64_rfc_vectors :
  List.map (fun t => b64decode (str t))
    ["Zg=="; "Zm8="; "Zm9v"; "Zm9vYg=="; "Zm9vYmE="; "Zm9vYmFy"]%string
  = [Some [x66]; Some [x66; x6f]; Some [x66; x6f; x6f];
     Some [x66; x6f; x6f; x62]; Some [x66; x6f; x6f; x62; x61];
     Some [x66; x6f; x6f; x62; x61; x72]]%byte.
Proof. vm_compute. reflexivity. Qed.

Example b64_not_canonical : b64decode (str "Zh==") = None.
Proof. vm_compute. reflexivity. Qed.

(** ** World bookkeeping *)

Lemma emit_trace e w : trace (emit e w) = trace w ++ [e].
Proof. reflexivity. Qed.

Lemma bind_returns {A B} (m : M A) (k : A -> M B) w a w' :
  m w = (Ret a, w') -> bind m k w = k a w'.
Proof. intros H. unfold bind. rewrite H. reflexivity. Qed.

Lemma bind_raises {A B} (m : M A) (k : A -> M B) w e w' :
  m w = (Raise e, w') -> bind m k w = (Raise e, w').
Proof. intros H. unfold bind. rewrite H. reflexivity. Qed.

Lemma do_returns e w : do e w = (Ret tt, emit e w).
Proof. reflexivity. Qed.

Lemma requests_app tr1 tr2 : requests (tr1 ++ tr2) = requests tr1 ++ requests tr2.
Proof.
  induction tr1 as [|e tr1 IH]; [reflexivity|].
  destruct e; simpl; rewrite ?IH; reflexivity.
Qed.

Lemma rasterizations_app tr1 tr2 :
  rasterizations (tr1 ++ tr2) = rasterizations tr1 ++ rasterizations tr2.
Proof.
  induction tr1 as [|e tr1 IH]; [reflexivity|].
  destruct e; simpl; rewrite ?IH; reflexivity.
Qed.

Lemma layout_events_quiet up :
  requests (layout_events up) = [] /\ rasterizations (layout_events up) = [].
Proof. destruct up; split; reflexivity. Qed.

(** ** The layout part and the validation *)

Lemma layout_spec i w :
  layout i w
  = (Ret tt,
     {| trace := trace w ++ layout_events (uploaded_file i);
        resume := Some (slot_after_layout (uploaded_file i) w);
        cursor := cursor w;
        cache := cache w;
        interpreter := interpreter w |}).
Proof.
  unfold layout, slot_after_layout, layout_events, bind, do, session_init,
    session_set_resume, ret, emit, set_resume.
  destruct (uploaded_file i), (resume w);
    cbn [trace resume cursor cache interpreter from_option id app];
    rewrite <- ?app_assoc; cbn [app]; reflexivity.
Qed.

Lemma validate_blank i w :
  strip (input_text i) = [] ->
  validate_inputs i w
  = (Ret false, emit (StWarning (str "Please enter a job description.")) w).
Proof. intros H. unfold validate_inputs. rewrite H. reflexivity. Qed.

Lemma validate_no_file i w :
  strip (input_text i) <> [] ->
  resume w = Some None ->
  validate_inputs i w
  = (Ret false, emit (StWarning (str "Please upload a resume.")) w).
Proof.
  intros H Hr. unfold validate_inputs.
  destruct (strip (input_text i)); [congruence|].
  unfold bind, session_resume. rewrite Hr. reflexivity.
Qed.

Lemma validate_ok i w f :
  strip (input_text i) <> [] ->
  resume w = Some (Some f) ->
  validate_inputs i w = (Ret true, w).
Proof.
  intros H Hr. unfold validate_inputs.
  destruct (strip (input_text i)); [congruence|].
  unfold bind, session_resume. rewrite Hr. reflexivity.
Qed.

Section Gating.

Variable image : Type.
Variable generate_content : list event -> request -> pystr + exn.
Variable convert_from_bytes : bytes -> list image + exn.
Variable save_jpeg : image -> bytes + exn.

(** A run whose validation fails ends after the warning. *)
Lemma rejected_press b text up w w1 warning :
  layout (press b text up) w = (Ret tt, w1) ->
  validate_inputs (press b text up) w1 = (Ret false, emit warning w1) ->
  run_script image generate_content convert_from_bytes save_jpeg
    (press b text up) w
  = (Ret tt, emit warning w1).
Proof.
  intros Hl Hv.
  unfold run_script, bind. rewrite Hl.
  unfold button_actions, bind, py_and.
  destruct b; simpl; rewrite Hv; reflexivity.
Qed.

(** C4. Whenever the job-description text is empty or consists of
    whitespace only, pressing any one of the three buttons ends the run
    normally after the job-description warning: the only events after the
    page layout are that warning, so no request is sent to the model and
    nothing is handed to pdf2image; the cache and the file cursors are
    untouched. *)
Theorem blank_job_description_rejected :
  forall (b : button) (text : pystr) (up : option UploadedFile) (w : world),
    strip text = [] ->
    let r := run_script image generate_content convert_from_bytes save_jpeg
               (press b text up) w in
    fst r = Ret tt
    /\ trace (snd r)
       = trace w ++ layout_events up
         ++ [StWarning (str "Please enter a job description.")]
    /\ requests (trace (snd r)) = requests (trace w)
    /\ rasterizations (trace (snd r)) = rasterizations (trace w)
    /\ cache (snd r) = cache w
    /\ cursor (snd r) = cursor w.
Proof.
  intros b text up w Hblank r. subst r.
  erewrite rejected_press.
  2: apply layout_spec.
  2: apply validate_blank; destruct b; exact Hblank.
  cbn [fst snd emit trace cache cursor press uploaded_file].
  rewrite <- app_assoc.
  repeat split; try reflexivity.
  - rewrite !requests_app. destruct (layout_events_quiet up) as [-> _].
    simpl. rewrite app_nil_r. reflexivity.
  - rewrite !rasterizations_app. destruct (layout_events_quiet up) as [_ ->].
    simpl. rewrite app_nil_r. reflexivity.
Qed.

(** C5. Whenever the job text is not blank (it passes the script's own
    emptiness test, which strips whitespace first), no file is uploaded in
    this run and the session's resume slot is unset or None, pressing any
    one of the three buttons ends the run normally after the upload
    warning: no request is sent to the model and nothing is
    rasterized. *)
Theorem missing_upload_rejected :
  forall (b : button) (text : pystr) (w : world),
    strip text <> [] ->
    resume w = None \/ resume w = Some None ->
    let r := run_script image generate_content convert_from_bytes save_jpeg
               (press b text None) w in
    fst r = Ret tt
    /\ trace (snd r)
       = trace w ++ layout_events None
         ++ [StWarning (str "Please upload a resume.")]
    /\ requests (trace (snd r)) = requests (trace w)
    /\ rasterizations (trace (snd r)) = rasterizations (trace w)
    /\ cache (snd r) = cache w
    /\ cursor (snd r) = cursor w.
Proof.
  intros b text w Htext Hslot r. subst r.
  erewrite rejected_press.
  2: apply layout_spec.
  2: { apply validate_no_file; [destruct b; exact Htext|].
       cbn [resume press uploaded_file slot_after_layout].
       destruct Hslot as [-> | ->]; reflexivity. }
  cbn [fst snd emit trace cache cursor press uploaded_file].
  rewrite <- app_assoc.
  repeat split; try reflexivity.
  - rewrite !requests_app. simpl. rewrite app_nil_r. reflexivity.
  - rewrite !rasterizations_app. simpl. rewrite app_nil_r. reflexivity.
Qed.

End Gating.

(** ** The model client *)

Section ModelClient.

Variable generate_content : list event -> request -> pystr + exn.

Lemma generate_text_returns prompt img job w text :
  generate_content (trace w) (request_of prompt img job) = inl text ->
  model_generate_text generate_content prompt img job w
  = (Ret text, emit (GenerateContent (request_of prompt img job)) w).
Proof.
  intros H. unfold model_generate_text. fold (request_of prompt img job).
  rewrite H. reflexivity.
Qed.

Lemma generate_text_raises prompt img job w e :
  generate_content (trace w) (request_of prompt img job) = inr e ->
  model_generate_text generate_content prompt img job w
  = (Raise e, emit (GenerateContent (request_of prompt img job)) w).
Proof.
  intros H. unfold model_generate_text. fold (request_of prompt img job).
  rewrite H. reflexivity.
Qed.

(** The narrative path on each outcome of the call. *)
Lemma response_on_text prompt img rest job w text :
  generate_content (trace w) (request_of prompt img job) = inl text ->
  get_gemini_response generate_content prompt (img :: rest) job w
  = (Ret text, emit (GenerateContent (request_of prompt img job)) w).
Proof.
  intros H. unfold get_gemini_response, try_except, bind, index0, ret.
  rewrite (generate_text_returns _ _ _ _ _ H). reflexivity.
Qed.

Lemma response_on_exception prompt img rest job w e :
  generate_content (trace w) (request_of prompt img job) = inr e ->
  get_gemini_response generate_content prompt (img :: rest) job w
  = if is_ResourceExhausted e
    then (Ret QUOTA_WARNING,
          emit (Sleep 10)
            (emit (GenerateContent (request_of prompt img job)) w))
    else (Raise e, emit (GenerateContent (request_of prompt img job)) w).
Proof.
  intros H. unfold get_gemini_response, try_except, bind, index0, ret.
  rewrite (generate_text_raises _ _ _ _ _ H).
  destruct (is_ResourceExhausted e); reflexivity.
Qed.

(** The keyword path on each outcome of the call. *)
Lemma keywords_on_text prompt img rest job w text :
  generate_content (trace w) (request_of prompt img job) = inl text ->
  get_gemini_response_keywords generate_content prompt (img :: rest) job w
  = (keywords_outcome
       (json_loads (interpreter w) (strip_fence (strip text))),
     emit (GenerateContent (request_of prompt img job)) w).
Proof.
  intros H.
  unfold get_gemini_response_keywords, try_except, bind, index0, ret.
  rewrite (generate_text_returns _ _ _ _ _ H).
  unfold loads. cbn [emit interpreter].
  destruct (json_loads _ _) as [v|[]]; reflexivity.
Qed.

Lemma keywords_on_exception prompt img rest job w e :
  generate_content (trace w) (request_of prompt img job) = inr e ->
  get_gemini_response_keywords generate_content prompt (img :: rest) job w
  = if is_ResourceExhausted e || is_JSONDecodeError e
    then (Ret JNull, emit (GenerateContent (request_of prompt img job)) w)
    else (Raise e, emit (GenerateContent (request_of prompt img job)) w).
Proof.
  intros H.
  unfold get_gemini_response_keywords, try_except, bind, index0, ret.
  rewrite (generate_text_raises _ _ _ _ _ H).
  destruct (is_ResourceExhausted e || is_JSONDecodeError e); reflexivity.
Qed.

(** C2. For every prompt, encoded image and job text, when the provider
    call of get_gemini_response raises ResourceExhausted, the function
    sleeps 10 seconds after that one call, sends no second request, does
    not raise, and returns the literal quota warning. *)
Theorem quota_exhaustion_returns_warning :
  forall (prompt : pystr) (img : part) (rest : list part) (job : pystr)
         (w : world),
    generate_content (trace w) (request_of prompt img job)
    = inr (GoogleAPIError ResourceExhausted) ->
    let r := get_gemini_response generate_content prompt (img :: rest) job w in
    fst r = Ret QUOTA_WARNING
    /\ trace (snd r)
       = trace w ++ [GenerateContent (request_of prompt img job); Sleep 10]
    /\ requests (trace (snd r))
       = requests (trace w) ++ [request_of prompt img job]
    /\ QUOTA_WARNING
       = [9888; 65039]
         ++ str " Gemini API quota exceeded. Please wait a few seconds and try again.".
Proof.
  intros prompt img rest job w H r. subst r.
  rewrite (response_on_exception _ _ _ _ _ _ H).
  cbn [is_ResourceExhausted fst snd emit trace].
  rewrite <- app_assoc.
  split; [reflexivity|]. split; [reflexivity|]. split.
  - rewrite requests_app. reflexivity.
  - vm_compute. reflexivity.
Qed.

End ModelClient.

(** ** Rendering of the keyword result *)

Lemma render_falsy v w :
  truthy v = false ->
  render_keywords v w = (Ret tt, emit (StError EXTRACTION_FAILED) w).
Proof. intros H. unfold render_keywords. rewrite H. reflexivity. Qed.

Lemma write_skills_list d label ss w :
  skill_list d label = Some ss ->
  write_skills (JDict d) label w
  = (Ret tt, emit (StWrite (skills_line label (join (str ", ") ss))) w).
Proof.
  unfold skill_list, write_skills, bind, py_get, ret.
  destruct (dict_lookup label d) as [v|]; simpl.
  - destruct v; try discriminate. intros H. simpl. rewrite H. reflexivity.
  - intros [= <-]. reflexivity.
Qed.


Lemma render_skill_lists d technical analytical soft w :
  truthy (JDict d) = true ->
  skill_list d (str "Technical Skills") = Some technical ->
  skill_list d (str "Analytical Skills") = Some analytical ->
  skill_list d (str "Soft Skills") = Some soft ->
  render_keywords (JDict d) w
  = (Ret tt,
     emit (StWrite (skills_line (str "Soft Skills")
                      (join (str ", ") soft)))
       (emit (StWrite (skills_line (str "Analytical Skills")
                         (join (str ", ") analytical)))
          (emit (StWrite (skills_line (str "Technical Skills")
                            (join (str ", ") technical)))
             (emit (StSubheader (str "Extracted Skills")) w)))).
Proof.
  intros Ht H1 H2 H3. unfold render_keywords. rewrite Ht.
  rewrite (bind_returns _ _ _ _ _ (do_returns _ _)).
  rewrite (bind_returns _ _ _ _ _ (write_skills_list _ _ _ _ H1)).
  rewrite (bind_returns _ _ _ _ _ (write_skills_list _ _ _ _ H2)).
  rewrite (write_skills_list _ _ _ _ H3). reflexivity.
Qed.

Lemma comma_chars : str ", " = [44; 32].
Proof. vm_compute. reflexivity. Qed.

(** [", ".join] writes what [comma_separated] describes. *)
Lemma join_comma items : join (str ", ") items = comma_separated items.
Proof.
  induction items as [|x r IH]; [reflexivity|].
  destruct r as [|y r].
  - cbn [join comma_separated List.map List.concat]. rewrite app_nil_r.
    reflexivity.
  - change (join (str ", ") (x :: y :: r))
      with (x ++ str ", " ++ join (str ", ") (y :: r)).
    rewrite IH, comma_chars. reflexivity.
Qed.

Lemma all_str_strings ss : all_str (List.map JStr ss) = Some ss.
Proof.
  induction ss as [|s ss IH]; [reflexivity|].
  cbn [List.map all_str]. rewrite IH. reflexivity.
Qed.

Lemma skills_line_text prefix label items :
  str "**" ++ label ++ str ":** " = prefix ->
  skills_line label (join (str ", ") items) = prefix ++ comma_separated items.
Proof.
  intros <-. unfold skills_line. rewrite join_comma, <- !app_assoc.
  reflexivity.
Qed.

(** C8. When the returned value is a non-empty mapping whose categories,
    where present, are lists of strings, "Get Keywords" renders the
    subheader and then one line per fixed label, in the order Technical
    Skills, Analytical Skills, Soft Skills: the label between double
    asterisks, a colon, the closing asterisks and a space, then the
    category's strings with a comma and a space between neighbours.  A
    category absent from the mapping counts as the empty list, so its line
    ends after the space. *)
Theorem keywords_rendered_as_joined_lists :
  forall (d : list (pystr * json)) (technical analytical soft : list pystr)
         (w : world),
    truthy (JDict d) = true ->
    skill_list d (str "Technical Skills") = Some technical ->
    skill_list d (str "Analytical Skills") = Some analytical ->
    skill_list d (str "Soft Skills") = Some soft ->
    (let r := render_keywords (JDict d) w in
     fst r = Ret tt
     /\ trace (snd r)
        = trace w
          ++ [StSubheader (str "Extracted Skills");
              StWrite (str "**Technical Skills:** "
                       ++ comma_separated technical);
              StWrite (str "**Analytical Skills:** "
                       ++ comma_separated analytical);
              StWrite (str "**Soft Skills:** " ++ comma_separated soft)])
    /\ (forall label,
          dict_lookup label d = None -> skill_list d label = Some [])
    /\ (forall label ss,
          dict_lookup label d = Some (JList (List.map JStr ss)) ->
          skill_list d label = Some ss)
    /\ comma_separated [] = []
    /\ (forall x, comma_separated [x] = x)
    /\ (forall x y r,
          comma_separated (x :: y :: r)
          = x ++ str ", " ++ comma_separated (y :: r)).
Proof.
  intros d technical analytical soft w Ht H1 H2 H3. split.
  - rewrite (render_skill_lists _ _ _ _ _ Ht H1 H2 H3).
    cbn [fst snd emit trace]. rewrite <- !app_assoc.
    rewrite (skills_line_text (str "**Technical Skills:** "))
      by (vm_compute; reflexivity).
    rewrite (skills_line_text (str "**Analytical Skills:** "))
      by (vm_compute; reflexivity).
    rewrite (skills_line_text (str "**Soft Skills:** "))
      by (vm_compute; reflexivity).
    split; reflexivity.
  - split; [|split; [|split; [|split]]].
    + intros label Hnone. unfold skill_list. rewrite Hnone. reflexivity.
    + intros label ss Hsome. unfold skill_list. rewrite Hsome.
      apply all_str_strings.
    + reflexivity.
    + intros x. cbn [comma_separated List.map List.concat].
      apply app_nil_r.
    + intros x y r. rewrite <- !join_comma. reflexivity.
Qed.

Example comma_separated_three :
  comma_separated [str "SQL"; str "Go"; str "R"] = str "SQL, Go, R".
Proof. vm_compute. reflexivity. Qed.

(** Outside that shape the handler does not render: a truthy value that is
    not a dict has no [get], and a category that is not iterable cannot be
    joined; both exceptions reach the top level after the subheader. *)
Example render_non_dict_raises :
  render_keywords (JList [JStr (str "SQL")]) fresh_world
  = (Raise AttributeError,
     emit (StSubheader (str "Extracted Skills")) fresh_world).
Proof. vm_compute. reflexivity. Qed.

Example render_number_category_raises :
  render_keywords (JDict [(str "Technical Skills", JInt 5)]) fresh_world
  = (Raise TypeError,
     emit (StSubheader (str "Extracted Skills")) fresh_world).
Proof. vm_compute. reflexivity. Qed.

(** ** What the keyword path returns *)

Section KeywordResult.

Variable generate_content : list event -> request -> pystr + exn.

(** C3 (amended). get_gemini_response_keywords returns None exactly when
    the provider call raises quota exhaustion or a JSON decode error, or
    json.loads raises JSONDecodeError on the (possibly fence-stripped)
    response text, or that text is valid JSON for null.  When json.loads
    fails in another way (RecursionError for nesting beyond what the
    interpreter allows, ValueError for an integer literal beyond its digit
    limit) the function raises that exception instead.  On a None result
    "Get Keywords" renders the generic extraction-failure message and ends
    normally. *)
Theorem keywords_none_characterised :
  forall (prompt : pystr) (img : part) (rest : list part) (job : pystr)
         (w : world),
    (fst (get_gemini_response_keywords generate_content prompt (img :: rest)
            job w) = Ret JNull
     <-> (generate_content (trace w) (request_of prompt img job)
          = inr (GoogleAPIError ResourceExhausted)
          \/ generate_content (trace w) (request_of prompt img job)
             = inr JSONDecodeError
          \/ exists text,
               generate_content (trace w) (request_of prompt img job)
               = inl text
               /\ (json_loads (interpreter w) (strip_fence (strip text))
                   = Refused DecodeError
                   \/ json_loads (interpreter w) (strip_fence (strip text))
                      = Scanned JNull)))
    /\ (forall text e,
          generate_content (trace w) (request_of prompt img job) = inl text ->
          json_loads (interpreter w) (strip_fence (strip text)) = Refused e ->
          e <> DecodeError ->
          fst (get_gemini_response_keywords generate_content prompt
                 (img :: rest) job w)
          = Raise (exn_of_decode_error e))
    /\ (forall w', render_keywords JNull w'
                   = (Ret tt, emit (StError EXTRACTION_FAILED) w')).
Proof.
  intros prompt img rest job w.
  split; [|split; [|intros w'; reflexivity]].
  - destruct (generate_content (trace w) (request_of prompt img job))
      as [text|e] eqn:Hout.
    + rewrite (keywords_on_text _ _ _ _ _ _ _ Hout). cbn [fst]. split.
      * intros Hret. right. right. exists text. split; [reflexivity|].
        destruct (json_loads (interpreter w) (strip_fence (strip text)))
          as [v|[]]; cbn [keywords_outcome] in Hret;
          try discriminate Hret.
        -- right. congruence.
        -- left. reflexivity.
      * intros [Hq | [Hq | (t & Ht & Hj)]]; try discriminate.
        injection Ht as <-. destruct Hj as [-> | ->]; reflexivity.
    + rewrite (keywords_on_exception _ _ _ _ _ _ _ Hout). split.
      * intros Hret.
        destruct e as [[]| | | | | | | |]; cbn in Hret;
          try discriminate Hret.
        -- left. reflexivity.
        -- right. left. reflexivity.
      * intros [Hq | [Hq | (t & Ht & _)]]; try discriminate.
        -- injection Hq as ->. reflexivity.
        -- injection Hq as ->. reflexivity.
  - intros text e Hout Hparse He.
    rewrite (keywords_on_text _ _ _ _ _ _ _ Hout), Hparse. cbn [fst].
    destruct e; [congruence | reflexivity | reflexivity].
Qed.

(** C10. When the response text parses as JSON but the parsed value is
    falsy, get_gemini_response_keywords returns that value and "Get
    Keywords" shows the generic extraction-failure message, exactly what it
    shows for None: the handler tests the truth value of the result. *)
Theorem falsy_result_shows_failure :
  forall (prompt : pystr) (img : part) (rest : list part) (job : pystr)
         (w : world) (text : pystr) (v : json),
    generate_content (trace w) (request_of prompt img job) = inl text ->
    json_loads (interpreter w) (strip_fence (strip text)) = Scanned v ->
    truthy v = false ->
    get_gemini_response_keywords generate_content prompt (img :: rest) job w
    = (Ret v, emit (GenerateContent (request_of prompt img job)) w)
    /\ forall w',
         render_keywords v w' = (Ret tt, emit (StError EXTRACTION_FAILED) w')
         /\ render_keywords v w' = render_keywords JNull w'.
Proof.
  intros prompt img rest job w text v Hout Hparse Hfalsy. split.
  - rewrite (keywords_on_text _ _ _ _ _ _ _ Hout), Hparse. reflexivity.
  - intros w'. rewrite (render_falsy _ _ Hfalsy). split; reflexivity.
Qed.

End KeywordResult.

(** An answer of two thousand opening brackets, and one that is an integer
    of 4301 digits, under the defaults of CPython: json.loads raises
    RecursionError and ValueError, which the except clause of line 39 does
    not name, so the function raises them. *)
Example deep_answer_raises :
  fst (get_gemini_response_keywords (answers (repeat 91 2000)) input_prompt2
         [sample_image] sample_job fresh_world)
  = Raise RecursionError
  /\ fst (get_gemini_response_keywords (answers (repeat 49 4301))
            input_prompt2 [sample_image] sample_job fresh_world)
     = Raise ValueError
  /\ match json_loads cpython_defaults (repeat 49 4300) with
     | Scanned (JInt _) => True
     | _ => False
     end.
Proof.
  split; [vm_compute; reflexivity|]. split; [vm_compute; reflexivity|].
  vm_compute. exact I.
Qed.

(** Falsy parses: the empty object, the empty list, null, zero, a float
    that rounds to zero, the empty string, false. *)
Example falsy_parses :
  List.map (fun s => json_loads cpython_defaults (str s))
    ["{}"; "[]"; "null"; "0"; "false"]%string
  = [Scanned (JDict []); Scanned (JList []); Scanned JNull;
     Scanned (JInt 0); Scanned (JBool false)]
  /\ json_loads cpython_defaults [QUOTE; QUOTE] = Scanned (JStr [])
  /\ List.map truthy
       [JDict []; JList []; JNull; JInt 0; JBool false; JStr [];
        JFloat (FDec true 0 (-1)); JFloat (FDec false 1 (-400))]
     = [false; false; false; false; false; false; false; false]
  /\ List.map truthy
       [JList [JInt 0]; JFloat (FDec false 5 (-324)); JFloat FNaN;
        JBool true]
     = [true; true; true; true].
Proof. vm_compute. auto. Qed.

(** ** The document converter *)

Section Converter.

Variable image : Type.
Variable convert_from_bytes : bytes -> list image + exn.
Variable save_jpeg : image -> bytes + exn.

Lemma file_read_returns f w :
  file_read f w = (Ret (unread f w), after_read f w).
Proof. reflexivity. Qed.

Lemma body_returns f w page pages jpeg :
  convert_from_bytes (unread f w) = inl (page :: pages) ->
  save_jpeg page = inl jpeg ->
  input_pdf_setup_body image convert_from_bytes save_jpeg (Some f) w
  = (Ret [jpeg_part jpeg],
     emit (ConvertFromBytes (unread f w)) (after_read f w)).
Proof.
  intros Hconv Hsave. unfold input_pdf_setup_body.
  rewrite (bind_returns _ _ _ _ _ (file_read_returns f w)).
  unfold bind, pdf2image_convert, index0, image_save_jpeg, ret.
  rewrite Hconv, Hsave. reflexivity.
Qed.

Lemma setup_miss f w page pages jpeg :
  cache w !! Some (file_id f) = None ->
  convert_from_bytes (unread f w) = inl (page :: pages) ->
  save_jpeg page = inl jpeg ->
  input_pdf_setup image convert_from_bytes save_jpeg (Some f) w
  = (Ret [jpeg_part jpeg],
     set_cache (Some (file_id f)) [jpeg_part jpeg]
       (emit (ConvertFromBytes (unread f w)) (after_read f w))).
Proof.
  intros Hmiss Hconv Hsave. unfold input_pdf_setup, st_cache_data.
  cbn [cache_key fmap option_fmap option_map]. rewrite Hmiss.
  rewrite (body_returns _ _ _ _ _ Hconv Hsave). reflexivity.
Qed.

Lemma setup_hit f w v :
  cache w !! Some (file_id f) = Some v ->
  input_pdf_setup image convert_from_bytes save_jpeg (Some f) w = (Ret v, w).
Proof.
  intros Hhit. unfold input_pdf_setup, st_cache_data.
  cbn [cache_key fmap option_fmap option_map]. rewrite Hhit. reflexivity.
Qed.

(** The body raises on None, so nothing is ever stored under that key. *)
Lemma none_never_cached up w :
  cache w !! None = None ->
  cache (snd (input_pdf_setup image convert_from_bytes save_jpeg up w)) !! None
  = None.
Proof.
  intros Hnone. unfold input_pdf_setup, st_cache_data.
  destruct (cache w !! cache_key up) eqn:Hk; [exact Hnone|].
  destruct up as [f|].
  - destruct (input_pdf_setup_body _ _ _ (Some f) w) as [[v|e] w'] eqn:Hb.
    + cbn [snd set_cache cache cache_key fmap option_fmap option_map].
      rewrite lookup_insert_ne by discriminate.
      revert Hb. unfold input_pdf_setup_body, bind, file_read,
        pdf2image_convert, index0, image_save_jpeg, ret, raise.
      destruct (convert_from_bytes _) as [[|pg pgs]|]; try discriminate;
        destruct (save_jpeg _); intros [= _ <-]; exact Hnone.
    + cbn [snd]. revert Hb. unfold input_pdf_setup_body, bind, file_read,
        pdf2image_convert, index0, image_save_jpeg, ret, raise.
      destruct (convert_from_bytes _) as [[|pg pgs]|];
        [| destruct (save_jpeg _) |]; intros [= _ <-]; exact Hnone.
  - exact Hnone.
Qed.

(** C6. For a call that is not answered from the cache: with no uploaded
    file input_pdf_setup raises FileNotFoundError("No file uploaded") and
    does nothing else; with a file whose bytes pdf2image turns into pages,
    it returns a list of exactly one record whose mime type is image/jpeg
    and whose data is the base64 text of the JPEG encoding of the first
    page, that is the one text that the decoder of RFC 4648 turns back into
    those bytes; later pages play no part, and the bytes are rasterized
    once.  The bytes converted are those read from the file, which for a
    file not read before is its whole content. *)
Theorem input_pdf_setup_contract :
  forall (uploaded : option UploadedFile) (w : world),
    cache w !! cache_key uploaded = None ->
    match uploaded with
    | None =>
      input_pdf_setup image convert_from_bytes save_jpeg None w
      = (Raise (FileNotFoundError (str "No file uploaded")), w)
    | Some f =>
      forall (page : image) (pages : list image) (jpeg : bytes),
        convert_from_bytes (unread f w) = inl (page :: pages) ->
        save_jpeg page = inl jpeg ->
        let r := input_pdf_setup image convert_from_bytes save_jpeg
                   (Some f) w in
        fst r = Ret [ {| mime_type := str "image/jpeg";
                         data := b64encode jpeg |} ]
        /\ (forall text : pystr,
              b64decode text = Some jpeg <-> text = b64encode jpeg)
        /\ trace (snd r) = trace w ++ [ConvertFromBytes (unread f w)]
        /\ (cursor w !! file_id f = None -> unread f w = file_bytes f)
    end.
Proof.
  intros [f|] w Hmiss.
  - intros page pages jpeg Hconv Hsave r. subst r.
    rewrite (setup_miss _ _ _ _ _ Hmiss Hconv Hsave).
    split; [reflexivity|]. split; [intros text; apply b64encode_unique|].
    split; [reflexivity|].
    intros Hfresh. unfold unread. rewrite Hfresh. reflexivity.
  - unfold input_pdf_setup, st_cache_data. rewrite Hmiss. reflexivity.
Qed.

End Converter.

(** ** Runs that neither rasterize nor touch the cache *)

Lemma only_sends_refl w : only_sends [] w w.
Proof. repeat split. symmetry. apply app_nil_r. Qed.

Lemma only_sends_trans qs1 qs2 w1 w2 w3 :
  only_sends qs1 w1 w2 -> only_sends qs2 w2 w3 ->
  only_sends (qs1 ++ qs2) w1 w3.
Proof.
  intros (Hr1 & Hc1 & Hq1) (Hr2 & Hc2 & Hq2). repeat split.
  - congruence.
  - congruence.
  - rewrite Hq2, Hq1, app_assoc. reflexivity.
Qed.

Lemma only_sends_emit e w :
  rasterizations [e] = [] ->
  only_sends (requests [e]) w (emit e w).
Proof.
  intros He. unfold only_sends. cbn [emit trace cache].
  rewrite rasterizations_app, requests_app, He, app_nil_r. auto.
Qed.

(** A computation followed by a continuation that sends nothing. *)
Lemma only_sends_bind {A B} (m : M A) (k : A -> M B) qs w :
  only_sends qs w (snd (m w)) ->
  (forall a w1, only_sends [] w1 (snd (k a w1))) ->
  only_sends qs w (snd (bind m k w)).
Proof.
  intros Hm Hk. unfold bind. destruct (m w) as [[a|e] w1]; cbn [snd] in *.
  - rewrite <- (app_nil_r qs). eapply only_sends_trans; [exact Hm | apply Hk].
  - exact Hm.
Qed.

Lemma py_get_pure v key dflt w : snd (py_get v key dflt w) = w.
Proof. destruct v; reflexivity. Qed.

Lemma py_join_pure sep v w : snd (py_join sep v w) = w.
Proof.
  destruct v; try reflexivity. unfold py_join.
  destruct (all_str l); reflexivity.
Qed.

Lemma write_skills_quiet v label w :
  only_sends [] w (snd (write_skills v label w)).
Proof.
  unfold write_skills. apply only_sends_bind.
  - rewrite py_get_pure. apply only_sends_refl.
  - intros a w1. apply only_sends_bind.
    + rewrite py_join_pure. apply only_sends_refl.
    + intros joined w2. apply (only_sends_emit (StWrite _)). reflexivity.
Qed.

Lemma render_keywords_quiet v w :
  only_sends [] w (snd (render_keywords v w)).
Proof.
  unfold render_keywords. destruct (truthy v).
  - apply only_sends_bind.
    + apply (only_sends_emit (StSubheader _)). reflexivity.
    + intros _ w1. apply only_sends_bind; [apply write_skills_quiet|].
      intros _ w2. apply only_sends_bind; [apply write_skills_quiet|].
      intros _ w3. apply write_skills_quiet.
  - apply (only_sends_emit (StError _)). reflexivity.
Qed.

Section Reuse.

Variable image : Type.
Variable generate_content : list event -> request -> pystr + exn.
Variable convert_from_bytes : bytes -> list image + exn.
Variable save_jpeg : image -> bytes + exn.

Lemma response_sends_once prompt img rest job w :
  only_sends [request_of prompt img job] w
    (snd (get_gemini_response generate_content prompt (img :: rest) job w)).
Proof.
  destruct (generate_content (trace w) (request_of prompt img job))
    as [text|e] eqn:Hout.
  - rewrite (response_on_text _ _ _ _ _ _ _ Hout).
    apply (only_sends_emit (GenerateContent _)). reflexivity.
  - rewrite (response_on_exception _ _ _ _ _ _ _ Hout).
    destruct (is_ResourceExhausted e); cbn [snd].
    + rewrite <- (app_nil_r [_]).
      eapply only_sends_trans.
      * apply (only_sends_emit (GenerateContent _)). reflexivity.
      * apply (only_sends_emit (Sleep _)). reflexivity.
    + apply (only_sends_emit (GenerateContent _)). reflexivity.
Qed.

Lemma keywords_sends_once prompt img rest job w :
  only_sends [request_of prompt img job] w
    (snd (get_gemini_response_keywords generate_content prompt (img :: rest)
            job w)).
Proof.
  destruct (generate_content (trace w) (request_of prompt img job))
    as [text|e] eqn:Hout.
  - rewrite (keywords_on_text _ _ _ _ _ _ _ Hout).
    apply (only_sends_emit (GenerateContent _)). reflexivity.
  - rewrite (keywords_on_exception _ _ _ _ _ _ _ Hout).
    destruct (_ || _); apply (only_sends_emit (GenerateContent _));
      reflexivity.
Qed.

Lemma respond_sends_once b text img rest w :
  only_sends [request_of (prompt_of b) img text] w
    (snd (respond generate_content b text (img :: rest) w)).
Proof.
  destruct b; cbn [respond prompt_of].
  - apply only_sends_bind; [apply response_sends_once|].
    intros response w1. apply only_sends_bind.
    + apply (only_sends_emit (StSubheader _)). reflexivity.
    + intros _ w2. apply (only_sends_emit (StWrite _)). reflexivity.
  - apply only_sends_bind; [apply keywords_sends_once|].
    intros response w1. apply render_keywords_quiet.
  - apply only_sends_bind; [apply response_sends_once|].
    intros response w1. apply only_sends_bind.
    + apply (only_sends_emit (StSubheader _)). reflexivity.
    + intros _ w2. apply (only_sends_emit (StWrite _)). reflexivity.
Qed.

(** A press that passes the validation runs the converter on the session's
    file and then the response part of its button. *)
Lemma accepted_press b text up w f :
  strip text <> [] ->
  slot_after_layout up w = Some f ->
  run_script image generate_content convert_from_bytes save_jpeg
    (press b text up) w
  = bind (input_pdf_setup image convert_from_bytes save_jpeg (Some f))
      (respond generate_content b text)
      (emit (StSpinner (spinner_of b)) (after_layout up w)).
Proof.
  intros Htext Hslot.
  assert (Hval : validate_inputs (press b text up) (after_layout up w)
                 = (Ret true, after_layout up w)).
  { apply (validate_ok _ _ f); [destruct b; exact Htext|].
    cbn [after_layout resume]. rewrite Hslot. reflexivity. }
  assert (Hres : session_resume (emit (StSpinner (spinner_of b))
                                   (after_layout up w))
                 = (Ret (Some f), emit (StSpinner (spinner_of b))
                                    (after_layout up w))).
  { unfold session_resume. cbn [emit after_layout resume]. rewrite Hslot.
    reflexivity. }
  unfold run_script.
  rewrite (bind_returns _ _ _ _ _ (layout_spec (press b text up) w)).
  fold (after_layout up w). unfold button_actions.
  destruct b; cbn [press submit1 submit2 submit3 py_and].
  - rewrite (bind_returns _ _ _ _ _ Hval).
    unfold action1.
    rewrite (bind_returns _ _ _ _ _ (do_returns _ _)).
    rewrite (bind_returns _ _ _ _ _ Hres). reflexivity.
  - rewrite (bind_returns _ _ _ false (after_layout up w)) by reflexivity.
    rewrite (bind_returns _ _ _ _ _ Hval).
    unfold action2.
    rewrite (bind_returns _ _ _ _ _ (do_returns _ _)).
    rewrite (bind_returns _ _ _ _ _ Hres). reflexivity.
  - rewrite (bind_returns _ _ _ false (after_layout up w)) by reflexivity.
    rewrite (bind_returns _ _ _ false (after_layout up w)) by reflexivity.
    rewrite (bind_returns _ _ _ _ _ Hval).
    unfold action3.
    rewrite (bind_returns _ _ _ _ _ (do_returns _ _)).
    rewrite (bind_returns _ _ _ _ _ Hres). reflexivity.
Qed.

End Reuse.

(** ** Whole runs of the script *)

Lemma fenced_example_trimmed :
  strip_fence (strip FENCED_EXAMPLE) = trim 7 3 FENCED_EXAMPLE.
Proof. vm_compute. reflexivity. Qed.

Lemma fenced_example_parses lim :
  (2 <= max_nesting lim)%nat ->
  json_loads lim (strip_fence (strip FENCED_EXAMPLE)) = Scanned EXAMPLE_SKILLS.
Proof.
  intros Hdepth.
  apply (json_loads_deepens
           {| max_nesting := 2; max_int_digits := max_int_digits lim |});
    [vm_compute; reflexivity | discriminate | exact Hdepth | reflexivity].
Qed.

(** The slice of the keyword path removes the first 7 and the last 3
    characters, whatever the text. *)
Lemma slice_7_3_trim {A} (s : list A) : slice s 7 (-3) = trim 7 3 s.
Proof.
  unfold slice, trim, slice_bound.
  rewrite skipn_rev, rev_involutive, length_drop.
  change (7 <? 0)%Z with false. change (-3 <? 0)%Z with true.
  cbv beta iota.
  destruct (decide (length s < 7)%nat) as [Hlt|Hge].
  - rewrite (drop_ge s 7) by lia.
    rewrite Z.min_r by lia. rewrite Nat2Z.id.
    rewrite (drop_ge s (length s)) by lia. rewrite !take_nil. reflexivity.
  - rewrite Z.min_l by lia. change (Z.to_nat 7) with 7%nat.
    f_equal. lia.
Qed.

Lemma strip_fence_trims text :
  startswith text FENCE = true -> strip_fence text = trim 7 3 text.
Proof. intros H. unfold strip_fence. rewrite H. apply slice_7_3_trim. Qed.

Section Runs.

Variable image : Type.
Variable generate_content : list event -> request -> pystr + exn.
Variable convert_from_bytes : bytes -> list image + exn.
Variable save_jpeg : image -> bytes + exn.

Lemma spinner_quiet b up w :
  only_sends [] w (emit (StSpinner (spinner_of b)) (after_layout up w)).
Proof.
  unfold only_sends. cbn [emit after_layout trace cache].
  rewrite !rasterizations_app, !requests_app.
  destruct (layout_events_quiet up) as [-> ->].
  cbn [rasterizations requests]. rewrite !app_nil_r. auto.
Qed.

(** A press whose page image is already in the cache. *)
Lemma cached_press b text up f img rest w :
  strip text <> [] ->
  slot_after_layout up w = Some f ->
  cache w !! Some (file_id f) = Some (img :: rest) ->
  only_sends [request_of (prompt_of b) img text] w
    (snd (run_script image generate_content convert_from_bytes save_jpeg
            (press b text up) w)).
Proof.
  intros Htext Hslot Hhit.
  rewrite (accepted_press _ _ _ _ _ _ _ _ _ Htext Hslot).
  rewrite (bind_returns _ _ _ _ _
             (setup_hit _ _ _ f
                (emit (StSpinner (spinner_of b)) (after_layout up w))
                (img :: rest) Hhit)).
  change [request_of (prompt_of b) img text]
    with ([] ++ [request_of (prompt_of b) img text]).
  eapply only_sends_trans; [apply spinner_quiet | apply respond_sends_once].
Qed.

Lemma cached_presses f img rest later :
  forall w,
    cache w !! Some (file_id f) = Some (img :: rest) ->
    Forall (fun bp => strip (snd bp) <> []) later ->
    only_sends
      (List.map (fun bp => request_of (prompt_of (fst bp)) img (snd bp)) later)
      w
      (presses image generate_content convert_from_bytes save_jpeg later
         (Some f) w).
Proof.
  induction later as [|[b text] later IH]; intros w Hhit Hall.
  - apply only_sends_refl.
  - inversion Hall as [|? ? Htext Hrest]; subst.
    cbn [presses fold_left List.map fst snd].
    pose proof (cached_press b text (Some f) f img rest w Htext eq_refl Hhit)
      as Hstep.
    change (?q :: ?qs) with ([q] ++ qs).
    eapply only_sends_trans; [exact Hstep|].
    apply IH; [|exact Hrest].
    destruct Hstep as (_ & -> & _). exact Hhit.
Qed.

(** The first press on a fresh upload: one rasterization, one request with
    the new page image, and the image stored under the file's identity. *)
Lemma first_press b text f w page pages jpeg :
  strip text <> [] ->
  cache w !! Some (file_id f) = None ->
  convert_from_bytes (unread f w) = inl (page :: pages) ->
  save_jpeg page = inl jpeg ->
  let w1 := snd (run_script image generate_content convert_from_bytes
                   save_jpeg (press b text (Some f)) w) in
  rasterizations (trace w1) = rasterizations (trace w) ++ [unread f w]
  /\ requests (trace w1)
     = requests (trace w) ++ [request_of (prompt_of b) (jpeg_part jpeg) text]
  /\ cache w1 = <[Some (file_id f) := [jpeg_part jpeg]]> (cache w).
Proof.
  intros Htext Hmiss Hconv Hsave w1. subst w1.
  rewrite (accepted_press _ _ _ _ _ _ (Some f) _ f Htext eq_refl).
  erewrite bind_returns.
  2: { apply (setup_miss _ _ _ f _ page pages jpeg);
       [exact Hmiss | exact Hconv | exact Hsave]. }
  match goal with
  | |- context [respond _ _ _ _ ?w0] =>
    destruct (respond_sends_once generate_content b text (jpeg_part jpeg) []
                w0) as (Hr & Hc & Hq)
  end.
  rewrite Hr, Hc, Hq.
  cbn [set_cache emit after_read after_layout set_cursor trace cache].
  rewrite !rasterizations_app, !requests_app.
  destruct (layout_events_quiet (Some f)) as [-> ->].
  cbn [rasterizations requests unread]. rewrite !app_nil_r.
  repeat split.
Qed.

(** C7. After a first press on a fresh upload has rasterized the file, every
    later press of any button with the same file object in the picker finds
    the page image under the file's identity: the later runs hand nothing
    to pdf2image, leave the cache as it is, and each sends the very image
    computed by the first press. *)
Theorem repeated_presses_reuse_page_image :
  forall (b1 : button) (t1 : pystr) (later : list (button * pystr))
         (f : UploadedFile) (w : world) (page : image) (pages : list image)
         (jpeg : bytes),
    strip t1 <> [] ->
    Forall (fun bp => strip (snd bp) <> []) later ->
    cache w !! Some (file_id f) = None ->
    convert_from_bytes (unread f w) = inl (page :: pages) ->
    save_jpeg page = inl jpeg ->
    let w1 := snd (run_script image generate_content convert_from_bytes
                     save_jpeg (press b1 t1 (Some f)) w) in
    let w2 := presses image generate_content convert_from_bytes save_jpeg
                later (Some f) w1 in
    rasterizations (trace w1) = rasterizations (trace w) ++ [unread f w]
    /\ cache w1 !! Some (file_id f) = Some [jpeg_part jpeg]
    /\ rasterizations (trace w2) = rasterizations (trace w1)
    /\ cache w2 = cache w1
    /\ requests (trace w2)
       = requests (trace w1)
         ++ List.map
              (fun bp => request_of (prompt_of (fst bp)) (jpeg_part jpeg)
                           (snd bp))
              later.
Proof.
  intros b1 t1 later f w page pages jpeg Ht1 Hlater Hmiss Hconv Hsave w1 w2.
  destruct (first_press b1 t1 f w page pages jpeg Ht1 Hmiss Hconv Hsave)
    as (Hr1 & _ & Hc1).
  fold w1 in Hr1, Hc1.
  assert (Hhit : cache w1 !! Some (file_id f) = Some [jpeg_part jpeg]).
  { rewrite Hc1. apply lookup_insert_eq. }
  split; [exact Hr1|]. split; [exact Hhit|].
  exact (cached_presses f (jpeg_part jpeg) [] later w1 Hhit Hlater).
Qed.

Lemma example_skill_lists :
  truthy EXAMPLE_SKILLS = true
  /\ skill_list
       match EXAMPLE_SKILLS with JDict d => d | _ => [] end
       (str "Technical Skills") = Some [str "A"]
  /\ skill_list
       match EXAMPLE_SKILLS with JDict d => d | _ => [] end
       (str "Analytical Skills") = Some []
  /\ skill_list
       match EXAMPLE_SKILLS with JDict d => d | _ => [] end
       (str "Soft Skills") = Some [str "B"].
Proof. vm_compute. auto. Qed.

Lemma example_lines :
  skills_line (str "Technical Skills") (join (str ", ") [str "A"])
  = str "**Technical Skills:** A"
  /\ skills_line (str "Analytical Skills") (join (str ", ") [])
     = str "**Analytical Skills:** "
  /\ skills_line (str "Soft Skills") (join (str ", ") [str "B"])
     = str "**Soft Skills:** B".
Proof. vm_compute. auto. Qed.

(** C1. In a run where a file is uploaded whose bytes pdf2image turns into
    one page, the job text is not blank, "Get Keywords" is pressed and the
    model answers with the fenced example, get_gemini_response_keywords
    drops the first 7 and the last 3 characters of the answer, parses the
    rest as JSON into the three skill lists, and the run renders, after the
    subheader, the three lines whose visible text is "Technical Skills: A",
    "Analytical Skills: " and "Soft Skills: B".  The example nests an array
    in an object, so the interpreter must let the scanner enter two
    levels. *)
Theorem fenced_keywords_rendered :
  forall (text : pystr) (f : UploadedFile) (w : world) (page : image)
         (jpeg : bytes),
    (2 <= max_nesting (interpreter w))%nat ->
    strip text <> [] ->
    cache w !! Some (file_id f) = None ->
    convert_from_bytes (unread f w) = inl [page] ->
    save_jpeg page = inl jpeg ->
    (forall tr,
        generate_content tr (request_of input_prompt2 (jpeg_part jpeg) text)
        = inl FENCED_EXAMPLE) ->
    (forall t, startswith t FENCE = true -> strip_fence t = trim 7 3 t)
    /\ strip_fence (strip FENCED_EXAMPLE) = trim 7 3 FENCED_EXAMPLE
    /\ json_loads (interpreter w) (trim 7 3 FENCED_EXAMPLE)
       = Scanned EXAMPLE_SKILLS
    /\ (forall w',
          (2 <= max_nesting (interpreter w'))%nat ->
          get_gemini_response_keywords generate_content input_prompt2
            [jpeg_part jpeg] text w'
          = (Ret EXAMPLE_SKILLS,
             emit (GenerateContent
                     (request_of input_prompt2 (jpeg_part jpeg) text)) w'))
    /\ (let r := run_script image generate_content convert_from_bytes
                   save_jpeg (press GetKeywords text (Some f)) w in
        fst r = Ret tt
        /\ trace (snd r)
           = trace w ++ layout_events (Some f)
             ++ [StSpinner (str "Extracting keywords...");
                 ConvertFromBytes (unread f w);
                 GenerateContent
                   (request_of input_prompt2 (jpeg_part jpeg) text);
                 StSubheader (str "Extracted Skills");
                 StWrite (str "**Technical Skills:** A");
                 StWrite (str "**Analytical Skills:** ");
                 StWrite (str "**Soft Skills:** B")])
    /\ List.map markdown_text
         [str "**Technical Skills:** A"; str "**Analytical Skills:** ";
          str "**Soft Skills:** B"]
       = [str "Technical Skills: A"; str "Analytical Skills: ";
          str "Soft Skills: B"].
Proof.
  intros text f w page jpeg Hdepth Htext Hmiss Hconv Hsave Hresp.
  assert (Hkw : forall w',
             (2 <= max_nesting (interpreter w'))%nat ->
             get_gemini_response_keywords generate_content input_prompt2
               [jpeg_part jpeg] text w'
             = (Ret EXAMPLE_SKILLS,
                emit (GenerateContent
                        (request_of input_prompt2 (jpeg_part jpeg) text)) w')).
  { intros w' Hd'.
    rewrite (keywords_on_text _ _ _ _ _ _ _ (Hresp (trace w'))).
    rewrite (fenced_example_parses _ Hd'). reflexivity. }
  split; [exact strip_fence_trims|].
  split; [exact fenced_example_trimmed|].
  split; [rewrite <- fenced_example_trimmed;
          exact (fenced_example_parses _ Hdepth)|].
  split; [exact Hkw|].
  split; [|vm_compute; reflexivity].
  rewrite (accepted_press _ _ _ _ _ _ (Some f) _ f Htext eq_refl).
  erewrite bind_returns.
  2: { apply (setup_miss _ _ _ f _ page [] jpeg);
       [exact Hmiss | exact Hconv | exact Hsave]. }
  cbn [respond]. erewrite bind_returns by (apply Hkw; exact Hdepth).
  destruct example_skill_lists as (Ht & H1 & H2 & H3).
  destruct example_lines as (L1 & L2 & L3).
  unfold EXAMPLE_SKILLS in *.
  rewrite (render_skill_lists _ _ _ _ _ Ht H1 H2 H3).
  rewrite L1, L2, L3.
  cbn [fst snd set_cache emit after_read after_layout set_cursor trace
       spinner_of unread].
  rewrite <- !app_assoc. split; reflexivity.
Qed.

(** C9 (amended). For every exception the provider call raises other than
    quota exhaustion, get_gemini_response does not handle it and raises it
    to its caller right after the one request, without sleeping.
    get_gemini_response_keywords does the same, except for a
    json.JSONDecodeError: its except clause spans the provider call too, so
    it catches that one and returns None.  A run of the script in which the
    call of the pressed button raises an exception the function does not
    handle ends with that exception, nothing being rendered after the
    request. *)
Theorem other_provider_errors_propagate :
  forall (e : exn) (prompt : pystr) (img : part) (rest : list part)
         (job : pystr) (w : world),
    is_ResourceExhausted e = false ->
    generate_content (trace w) (request_of prompt img job) = inr e ->
    get_gemini_response generate_content prompt (img :: rest) job w
    = (Raise e, emit (GenerateContent (request_of prompt img job)) w)
    /\ get_gemini_response_keywords generate_content prompt (img :: rest)
         job w
       = (if is_JSONDecodeError e then Ret JNull else Raise e,
          emit (GenerateContent (request_of prompt img job)) w)
    /\ forall (b : button) (up : option UploadedFile) (f : UploadedFile)
              (w0 : world),
         prompt = prompt_of b ->
         (b = GetKeywords -> is_JSONDecodeError e = false) ->
         strip job <> [] ->
         slot_after_layout up w0 = Some f ->
         input_pdf_setup image convert_from_bytes save_jpeg (Some f)
           (emit (StSpinner (spinner_of b)) (after_layout up w0))
         = (Ret (img :: rest), w) ->
         run_script image generate_content convert_from_bytes save_jpeg
           (press b job up) w0
         = (Raise e, emit (GenerateContent (request_of prompt img job)) w).
Proof.
  intros e prompt img rest job w Hne H.
  assert (H1 : get_gemini_response generate_content prompt (img :: rest) job w
               = (Raise e,
                  emit (GenerateContent (request_of prompt img job)) w)).
  { rewrite (response_on_exception _ _ _ _ _ _ _ H), Hne. reflexivity. }
  assert (H2 : get_gemini_response_keywords generate_content prompt
                 (img :: rest) job w
               = (if is_JSONDecodeError e then Ret JNull else Raise e,
                  emit (GenerateContent (request_of prompt img job)) w)).
  { rewrite (keywords_on_exception _ _ _ _ _ _ _ H), Hne.
    destruct (is_JSONDecodeError e); reflexivity. }
  split; [exact H1|]. split; [exact H2|].
  intros b up f w0 -> Hkw Hjob Hslot Hpdf.
  rewrite (accepted_press _ _ _ _ _ _ _ _ _ Hjob Hslot).
  rewrite (bind_returns _ _ _ _ _ Hpdf).
  destruct b; cbn [respond prompt_of] in *.
  - apply (bind_raises _ _ _ _ _ H1).
  - rewrite (Hkw eq_refl) in H2. apply (bind_raises _ _ _ _ _ H2).
  - apply (bind_raises _ _ _ _ _ H1).
Qed.

End Runs.

(** ** The statements on the concrete session *)

Lemma fenced_keywords_rendered_witness :
  let r := run_script bytes (answers FENCED_EXAMPLE) sample_convert sample_save
             (press GetKeywords sample_job (Some sample_file)) fresh_world in
  fst r = Ret tt
  /\ trace (snd r)
     = trace fresh_world ++ layout_events (Some sample_file)
       ++ [StSpinner (str "Extracting keywords...");
           ConvertFromBytes (unread sample_file fresh_world);
           GenerateContent (request_of input_prompt2 sample_image sample_job);
           StSubheader (str "Extracted Skills");
           StWrite (str "**Technical Skills:** A");
           StWrite (str "**Analytical Skills:** ");
           StWrite (str "**Soft Skills:** B")].
Proof.
  apply (fenced_keywords_rendered bytes (answers FENCED_EXAMPLE)
           sample_convert sample_save sample_job sample_file fresh_world
           (file_bytes sample_file) (file_bytes sample_file)).
  - vm_compute. lia.
  - vm_compute. discriminate.
  - reflexivity.
  - reflexivity.
  - reflexivity.
  - reflexivity.
Defined.

Lemma quota_exhaustion_returns_warning_witness :
  fst (get_gemini_response (fails (GoogleAPIError ResourceExhausted))
         input_prompt1 [sample_image] sample_job fresh_world)
  = Ret QUOTA_WARNING.
Proof.
  apply (quota_exhaustion_returns_warning
           (fails (GoogleAPIError ResourceExhausted))
           input_prompt1 sample_image [] sample_job fresh_world).
  reflexivity.
Defined.

(** C3 as stated fails: a model answer that is the JSON text null makes
    get_gemini_response_keywords return None although the call did not
    raise and the text is valid JSON. *)
Lemma null_answer_returns_none :
  ~ (fst (get_gemini_response_keywords (answers (str "null")) input_prompt2
            [sample_image] sample_job fresh_world) = Ret JNull
     <-> (answers (str "null") (trace fresh_world)
            (request_of input_prompt2 sample_image sample_job)
          = inr (GoogleAPIError ResourceExhausted)
          \/ exists text,
               answers (str "null") (trace fresh_world)
                 (request_of input_prompt2 sample_image sample_job)
               = inl text
               /\ forall v,
                    json_loads (interpreter fresh_world)
                      (strip_fence (strip text)) <> Scanned v)).
Proof.
  intros [Hif _].
  destruct Hif as [Hq | (text & Ht & Hbad)].
  - vm_compute. reflexivity.
  - discriminate Hq.
  - unfold answers in Ht. injection Ht as <-.
    apply (Hbad JNull). vm_compute. reflexivity.
Qed.

Lemma blank_job_description_rejected_witness :
  trace (snd (run_script bytes (answers []) sample_convert sample_save
                (press PercentageMatch (str "  ") (Some sample_file))
                fresh_world))
  = trace fresh_world ++ layout_events (Some sample_file)
    ++ [StWarning (str "Please enter a job description.")].
Proof.
  apply (blank_job_description_rejected bytes (answers []) sample_convert
           sample_save PercentageMatch (str "  ") (Some sample_file)
           fresh_world).
  reflexivity.
Defined.

Lemma missing_upload_rejected_witness :
  trace (snd (run_script bytes (answers []) sample_convert sample_save
                (press TellMeAboutTheResume sample_job None) fresh_world))
  = trace fresh_world ++ layout_events None
    ++ [StWarning (str "Please upload a resume.")].
Proof.
  apply (missing_upload_rejected bytes (answers []) sample_convert
           sample_save TellMeAboutTheResume sample_job fresh_world).
  - vm_compute. discriminate.
  - left. reflexivity.
Defined.

Lemma input_pdf_setup_contract_witness :
  input_pdf_setup bytes sample_convert sample_save None fresh_world
  = (Raise (FileNotFoundError (str "No file uploaded")), fresh_world)
  /\ fst (input_pdf_setup bytes sample_convert sample_save (Some sample_file)
            fresh_world)
     = Ret [ {| mime_type := str "image/jpeg"; data := str "JVBERi0xLjQ=" |} ]
  /\ b64decode (str "JVBERi0xLjQ=") = Some (file_bytes sample_file).
Proof.
  split; [|split].
  - apply (input_pdf_setup_contract bytes sample_convert sample_save None
             fresh_world).
    reflexivity.
  - apply (input_pdf_setup_contract bytes sample_convert sample_save
             (Some sample_file) fresh_world eq_refl
             (file_bytes sample_file) [] (file_bytes sample_file));
      reflexivity.
  - apply (proj1 (proj2 (input_pdf_setup_contract bytes sample_convert
                           sample_save (Some sample_file) fresh_world eq_refl
                           (file_bytes sample_file) []
                           (file_bytes sample_file) eq_refl eq_refl))
             (str "JVBERi0xLjQ=")).
    vm_compute. reflexivity.
Defined.

Lemma repeated_presses_reuse_page_image_witness :
  let w1 := snd (run_script bytes (answers (str "ok")) sample_convert
                   sample_save
                   (press TellMeAboutTheResume sample_job (Some sample_file))
                   fresh_world) in
  let w2 := presses bytes (answers (str "ok")) sample_convert sample_save
              [(GetKeywords, sample_job); (PercentageMatch, str "Go")]
              (Some sample_file) w1 in
  rasterizations (trace w2) = rasterizations (trace w1).
Proof.
  apply (repeated_presses_reuse_page_image bytes (answers (str "ok"))
           sample_convert sample_save TellMeAboutTheResume sample_job
           [(GetKeywords, sample_job); (PercentageMatch, str "Go")]
           sample_file fresh_world (file_bytes sample_file) []
           (file_bytes sample_file)).
  - vm_compute. discriminate.
  - repeat constructor; vm_compute; discriminate.
  - reflexivity.
  - reflexivity.
  - reflexivity.
Defined.

Lemma keywords_rendered_as_joined_lists_witness :
  trace (snd (render_keywords
                (JDict [(str "Technical Skills",
                         JList [JStr (str "SQL"); JStr (str "Go")])])
                fresh_world))
  = trace fresh_world
    ++ [StSubheader (str "Extracted Skills");
        StWrite (str "**Technical Skills:** SQL, Go");
        StWrite (str "**Analytical Skills:** ");
        StWrite (str "**Soft Skills:** ")].
Proof.
  refine (eq_trans
            (proj2 (proj1 (keywords_rendered_as_joined_lists
                             [(str "Technical Skills",
                               JList [JStr (str "SQL"); JStr (str "Go")])]
                             [str "SQL"; str "Go"] [] [] fresh_world
                             eq_refl _ _ _))) _).
  - vm_compute. reflexivity.
  - vm_compute. reflexivity.
  - vm_compute. reflexivity.
  - vm_compute. reflexivity.
Defined.

Lemma other_provider_errors_propagate_witness :
  run_script bytes (fails (GoogleAPIError Unauthenticated)) sample_convert
    sample_save (press PercentageMatch sample_job (Some sample_file))
    fresh_world
  = (Raise (GoogleAPIError Unauthenticated),
     emit (GenerateContent (request_of input_prompt3 sample_image sample_job))
       (snd (input_pdf_setup bytes sample_convert sample_save
               (Some sample_file)
               (emit (StSpinner (spinner_of PercentageMatch))
                  (after_layout (Some sample_file) fresh_world))))).
Proof.
  apply (proj2 (proj2
           (other_provider_errors_propagate bytes
              (fails (GoogleAPIError Unauthenticated)) sample_convert
              sample_save (GoogleAPIError Unauthenticated) input_prompt3
              sample_image [] sample_job
              (snd (input_pdf_setup bytes sample_convert sample_save
                      (Some sample_file)
                      (emit (StSpinner (spinner_of PercentageMatch))
                         (after_layout (Some sample_file) fresh_world))))
              eq_refl eq_refl))
           PercentageMatch (Some sample_file) sample_file fresh_world).
  - reflexivity.
  - intros _. reflexivity.
  - vm_compute. discriminate.
  - reflexivity.
  - vm_compute. reflexivity.
Defined.

(** C9 as stated fails: json.JSONDecodeError is not quota exhaustion, yet
    when the provider call raises it get_gemini_response_keywords catches
    it and returns None instead of letting it propagate. *)
Lemma provider_decode_error_is_caught :
  ~ (is_ResourceExhausted JSONDecodeError = false ->
     fails JSONDecodeError (trace fresh_world)
       (request_of input_prompt2 sample_image sample_job)
     = inr JSONDecodeError ->
     fst (get_gemini_response_keywords (fails JSONDecodeError) input_prompt2
            [sample_image] sample_job fresh_world)
     = Raise JSONDecodeError).
Proof.
  intros H. specialize (H eq_refl eq_refl).
  vm_compute in H. discriminate H.
Qed.

Lemma falsy_result_shows_failure_witness :
  get_gemini_response_keywords (answers (str "{}")) input_prompt2
    [sample_image] sample_job fresh_world
  = (Ret (JDict []),
     emit (GenerateContent (request_of input_prompt2 sample_image sample_job))
       fresh_world).
Proof.
  apply (falsy_result_shows_failure (answers (str "{}")) input_prompt2
           sample_image [] sample_job fresh_world (str "{}") (JDict [])).
  - reflexivity.
  - vm_compute. reflexivity.
  - reflexivity.
Defined.

(* ===================================================================== *)
(** * Further properties *)
(* ===================================================================== *)

(** ** What an accepted press renders *)

Section Outcomes.

Variable image : Type.
Variable generate_content : list event -> request -> pystr + exn.
Variable convert_from_bytes : bytes -> list image + exn.
Variable save_jpeg : image -> bytes + exn.

(** X1. On the two narrative buttons, when the session holds a file, the job
    text is not blank, the page image is at hand and the model answers with
    a text, the run ends normally and renders, right after the one request,
    the button's subheader and then the answer itself, unchanged. *)
Theorem narrative_answer_rendered :
  forall (b : button) (up : option UploadedFile) (f : UploadedFile)
         (text : pystr) (w0 w : world) (img : part) (rest : list part)
         (answer : pystr),
    b <> GetKeywords ->
    strip text <> [] ->
    slot_after_layout up w0 = Some f ->
    input_pdf_setup image convert_from_bytes save_jpeg (Some f)
      (emit (StSpinner (spinner_of b)) (after_layout up w0))
    = (Ret (img :: rest), w) ->
    generate_content (trace w) (request_of (prompt_of b) img text)
    = inl answer ->
    run_script image generate_content convert_from_bytes save_jpeg
      (press b text up) w0
    = (Ret tt,
       emit (StWrite answer)
         (emit (StSubheader (subheader_of b))
            (emit (GenerateContent (request_of (prompt_of b) img text)) w))).
Proof.
  intros b up f text w0 w img rest answer Hb Htext Hslot Hpdf Hout.
  rewrite (accepted_press _ _ _ _ _ _ _ _ _ Htext Hslot).
  rewrite (bind_returns _ _ _ _ _ Hpdf).
  destruct b; [|congruence|]; cbn [respond prompt_of subheader_of] in *;
    rewrite (bind_returns _ _ _ _ _
               (response_on_text _ _ _ _ _ _ _ Hout));
    reflexivity.
Qed.

(** X2. On the two narrative buttons, when the call raises ResourceExhausted,
    the run still ends normally: after the request and the 10 second sleep
    it renders the button's subheader and the quota warning in the place of
    the answer. *)
Theorem narrative_quota_rendered :
  forall (b : button) (up : option UploadedFile) (f : UploadedFile)
         (text : pystr) (w0 w : world) (img : part) (rest : list part),
    b <> GetKeywords ->
    strip text <> [] ->
    slot_after_layout up w0 = Some f ->
    input_pdf_setup image convert_from_bytes save_jpeg (Some f)
      (emit (StSpinner (spinner_of b)) (after_layout up w0))
    = (Ret (img :: rest), w) ->
    generate_content (trace w) (request_of (prompt_of b) img text)
    = inr (GoogleAPIError ResourceExhausted) ->
    run_script image generate_content convert_from_bytes save_jpeg
      (press b text up) w0
    = (Ret tt,
       emit (StWrite QUOTA_WARNING)
         (emit (StSubheader (subheader_of b))
            (emit (Sleep 10)
               (emit (GenerateContent (request_of (prompt_of b) img text))
                  w)))).
Proof.
  intros b up f text w0 w img rest Hb Htext Hslot Hpdf Hout.
  rewrite (accepted_press _ _ _ _ _ _ _ _ _ Htext Hslot).
  rewrite (bind_returns _ _ _ _ _ Hpdf).
  destruct b; [|congruence|]; cbn [respond prompt_of subheader_of] in *;
    erewrite bind_returns
      by (rewrite (response_on_exception _ _ _ _ _ _ _ Hout); reflexivity);
    reflexivity.
Qed.

(** X3. On "Get Keywords", when the call raises ResourceExhausted, the run
    ends normally with the generic extraction-failure message right after
    the one request: this path does not sleep and shows no quota warning. *)
Theorem keywords_quota_shows_failure :
  forall (up : option UploadedFile) (f : UploadedFile) (text : pystr)
         (w0 w : world) (img : part) (rest : list part),
    strip text <> [] ->
    slot_after_layout up w0 = Some f ->
    input_pdf_setup image convert_from_bytes save_jpeg (Some f)
      (emit (StSpinner (spinner_of GetKeywords)) (after_layout up w0))
    = (Ret (img :: rest), w) ->
    generate_content (trace w) (request_of input_prompt2 img text)
    = inr (GoogleAPIError ResourceExhausted) ->
    run_script image generate_content convert_from_bytes save_jpeg
      (press GetKeywords text up) w0
    = (Ret tt,
       emit (StError EXTRACTION_FAILED)
         (emit (GenerateContent (request_of input_prompt2 img text)) w)).
Proof.
  intros up f text w0 w img rest Htext Hslot Hpdf Hout.
  rewrite (accepted_press _ _ _ _ _ _ _ _ _ Htext Hslot).
  rewrite (bind_returns _ _ _ _ _ Hpdf). cbn [respond].
  erewrite bind_returns
    by (rewrite (keywords_on_exception _ _ _ _ _ _ _ Hout); reflexivity).
  reflexivity.
Qed.

(** X4. On "Get Keywords", when json.loads refuses the model's answer,
    stripped and with its fence removed: if it raises JSONDecodeError the
    run ends normally with the generic extraction-failure message and
    renders no skill line; if it fails in another way (RecursionError,
    ValueError) the run ends with that exception right after the request,
    nothing more being rendered. *)
Theorem keywords_malformed_shows_failure :
  forall (up : option UploadedFile) (f : UploadedFile) (text : pystr)
         (w0 w : world) (img : part) (rest : list part) (answer : pystr)
         (e : decode_error),
    strip text <> [] ->
    slot_after_layout up w0 = Some f ->
    input_pdf_setup image convert_from_bytes save_jpeg (Some f)
      (emit (StSpinner (spinner_of GetKeywords)) (after_layout up w0))
    = (Ret (img :: rest), w) ->
    generate_content (trace w) (request_of input_prompt2 img text)
    = inl answer ->
    json_loads (interpreter w) (strip_fence (strip answer)) = Refused e ->
    run_script image generate_content convert_from_bytes save_jpeg
      (press GetKeywords text up) w0
    = match e with
      | DecodeError =>
        (Ret tt,
         emit (StError EXTRACTION_FAILED)
           (emit (GenerateContent (request_of input_prompt2 img text)) w))
      | _ =>
        (Raise (exn_of_decode_error e),
         emit (GenerateContent (request_of input_prompt2 img text)) w)
      end.
Proof.
  intros up f text w0 w img rest answer e Htext Hslot Hpdf Hout Hbad.
  rewrite (accepted_press _ _ _ _ _ _ _ _ _ Htext Hslot).
  rewrite (bind_returns _ _ _ _ _ Hpdf). cbn [respond].
  destruct e.
  - erewrite bind_returns
      by (rewrite (keywords_on_text _ _ _ _ _ _ _ Hout), Hbad; reflexivity).
    reflexivity.
  - erewrite bind_raises
      by (rewrite (keywords_on_text _ _ _ _ _ _ _ Hout), Hbad; reflexivity).
    reflexivity.
  - erewrite bind_raises
      by (rewrite (keywords_on_text _ _ _ _ _ _ _ Hout), Hbad; reflexivity).
    reflexivity.
Qed.

(** X5. With an empty page-image list both model-client functions raise
    IndexError before any request is sent: the exception comes from inside
    the try block and is not one the handlers catch. *)
Theorem empty_pdf_content_raises :
  forall (prompt job : pystr) (w : world),
    get_gemini_response generate_content prompt [] job w
    = (Raise IndexError, w)
    /\ get_gemini_response_keywords generate_content prompt [] job w
       = (Raise IndexError, w).
Proof. intros prompt job w. split; reflexivity. Qed.

End Outcomes.

(** ** The converter on bad input, and what it does to the file *)

Section ConverterEdges.

Variable image : Type.
Variable generate_content : list event -> request -> pystr + exn.
Variable convert_from_bytes : bytes -> list image + exn.
Variable save_jpeg : image -> bytes + exn.

(** Whatever the outcome, the body has read the file to its end and has
    handed what it read to pdf2image. *)
Lemma body_world f w :
  snd (input_pdf_setup_body image convert_from_bytes save_jpeg (Some f) w)
  = emit (ConvertFromBytes (unread f w)) (after_read f w).
Proof.
  unfold input_pdf_setup_body.
  rewrite (bind_returns _ _ _ _ _ (file_read_returns f w)).
  unfold bind, pdf2image_convert, index0, image_save_jpeg, ret, raise.
  destruct (convert_from_bytes (unread f w)) as [[|page pages]|e];
    try reflexivity.
  cbn [emit]. destruct (save_jpeg page); reflexivity.
Qed.

Lemma body_raises f w e :
  convert_from_bytes (unread f w) = inr e
  \/ (convert_from_bytes (unread f w) = inl [] /\ e = IndexError)
  \/ (exists page pages,
        convert_from_bytes (unread f w) = inl (page :: pages)
        /\ save_jpeg page = inr e) ->
  input_pdf_setup_body image convert_from_bytes save_jpeg (Some f) w
  = (Raise e, emit (ConvertFromBytes (unread f w)) (after_read f w)).
Proof.
  intros H. unfold input_pdf_setup_body.
  rewrite (bind_returns _ _ _ _ _ (file_read_returns f w)).
  unfold bind, pdf2image_convert, index0, image_save_jpeg, ret, raise.
  destruct H as [-> | [[-> ->] | (page & pages & -> & Hs)]];
    try reflexivity.
  cbn [emit]. rewrite Hs. reflexivity.
Qed.

(** X6. When the page image of the uploaded file has to be computed and
    the conversion fails (pdf2image raises, or returns no page so that
    taking the first one raises IndexError, or the JPEG encoder raises),
    an accepted press of any button ends with that exception: the spinner
    and the conversion attempt are the only events after the layout, and
    no request reaches the model. *)
Theorem conversion_failure_ends_run :
  forall (b : button) (text : pystr) (f : UploadedFile) (w : world)
         (e : exn),
    strip text <> [] ->
    cache w !! Some (file_id f) = None ->
    (convert_from_bytes (unread f w) = inr e
     \/ (convert_from_bytes (unread f w) = inl [] /\ e = IndexError)
     \/ (exists page pages,
           convert_from_bytes (unread f w) = inl (page :: pages)
           /\ save_jpeg page = inr e)) ->
    let r := run_script image generate_content convert_from_bytes save_jpeg
               (press b text (Some f)) w in
    fst r = Raise e
    /\ trace (snd r)
       = trace w ++ layout_events (Some f)
         ++ [StSpinner (spinner_of b); ConvertFromBytes (unread f w)]
    /\ requests (trace (snd r)) = requests (trace w).
Proof.
  intros b text f w e Htext Hmiss Hfail r. subst r.
  rewrite (accepted_press _ _ _ _ _ _ (Some f) _ f Htext eq_refl).
  erewrite bind_raises.
  2: { unfold input_pdf_setup, st_cache_data.
       cbn [cache_key fmap option_fmap option_map emit after_layout cache].
       rewrite Hmiss.
       rewrite (body_raises f _ e) by exact Hfail. reflexivity. }
  cbn [fst snd emit after_read after_layout set_cursor trace unread cursor].
  split; [reflexivity|].
  rewrite <- !app_assoc. split; [reflexivity|].
  rewrite !requests_app.
  destruct (layout_events_quiet (Some f)) as [-> _].
  cbn [requests]. rewrite !app_nil_r. reflexivity.
Qed.

(** X7. The converter body reads the upload from its current cursor and
    never rewinds: after one call, whatever its outcome, the file has no
    unread byte left, so a second run of the body on the same file object
    hands pdf2image the empty byte string. *)
Theorem converter_consumes_the_file :
  forall (f : UploadedFile) (w : world),
    let w1 := snd (input_pdf_setup_body image convert_from_bytes save_jpeg
                     (Some f) w) in
    let w2 := snd (input_pdf_setup_body image convert_from_bytes save_jpeg
                     (Some f) w1) in
    unread f w1 = []
    /\ trace w1 = trace w ++ [ConvertFromBytes (unread f w)]
    /\ trace w2 = trace w1 ++ [ConvertFromBytes []].
Proof.
  intros f w w1 w2.
  assert (Hdone : unread f w1 = []).
  { subst w1. rewrite body_world. unfold unread.
    cbn [emit after_read set_cursor cursor].
    rewrite lookup_insert_eq. cbn [from_option id].
    apply drop_ge. lia. }
  split; [exact Hdone|]. split.
  - subst w1. rewrite body_world. reflexivity.
  - subst w2. rewrite body_world, Hdone. reflexivity.
Qed.

(** X8. A run that no button triggered (typing in the text area, picking a
    file) renders the layout and nothing else: no validation warning, no
    spinner, no conversion, no request; its only lasting effect is the
    session slot, which takes the picked file when there is one. *)
Theorem no_button_no_action :
  forall (text : pystr) (up : option UploadedFile) (w : world),
    run_script image generate_content convert_from_bytes save_jpeg
      (no_press text up) w
    = (Ret tt,
       {| trace := trace w ++ layout_events up;
          resume := Some (match up with
                          | Some f => Some f
                          | None => default None (resume w)
                          end);
          cursor := cursor w;
          cache := cache w;
          interpreter := interpreter w |}).
Proof.
  intros text up w. unfold run_script.
  rewrite (bind_returns _ _ _ _ _ (layout_spec (no_press text up) w)).
  reflexivity.
Qed.

End ConverterEdges.

(** ** What a run can do at most *)

Lemma effects_refl w : effects [] [] w w.
Proof. split; symmetry; apply app_nil_r. Qed.

Lemma effects_trans qs1 bs1 qs2 bs2 w1 w2 w3 :
  effects qs1 bs1 w1 w2 -> effects qs2 bs2 w2 w3 ->
  effects (qs1 ++ qs2) (bs1 ++ bs2) w1 w3.
Proof.
  intros [Hq1 Hb1] [Hq2 Hb2]. split.
  - rewrite Hq2, Hq1, app_assoc. reflexivity.
  - rewrite Hb2, Hb1, app_assoc. reflexivity.
Qed.

Lemma effects_emit e w : effects (requests [e]) (rasterizations [e]) w (emit e w).
Proof.
  split; cbn [emit trace]; [apply requests_app | apply rasterizations_app].
Qed.

Lemma only_sends_effects qs w w' : only_sends qs w w' -> effects qs [] w w'.
Proof.
  intros (Hr & _ & Hq). split; [exact Hq|]. rewrite Hr, app_nil_r. reflexivity.
Qed.

Lemma layout_effects up w : effects [] [] w (after_layout up w).
Proof.
  split; cbn [after_layout trace].
  - rewrite requests_app. destruct (layout_events_quiet up) as [-> _].
    reflexivity.
  - rewrite rasterizations_app. destruct (layout_events_quiet up) as [_ ->].
    reflexivity.
Qed.

Lemma validate_rejects i w :
  strip (input_text i) = [] \/ resume w = Some None ->
  exists warning,
    validate_inputs i w = (Ret false, emit (StWarning warning) w).
Proof.
  intros H. destruct (strip (input_text i)) as [|c s] eqn:Hs.
  - eexists. apply validate_blank. exact Hs.
  - destruct H as [H|H]; [discriminate H|].
    eexists. apply validate_no_file; [congruence | exact H].
Qed.

Section Bounds.

Variable image : Type.
Variable generate_content : list event -> request -> pystr + exn.
Variable convert_from_bytes : bytes -> list image + exn.
Variable save_jpeg : image -> bytes + exn.

Lemma setup_effects u w :
  exists bs,
    effects [] bs w
      (snd (input_pdf_setup image convert_from_bytes save_jpeg u w))
    /\ (length bs <= 1)%nat.
Proof.
  unfold input_pdf_setup, st_cache_data.
  destruct (cache w !! cache_key u).
  { exists []. split; [apply effects_refl | cbn; lia]. }
  destruct u as [f|].
  - pose proof (body_world image convert_from_bytes save_jpeg f w) as Hw.
    destruct (input_pdf_setup_body _ _ _ (Some f) w) as [[v|e] w'];
      cbn [snd] in *; subst w'; exists [unread f w];
      (split; [|cbn; lia]); split;
      cbn [set_cache emit after_read set_cursor trace];
      rewrite ?requests_app, ?rasterizations_app; reflexivity.
  - exists []. split; [apply effects_refl | cbn; lia].
Qed.

Lemma respond_effects b text pdf w :
  exists qs,
    effects qs [] w (snd (respond generate_content b text pdf w))
    /\ (length qs <= 1)%nat
    /\ Forall (fun q => req_job q = text
                        /\ req_temperature q = (2 # 10)%Q
                        /\ req_prompt q = prompt_of b) qs.
Proof.
  destruct pdf as [|img rest].
  - exists []. split; [|split; [cbn; lia | constructor]].
    destruct b; apply effects_refl.
  - exists [request_of (prompt_of b) img text].
    split; [|split; [cbn; lia | repeat constructor]].
    apply only_sends_effects, respond_sends_once.
Qed.

Lemma action_effects b i w :
  exists qs bs,
    effects qs bs w (snd (action_of image generate_content convert_from_bytes save_jpeg b i w))
    /\ (length qs <= 1)%nat /\ (length bs <= 1)%nat
    /\ Forall (request_shape i) qs.
Proof.
  assert (Hact : action_of image generate_content convert_from_bytes save_jpeg b i
                 = bind (do (StSpinner (spinner_of b)))
                     (fun _ =>
                        bind session_resume
                          (fun r =>
                             bind (input_pdf_setup image convert_from_bytes
                                     save_jpeg r)
                               (respond generate_content b (input_text i))))).
  { destruct b; reflexivity. }
  rewrite Hact. clear Hact.
  rewrite (bind_returns _ _ _ _ _ (do_returns _ _)).
  set (w1 := emit (StSpinner (spinner_of b)) w).
  assert (H1 : effects [] [] w w1) by apply (effects_emit (StSpinner _)).
  unfold bind at 1. unfold session_resume at 1.
  destruct (resume w1) as [r|].
  2: { exists [], []. cbn [snd length].
       split; [exact H1|]. repeat split; try lia. constructor. }
  destruct (setup_effects r w1) as (bs & Hs & Hbs).
  unfold bind.
  destruct (input_pdf_setup image convert_from_bytes save_jpeg r w1)
    as [[pdf|e] w2]; cbn [snd] in *.
  - destruct (respond_effects b (input_text i) pdf w2) as (qs & Hr & Hqs & Hsh).
    exists qs, bs. split.
    + pose proof (effects_trans _ _ _ _ _ _ _ H1
                    (effects_trans _ _ _ _ _ _ _ Hs Hr)) as H.
      cbn [app] in H. rewrite app_nil_r in H. exact H.
    + split; [exact Hqs|]. split; [exact Hbs|].
      eapply Forall_impl; [exact Hsh|].
      intros q (Hj & Ht & Hp). unfold request_shape.
      split; [exact Hj|]. split; [exact Ht|].
      rewrite Hp.
      destruct b; [left | right; left | right; right]; reflexivity.
  - exists [], bs. split.
    + pose proof (effects_trans _ _ _ _ _ _ _ H1 Hs) as H. exact H.
    + cbn [length]. repeat split; try lia. constructor.
Qed.

(** The chain when every validation fails: only warnings. *)
Lemma chain_rejected i w1 :
  (forall w, resume w = resume w1 ->
             exists warning,
               validate_inputs i w = (Ret false, emit (StWarning warning) w)) ->
  effects [] [] w1
    (snd (button_actions image generate_content convert_from_bytes save_jpeg
            i w1)).
Proof.
  intros Hrej. unfold button_actions.
  assert (Hstep : forall w (k : bool -> M unit) (s : bool),
             resume w = resume w1 ->
             effects [] [] w1 w ->
             (forall w', resume w' = resume w1 -> effects [] [] w1 w' ->
                         effects [] [] w1 (snd (k false w'))) ->
             effects [] [] w1 (snd (bind (py_and s (validate_inputs i)) k w))).
  { intros w k s Hres He Hk. destruct s; cbn [py_and].
    - destruct (Hrej w Hres) as [warning Hv].
      rewrite (bind_returns _ _ _ _ _ Hv). apply Hk; [exact Hres|].
      pose proof (effects_trans _ _ _ _ _ _ _ He
                    (effects_emit (StWarning warning) w)) as H.
      exact H.
    - rewrite (bind_returns _ _ _ false w) by reflexivity.
      apply Hk; assumption. }
  apply Hstep; [reflexivity | apply effects_refl |].
  intros w2 Hr2 He2. apply Hstep; [exact Hr2 | exact He2 |].
  intros w3 Hr3 He3. apply Hstep; [exact Hr3 | exact He3 |].
  intros w4 _ He4. exact He4.
Qed.

(** The chain when the validation passes: the action of the first pressed
    button, if any. *)
Lemma chain_accepted i w1 :
  validate_inputs i w1 = (Ret true, w1) ->
  button_actions image generate_content convert_from_bytes save_jpeg i w1
  = if submit1 i then action_of image generate_content convert_from_bytes save_jpeg TellMeAboutTheResume i w1
    else if submit2 i then action_of image generate_content convert_from_bytes save_jpeg GetKeywords i w1
    else if submit3 i then action_of image generate_content convert_from_bytes save_jpeg PercentageMatch i w1
    else (Ret tt, w1).
Proof.
  intros Hv. unfold button_actions.
  assert (Hand : forall s, py_and s (validate_inputs i) w1 = (Ret s, w1)).
  { intros [|]; [exact Hv | reflexivity]. }
  rewrite (bind_returns _ _ _ _ _ (Hand (submit1 i))).
  destruct (submit1 i); [reflexivity|].
  rewrite (bind_returns _ _ _ _ _ (Hand (submit2 i))).
  destruct (submit2 i); [reflexivity|].
  rewrite (bind_returns _ _ _ _ _ (Hand (submit3 i))).
  destruct (submit3 i); reflexivity.
Qed.

(** X9. Whatever the inputs and the state of the session, one run of the
    script sends at most one request to the model and hands at most one
    input to pdf2image.  A request it sends carries the job text exactly as
    entered, temperature 0.2 and one of the three fixed prompts.  And it
    does either only if a button is pressed, the job text is not blank and
    the session slot holds a file. *)
Theorem run_effects_bounded :
  forall (i : inputs) (w : world),
  exists (qs : list request) (bs : list bytes),
    effects qs bs w
      (snd (run_script image generate_content convert_from_bytes save_jpeg
              i w))
    /\ (length qs <= 1)%nat
    /\ (length bs <= 1)%nat
    /\ Forall (request_shape i) qs
    /\ (qs <> [] \/ bs <> [] ->
        strip (input_text i) <> []
        /\ (exists f, slot_after_layout (uploaded_file i) w = Some f)
        /\ submit1 i || submit2 i || submit3 i = true).
Proof.
  intros i w. unfold run_script.
  rewrite (bind_returns _ _ _ _ _ (layout_spec i w)).
  fold (after_layout (uploaded_file i) w).
  set (w1 := after_layout (uploaded_file i) w).
  pose proof (layout_effects (uploaded_file i) w) as Hl. fold w1 in Hl.
  assert (Hquiet : effects [] [] w1
                     (snd (button_actions image generate_content
                             convert_from_bytes save_jpeg i w1)) ->
          exists qs bs,
            effects qs bs w
              (snd (button_actions image generate_content convert_from_bytes
                      save_jpeg i w1))
            /\ (length qs <= 1)%nat /\ (length bs <= 1)%nat
            /\ Forall (request_shape i) qs
            /\ (qs <> [] \/ bs <> [] ->
                strip (input_text i) <> []
                /\ (exists f,
                      slot_after_layout (uploaded_file i) w = Some f)
                /\ submit1 i || submit2 i || submit3 i = true)).
  { intros He. exists [], [].
    split; [exact (effects_trans _ _ _ _ _ _ _ Hl He)|].
    cbn [length]. repeat split; try lia; try constructor;
      destruct H; congruence. }
  destruct (strip (input_text i)) as [|c s] eqn:Hs.
  { apply Hquiet, chain_rejected. intros w' _.
    apply validate_rejects. left. exact Hs. }
  destruct (slot_after_layout (uploaded_file i) w) as [f|] eqn:Hslot.
  2: { apply Hquiet, chain_rejected. intros w' Hres.
       apply validate_rejects. right. rewrite Hres.
       cbn [w1 after_layout resume]. rewrite Hslot. reflexivity. }
  assert (Hv : validate_inputs i w1 = (Ret true, w1)).
  { apply (validate_ok _ _ f); [congruence|].
    cbn [w1 after_layout resume]. rewrite Hslot. reflexivity. }
  rewrite (chain_accepted i w1 Hv).
  assert (Hact : forall b,
             submit1 i || submit2 i || submit3 i = true ->
             exists qs bs,
               effects qs bs w (snd (action_of image generate_content convert_from_bytes save_jpeg b i w1))
               /\ (length qs <= 1)%nat /\ (length bs <= 1)%nat
               /\ Forall (request_shape i) qs
               /\ (qs <> [] \/ bs <> [] ->
                   c :: s <> []
                   /\ (exists f0, Some f = Some f0)
                   /\ submit1 i || submit2 i || submit3 i = true)).
  { intros b Hpressed.
    destruct (action_effects b i w1) as (qs & bs & He & Hq & Hb & Hsh).
    exists qs, bs. split; [exact (effects_trans _ _ _ _ _ _ _ Hl He)|].
    split; [exact Hq|]. split; [exact Hb|]. split; [exact Hsh|].
    intros _. split; [discriminate|]. split; [eauto | exact Hpressed]. }
  destruct (submit1 i) eqn:H1; [apply Hact; reflexivity|].
  destruct (submit2 i) eqn:H2; [apply Hact; reflexivity|].
  destruct (submit3 i) eqn:H3; [apply Hact; reflexivity|].
  exists [], []. split; [exact Hl|].
  cbn [snd length]. repeat split; try lia; try constructor;
    destruct H; congruence.
Qed.

End Bounds.

(** ** The session slot *)

Lemma keeps_slot_ret {A} (a : A) : keeps_slot (ret a).
Proof. intros w. reflexivity. Qed.

Lemma keeps_slot_raise {A} e : keeps_slot (raise (A := A) e).
Proof. intros w. reflexivity. Qed.

Lemma keeps_slot_do e : keeps_slot (do e).
Proof. intros w. reflexivity. Qed.

Lemma keeps_slot_bind {A B} (m : M A) (k : A -> M B) :
  keeps_slot m -> (forall a, keeps_slot (k a)) -> keeps_slot (bind m k).
Proof.
  intros Hm Hk w. unfold bind. pose proof (Hm w) as H.
  destruct (m w) as [[a|e] w1]; cbn [snd] in *; [|exact H].
  rewrite (Hk a w1). exact H.
Qed.

Lemma keeps_slot_try {A} (body : M A) catches (handler : M A) :
  keeps_slot body -> keeps_slot handler ->
  keeps_slot (try_except body catches handler).
Proof.
  intros Hb Hh w. unfold try_except. pose proof (Hb w) as H.
  destruct (body w) as [[a|e] w1]; cbn [snd] in *; [exact H|].
  destruct (catches e); cbn [snd]; [|exact H].
  rewrite (Hh w1). exact H.
Qed.

Lemma keeps_slot_index0 {A} (l : list A) : keeps_slot (index0 l).
Proof. destruct l; intros w; reflexivity. Qed.

Lemma keeps_slot_session : keeps_slot session_resume.
Proof.
  intros w. unfold session_resume.
  destruct (resume w) eqn:E; cbn [snd]; exact E.
Qed.

Lemma keeps_slot_validate i : keeps_slot (validate_inputs i).
Proof.
  unfold validate_inputs. destruct (strip (input_text i)).
  - apply keeps_slot_bind; [apply keeps_slot_do|].
    intros _. apply keeps_slot_ret.
  - apply keeps_slot_bind.
    + apply keeps_slot_session.
    + intros [f|]; [apply keeps_slot_ret|].
      apply keeps_slot_bind; [apply keeps_slot_do|].
      intros _. apply keeps_slot_ret.
Qed.

Lemma keeps_slot_render v : keeps_slot (render_keywords v).
Proof.
  assert (Hw : forall label, keeps_slot (write_skills v label)).
  { intros label. unfold write_skills. apply keeps_slot_bind.
    - intros w. rewrite py_get_pure. reflexivity.
    - intros a. apply keeps_slot_bind.
      + intros w. rewrite py_join_pure. reflexivity.
      + intros joined. apply keeps_slot_do. }
  unfold render_keywords. destruct (truthy v); [|apply keeps_slot_do].
  apply keeps_slot_bind; [apply keeps_slot_do|]. intros _.
  apply keeps_slot_bind; [apply Hw|]. intros _.
  apply keeps_slot_bind; [apply Hw|]. intros _. apply Hw.
Qed.

Section Slot.

Variable image : Type.
Variable generate_content : list event -> request -> pystr + exn.
Variable convert_from_bytes : bytes -> list image + exn.
Variable save_jpeg : image -> bytes + exn.

Lemma keeps_slot_generate prompt img job :
  keeps_slot (model_generate_text generate_content prompt img job).
Proof.
  intros w. unfold model_generate_text.
  destruct (generate_content _ _); reflexivity.
Qed.

Lemma keeps_slot_response prompt pdf job :
  keeps_slot (get_gemini_response generate_content prompt pdf job).
Proof.
  unfold get_gemini_response. apply keeps_slot_try.
  - apply keeps_slot_bind; [apply keeps_slot_index0|].
    intros img. apply keeps_slot_generate.
  - apply keeps_slot_bind; [apply keeps_slot_do|].
    intros _. apply keeps_slot_ret.
Qed.

Lemma keeps_slot_keywords prompt pdf job :
  keeps_slot (get_gemini_response_keywords generate_content prompt pdf job).
Proof.
  unfold get_gemini_response_keywords. apply keeps_slot_try.
  - apply keeps_slot_bind; [apply keeps_slot_index0|].
    intros img. apply keeps_slot_bind; [apply keeps_slot_generate|].
    intros text w. unfold loads.
    destruct (json_loads _ _); reflexivity.
  - apply keeps_slot_ret.
Qed.

Lemma keeps_slot_setup u :
  keeps_slot (input_pdf_setup image convert_from_bytes save_jpeg u).
Proof.
  intros w. unfold input_pdf_setup, st_cache_data.
  destruct (cache w !! cache_key u); [reflexivity|].
  destruct u as [f|]; [|reflexivity].
  pose proof (body_world image convert_from_bytes save_jpeg f w) as Hw.
  destruct (input_pdf_setup_body _ _ _ (Some f) w) as [[v|e] w'];
    cbn [snd] in *; subst w'; reflexivity.
Qed.

Lemma keeps_slot_respond b text pdf :
  keeps_slot (respond generate_content b text pdf).
Proof.
  destruct b; cbn [respond].
  - apply keeps_slot_bind; [apply keeps_slot_response|]. intros r.
    apply keeps_slot_bind; [apply keeps_slot_do|]. intros _.
    apply keeps_slot_do.
  - apply keeps_slot_bind; [apply keeps_slot_keywords|]. intros r.
    apply keeps_slot_render.
  - apply keeps_slot_bind; [apply keeps_slot_response|]. intros r.
    apply keeps_slot_bind; [apply keeps_slot_do|]. intros _.
    apply keeps_slot_do.
Qed.

Lemma keeps_slot_action b i :
  keeps_slot (action_of image generate_content convert_from_bytes save_jpeg
                b i).
Proof.
  assert (Hact : action_of image generate_content convert_from_bytes
                   save_jpeg b i
                 = bind (do (StSpinner (spinner_of b)))
                     (fun _ =>
                        bind session_resume
                          (fun r =>
                             bind (input_pdf_setup image convert_from_bytes
                                     save_jpeg r)
                               (respond generate_content b (input_text i))))).
  { destruct b; reflexivity. }
  rewrite Hact.
  apply keeps_slot_bind; [apply keeps_slot_do|]. intros _.
  apply keeps_slot_bind; [apply keeps_slot_session|].
  intros r. apply keeps_slot_bind; [apply keeps_slot_setup|].
  intros pdf. apply keeps_slot_respond.
Qed.

Lemma keeps_slot_chain i :
  keeps_slot (button_actions image generate_content convert_from_bytes
                save_jpeg i).
Proof.
  assert (Hand : forall s, keeps_slot (py_and s (validate_inputs i))).
  { intros [|]; [apply keeps_slot_validate | apply keeps_slot_ret]. }
  unfold button_actions.
  apply keeps_slot_bind; [apply Hand|]. intros [|].
  { apply (keeps_slot_action TellMeAboutTheResume). }
  apply keeps_slot_bind; [apply Hand|]. intros [|].
  { apply (keeps_slot_action GetKeywords). }
  apply keeps_slot_bind; [apply Hand|]. intros [|].
  { apply (keeps_slot_action PercentageMatch). }
  apply keeps_slot_ret.
Qed.

(** X10. After any run of the script, however it ends, the session's
    resume slot is set: it holds the file in the picker when there is one,
    and otherwise what it held before the run (None if it was unset).  No
    action, failing or not, ever writes to the slot. *)
Theorem session_slot_after_run :
  forall (i : inputs) (w : world),
    resume (snd (run_script image generate_content convert_from_bytes
                   save_jpeg i w))
    = Some (match uploaded_file i with
            | Some f => Some f
            | None => default None (resume w)
            end).
Proof.
  intros i w. unfold run_script.
  rewrite (bind_returns _ _ _ _ _ (layout_spec i w)).
  rewrite keeps_slot_chain. reflexivity.
Qed.

(** X11. The slot is never cleared: once it holds a file, it still holds
    that file after any number of runs in which the picker is empty,
    whatever buttons are pressed and however those runs end. *)
Theorem upload_outlives_picker :
  forall (runs : list inputs) (w : world) (f : UploadedFile),
    resume w = Some (Some f) ->
    Forall (fun i => uploaded_file i = None) runs ->
    resume (run_all image generate_content convert_from_bytes save_jpeg
              runs w)
    = Some (Some f).
Proof.
  induction runs as [|i runs IH]; intros w f Hres Hall; [exact Hres|].
  inversion Hall as [|? ? Hnone Hrest]; subst.
  cbn [run_all fold_left]. apply IH; [|exact Hrest].
  unfold run_script.
  rewrite (bind_returns _ _ _ _ _ (layout_spec i w)).
  rewrite keeps_slot_chain. cbn [resume]. rewrite Hnone.
  cbn [slot_after_layout]. rewrite Hres. reflexivity.
Qed.

End Slot.

(** ** The fence slice on other shapes of answer *)

Lemma startswith_app s p x :
  startswith s p = true -> startswith (s ++ x) p = true.
Proof.
  revert s. induction p as [|a p IH]; intros s H;
    [destruct (s ++ x); reflexivity|].
  destruct s as [|b s]; [discriminate H|].
  cbn [startswith app] in *. apply andb_true_iff in H as [Hab Hs].
  rewrite Hab, (IH _ Hs). reflexivity.
Qed.

Lemma trim_wrap {A} (op body cl : list A) :
  length op = 7%nat -> length cl = 3%nat ->
  trim 7 3 (op ++ body ++ cl) = body.
Proof.
  intros Hop Hcl. unfold trim.
  rewrite <- Hop, drop_app_length.
  rewrite rev_app_distr, <- Hcl, <- length_rev, drop_app_length.
  apply rev_involutive.
Qed.

Lemma strip_fence_wrap op body cl :
  length op = 7%nat -> length cl = 3%nat ->
  startswith op FENCE = true ->
  strip_fence (op ++ body ++ cl) = body.
Proof.
  intros Hop Hcl Hf. unfold strip_fence.
  rewrite (startswith_app _ _ _ Hf), slice_7_3_trim.
  apply trim_wrap; assumption.
Qed.

Lemma lstrip_keeps c s : py_isspace c = false -> lstrip (c :: s) = c :: s.
Proof. intros H. cbn [lstrip]. rewrite H. reflexivity. Qed.

(** [strip] leaves a string alone whose first and last characters are not
    whitespace. *)
Lemma strip_keeps c m z :
  py_isspace c = false -> py_isspace z = false ->
  strip (c :: m ++ [z]) = c :: m ++ [z].
Proof.
  intros Hc Hz. unfold strip, rstrip. rewrite (lstrip_keeps _ _ Hc).
  change (c :: m ++ [z]) with ((c :: m) ++ [z]).
  rewrite rev_unit, (lstrip_keeps _ _ Hz), <- rev_unit.
  apply rev_involutive.
Qed.

(** The decoder refuses the empty text, whatever the limits. *)
Lemma json_loads_empty lim : json_loads lim [] = Refused DecodeError.
Proof. unfold json_loads. destruct (max_nesting lim); reflexivity. Qed.

Lemma json_fence_chars : str "```json" = [96; 96; 96; 106; 115; 111; 110].
Proof. vm_compute. reflexivity. Qed.

Lemma fence_chars : FENCE = [96; 96; 96].
Proof. vm_compute. reflexivity. Qed.

(** An answer made of a seven-character opening that starts with the fence,
    a body and three closing characters is left alone by [strip] when its
    last character is not whitespace. *)
Lemma strip_keeps_wrapped op body cl :
  length op = 7%nat -> length cl = 3%nat ->
  startswith op FENCE = true ->
  (forall z, last cl = Some z -> py_isspace z = false) ->
  strip (op ++ body ++ cl) = op ++ body ++ cl.
Proof.
  intros Hop Hcl Hf Hz.
  destruct op as [|c op]; [discriminate Hop|].
  rewrite fence_chars in Hf. cbn [startswith] in Hf.
  apply andb_true_iff in Hf as [Hc _]. apply N.eqb_eq in Hc. subst c.
  destruct cl as [|a [|b [|z [|? ?]]]]; try discriminate Hcl.
  specialize (Hz z eq_refl).
  change ((96 :: op) ++ body ++ [a; b; z])
    with (96 :: (op ++ body ++ [a; b; z])).
  replace (op ++ body ++ [a; b; z]) with ((op ++ body ++ [a; b]) ++ [z])
    by (rewrite <- !app_assoc; reflexivity).
  apply strip_keeps; [reflexivity | exact Hz].
Qed.

Lemma keywords_on_wrapped generate_content prompt img rest job w
      answer op body cl :
  generate_content (trace w) (request_of prompt img job) = inl answer ->
  strip answer = op ++ body ++ cl ->
  length op = 7%nat -> length cl = 3%nat ->
  startswith op FENCE = true ->
  get_gemini_response_keywords generate_content prompt (img :: rest) job w
  = (keywords_outcome (json_loads (interpreter w) body),
     emit (GenerateContent (request_of prompt img job)) w).
Proof.
  intros Hout Hstrip Hop Hcl Hf.
  rewrite (keywords_on_text _ _ _ _ _ _ _ Hout), Hstrip.
  rewrite (strip_fence_wrap _ _ _ Hop Hcl Hf). reflexivity.
Qed.

(** X12. The fence removal is positional.  When the model's answer, once
    stripped of the whitespace around it (line 35), opens with three
    backticks, its first seven and last three characters go, whatever they
    are: for any seven-character opening that starts with the fence and any
    three closing characters, the text handed to json.loads is exactly the
    text in between, even if the closing characters are not a fence, and
    the function returns what json.loads makes of it.  The strip does not
    touch such an answer when its last character is not whitespace. *)
Theorem fence_removal_is_positional :
  forall (answer op body cl : pystr),
    strip answer = op ++ body ++ cl ->
    length op = 7%nat ->
    length cl = 3%nat ->
    startswith op FENCE = true ->
    strip_fence (strip answer) = body
    /\ (forall (generate_content : list event -> request -> pystr + exn)
               (prompt : pystr) (img : part) (rest : list part)
               (job : pystr) (w : world),
          generate_content (trace w) (request_of prompt img job)
          = inl answer ->
          get_gemini_response_keywords generate_content prompt (img :: rest)
            job w
          = (keywords_outcome (json_loads (interpreter w) body),
             emit (GenerateContent (request_of prompt img job)) w))
    /\ ((forall z, last cl = Some z -> py_isspace z = false) ->
        strip (op ++ body ++ cl) = op ++ body ++ cl).
Proof.
  intros answer op body cl Hstrip Hop Hcl Hf.
  split; [|split].
  - rewrite Hstrip. apply strip_fence_wrap; assumption.
  - intros generate_content prompt img rest job w Hout.
    apply (keywords_on_wrapped _ _ _ _ _ _ _ _ _ _ Hout Hstrip Hop Hcl Hf).
  - intros Hz. apply strip_keeps_wrapped; assumption.
Qed.

(** X13. A fence without a language tag is cut too far: for an answer made
    of three backticks, a newline, a body of at least three characters, a
    newline and three backticks, the text handed to the JSON parser is the
    body without its first three characters, followed by the newline. *)
Theorem untagged_fence_loses_three_characters :
  forall (body : pystr),
    (3 <= length body)%nat ->
    strip_fence (FENCE ++ [10] ++ body ++ [10] ++ FENCE)
    = drop 3 body ++ [10].
Proof.
  intros body Hlen.
  rewrite <- (take_drop 3 body) at 1.
  replace (FENCE ++ [10] ++ (take 3 body ++ drop 3 body) ++ [10] ++ FENCE)
    with ((FENCE ++ [10] ++ take 3 body) ++ (drop 3 body ++ [10]) ++ FENCE)
    by (rewrite <- !app_assoc; reflexivity).
  apply strip_fence_wrap.
  - rewrite !length_app, length_take_le, fence_chars by exact Hlen.
    reflexivity.
  - rewrite fence_chars. reflexivity.
  - apply startswith_app. rewrite fence_chars. reflexivity.
Qed.

Section FencedAnswers.

Variable generate_content : list event -> request -> pystr + exn.

(** X14. A fenced answer of at most ten characters leaves nothing to parse:
    get_gemini_response_keywords returns None for it. *)
Theorem short_fenced_answer_is_none :
  forall (prompt : pystr) (img : part) (rest : list part) (job : pystr)
         (w : world) (answer : pystr),
    generate_content (trace w) (request_of prompt img job) = inl answer ->
    startswith (strip answer) FENCE = true ->
    (length (strip answer) <= 10)%nat ->
    get_gemini_response_keywords generate_content prompt (img :: rest) job w
    = (Ret JNull, emit (GenerateContent (request_of prompt img job)) w).
Proof.
  intros prompt img rest job w answer Hout Hf Hlen.
  rewrite (keywords_on_text _ _ _ _ _ _ _ Hout).
  assert (Hempty : strip_fence (strip answer) = []).
  { unfold strip_fence. rewrite Hf, slice_7_3_trim. unfold trim.
    rewrite skipn_rev, rev_involutive, length_drop.
    replace (length (strip answer) - 7 - 3)%nat with 0%nat by lia.
    reflexivity. }
  rewrite Hempty, json_loads_empty. reflexivity.
Qed.

(** X15. For an answer that wraps any body between the opening fence with
    the json tag and a closing fence, get_gemini_response_keywords does
    what json.loads does on the body alone: it returns the parsed value,
    returns None when json.loads raises JSONDecodeError, and raises the
    RecursionError or the ValueError that json.loads raises on a body
    nested deeper than the interpreter allows or holding an integer
    literal beyond its digit limit. *)
Theorem fenced_answer_parsed_as_body :
  forall (prompt : pystr) (img : part) (rest : list part) (job : pystr)
         (w : world) (body : pystr),
    generate_content (trace w) (request_of prompt img job)
    = inl (str "```json" ++ body ++ FENCE) ->
    get_gemini_response_keywords generate_content prompt (img :: rest) job w
    = (match json_loads (interpreter w) body with
       | Scanned v => Ret v
       | Refused DecodeError => Ret JNull
       | Refused RecursionLimit => Raise RecursionError
       | Refused IntDigitsLimit => Raise ValueError
       end,
       emit (GenerateContent (request_of prompt img job)) w).
Proof.
  intros prompt img rest job w body Hout.
  assert (Hstrip : strip (str "```json" ++ body ++ FENCE)
                   = str "```json" ++ body ++ FENCE).
  { apply strip_keeps_wrapped;
      [rewrite json_fence_chars; reflexivity
      | rewrite fence_chars; reflexivity
      | rewrite json_fence_chars, fence_chars; reflexivity
      | rewrite fence_chars; intros z [= <-]; reflexivity]. }
  rewrite (keywords_on_wrapped _ _ _ _ _ _ _ _ _ _ Hout Hstrip);
    [ destruct (json_loads (interpreter w) body) as [v|[]]; reflexivity
    | rewrite json_fence_chars; reflexivity
    | rewrite fence_chars; reflexivity
    | rewrite json_fence_chars, fence_chars; reflexivity].
Qed.

End FencedAnswers.

(** ** The keyword view on answers of another shape *)

Lemma write_skills_unjoinable d label v w :
  dict_lookup label d = Some v ->
  joinable v = false ->
  write_skills (JDict d) label w = (Raise TypeError, w).
Proof.
  intros Hl Hj. unfold write_skills, bind, py_get, ret. rewrite Hl.
  cbn [from_option id]. unfold py_join.
  destruct v; try discriminate Hj; try reflexivity.
  cbn [joinable] in Hj. destruct (all_str l); [discriminate Hj | reflexivity].
Qed.

(** X16. A truthy answer that is not a JSON object (a non-empty list or
    string, a non-zero number, true) makes "Get Keywords" fail with
    AttributeError at the first category, the subheader being already
    rendered and no skill line written. *)
Theorem truthy_non_mapping_raises :
  forall (v : json) (w : world),
    truthy v = true ->
    is_dict v = false ->
    render_keywords v w
    = (Raise AttributeError, emit (StSubheader (str "Extracted Skills")) w).
Proof.
  intros v w Ht Hd. unfold render_keywords. rewrite Ht.
  rewrite (bind_returns _ _ _ _ _ (do_returns _ _)).
  apply bind_raises.
  unfold write_skills. apply bind_raises.
  destruct v; try discriminate Hd; reflexivity.
Qed.

(** X17. In a non-empty JSON object, a category that is present but cannot
    be joined (null, a boolean, a number, or a list holding something else
    than strings) makes "Get Keywords" fail with TypeError at that
    category: the lines of the earlier categories are already written, the
    later ones never are. *)
Theorem unjoinable_category_raises :
  forall (d : list (pystr * json)) (w : world),
    truthy (JDict d) = true ->
    (forall v,
        dict_lookup (str "Technical Skills") d = Some v ->
        joinable v = false ->
        render_keywords (JDict d) w
        = (Raise TypeError,
           emit (StSubheader (str "Extracted Skills")) w))
    /\ (forall technical v,
          skill_list d (str "Technical Skills") = Some technical ->
          dict_lookup (str "Analytical Skills") d = Some v ->
          joinable v = false ->
          render_keywords (JDict d) w
          = (Raise TypeError,
             emit (StWrite (skills_line (str "Technical Skills")
                              (join (str ", ") technical)))
               (emit (StSubheader (str "Extracted Skills")) w)))
    /\ (forall technical analytical v,
          skill_list d (str "Technical Skills") = Some technical ->
          skill_list d (str "Analytical Skills") = Some analytical ->
          dict_lookup (str "Soft Skills") d = Some v ->
          joinable v = false ->
          render_keywords (JDict d) w
          = (Raise TypeError,
             emit (StWrite (skills_line (str "Analytical Skills")
                              (join (str ", ") analytical)))
               (emit (StWrite (skills_line (str "Technical Skills")
                                 (join (str ", ") technical)))
                  (emit (StSubheader (str "Extracted Skills")) w)))).
Proof.
  intros d w Ht. unfold render_keywords. rewrite Ht.
  rewrite (bind_returns _ _ _ _ _ (do_returns _ _)).
  split; [|split].
  - intros v Hl Hj.
    apply bind_raises. apply (write_skills_unjoinable _ _ v); assumption.
  - intros technical v H1 Hl Hj.
    rewrite (bind_returns _ _ _ _ _ (write_skills_list _ _ _ _ H1)).
    apply bind_raises. apply (write_skills_unjoinable _ _ v); assumption.
  - intros technical analytical v H1 H2 Hl Hj.
    rewrite (bind_returns _ _ _ _ _ (write_skills_list _ _ _ _ H1)).
    rewrite (bind_returns _ _ _ _ _ (write_skills_list _ _ _ _ H2)).
    apply (write_skills_unjoinable _ _ v); assumption.
Qed.

(** ** The further properties on the concrete session *)

Lemma narrative_answer_rendered_witness :
  fst (run_script bytes (answers (str "Strong match")) sample_convert
         sample_save
         (press TellMeAboutTheResume sample_job (Some sample_file))
         fresh_world)
  = Ret tt.
Proof.
  rewrite (narrative_answer_rendered bytes (answers (str "Strong match"))
             sample_convert sample_save TellMeAboutTheResume
             (Some sample_file) sample_file sample_job fresh_world
             (snd (input_pdf_setup bytes sample_convert sample_save
                     (Some sample_file)
                     (emit (StSpinner (spinner_of TellMeAboutTheResume))
                        (after_layout (Some sample_file) fresh_world))))
             sample_image [] (str "Strong match")).
  - reflexivity.
  - discriminate.
  - vm_compute. discriminate.
  - reflexivity.
  - vm_compute. reflexivity.
  - reflexivity.
Defined.

Lemma narrative_quota_rendered_witness :
  fst (run_script bytes (fails (GoogleAPIError ResourceExhausted))
         sample_convert sample_save
         (press PercentageMatch sample_job (Some sample_file)) fresh_world)
  = Ret tt.
Proof.
  rewrite (narrative_quota_rendered bytes
             (fails (GoogleAPIError ResourceExhausted))
             sample_convert sample_save PercentageMatch
             (Some sample_file) sample_file sample_job fresh_world
             (snd (input_pdf_setup bytes sample_convert sample_save
                     (Some sample_file)
                     (emit (StSpinner (spinner_of PercentageMatch))
                        (after_layout (Some sample_file) fresh_world))))
             sample_image []).
  - reflexivity.
  - discriminate.
  - vm_compute. discriminate.
  - reflexivity.
  - vm_compute. reflexivity.
  - reflexivity.
Defined.

Lemma keywords_quota_shows_failure_witness :
  fst (run_script bytes (fails (GoogleAPIError ResourceExhausted))
         sample_convert sample_save
         (press GetKeywords sample_job (Some sample_file)) fresh_world)
  = Ret tt.
Proof.
  rewrite (keywords_quota_shows_failure bytes
             (fails (GoogleAPIError ResourceExhausted))
             sample_convert sample_save
             (Some sample_file) sample_file sample_job fresh_world
             (snd (input_pdf_setup bytes sample_convert sample_save
                     (Some sample_file)
                     (emit (StSpinner (spinner_of GetKeywords))
                        (after_layout (Some sample_file) fresh_world))))
             sample_image []).
  - reflexivity.
  - vm_compute. discriminate.
  - reflexivity.
  - vm_compute. reflexivity.
  - reflexivity.
Defined.

Lemma keywords_malformed_shows_failure_witness :
  fst (run_script bytes (answers (str "Sorry, no JSON today"))
         sample_convert sample_save
         (press GetKeywords sample_job (Some sample_file)) fresh_world)
  = Ret tt.
Proof.
  rewrite (keywords_malformed_shows_failure bytes
             (answers (str "Sorry, no JSON today"))
             sample_convert sample_save
             (Some sample_file) sample_file sample_job fresh_world
             (snd (input_pdf_setup bytes sample_convert sample_save
                     (Some sample_file)
                     (emit (StSpinner (spinner_of GetKeywords))
                        (after_layout (Some sample_file) fresh_world))))
             sample_image [] (str "Sorry, no JSON today") DecodeError).
  - reflexivity.
  - vm_compute. discriminate.
  - reflexivity.
  - vm_compute. reflexivity.
  - reflexivity.
  - vm_compute. reflexivity.
Defined.

Lemma conversion_failure_ends_run_witness :
  fst (run_script bytes (answers (str "unused")) sample_convert sample_save
         (press GetKeywords sample_job (Some empty_file)) fresh_world)
  = Raise (LibraryError (str "PDFPageCountError")).
Proof.
  apply (conversion_failure_ends_run bytes (answers (str "unused"))
           sample_convert sample_save GetKeywords sample_job empty_file
           fresh_world (LibraryError (str "PDFPageCountError"))).
  - vm_compute. discriminate.
  - reflexivity.
  - left. reflexivity.
Defined.

Lemma upload_outlives_picker_witness :
  resume (run_all bytes (answers (str "ok")) sample_convert sample_save
            [press GetKeywords sample_job None; no_press [] None]
            (set_resume (Some sample_file) fresh_world))
  = Some (Some sample_file).
Proof.
  apply (upload_outlives_picker bytes (answers (str "ok")) sample_convert
           sample_save
           [press GetKeywords sample_job None; no_press [] None]
           (set_resume (Some sample_file) fresh_world) sample_file).
  - reflexivity.
  - repeat constructor.
Defined.

Lemma fence_removal_is_positional_witness :
  strip_fence (strip (str "  ```json{}xyz" ++ [10; 10])) = str "{}"
  /\ get_gemini_response_keywords (answers (str "  ```json{}xyz" ++ [10; 10]))
       input_prompt2 [sample_image] sample_job fresh_world
     = (Ret (JDict []),
        emit (GenerateContent
                (request_of input_prompt2 sample_image sample_job))
          fresh_world).
Proof.
  pose proof (fence_removal_is_positional (str "  ```json{}xyz" ++ [10; 10])
                (str "```json") (str "{}") (str "xyz")
                ltac:(vm_compute; reflexivity) eq_refl eq_refl
                ltac:(vm_compute; reflexivity)) as (H1 & H2 & _).
  split; [exact H1|].
  rewrite (H2 (answers (str "  ```json{}xyz" ++ [10; 10])) input_prompt2
             sample_image [] sample_job fresh_world eq_refl).
  vm_compute. reflexivity.
Defined.

Lemma untagged_fence_loses_three_characters_witness :
  strip_fence (FENCE ++ [10] ++ str "[1, 2]" ++ [10] ++ FENCE)
  = drop 3 (str "[1, 2]") ++ [10].
Proof.
  apply (untagged_fence_loses_three_characters (str "[1, 2]")).
  vm_compute. lia.
Defined.

Lemma short_fenced_answer_is_none_witness :
  get_gemini_response_keywords (answers (str "```json```")) input_prompt2
    [sample_image] sample_job fresh_world
  = (Ret JNull,
     emit (GenerateContent (request_of input_prompt2 sample_image sample_job))
       fresh_world).
Proof.
  apply (short_fenced_answer_is_none (answers (str "```json```"))
           input_prompt2 sample_image [] sample_job fresh_world
           (str "```json```")).
  - reflexivity.
  - vm_compute. reflexivity.
  - vm_compute. lia.
Defined.

Lemma fenced_answer_parsed_as_body_witness :
  get_gemini_response_keywords
    (answers (str "```json" ++ str "[1]" ++ FENCE)) input_prompt2
    [sample_image] sample_job fresh_world
  = (Ret (JList [JInt 1]),
     emit (GenerateContent (request_of input_prompt2 sample_image sample_job))
       fresh_world).
Proof.
  rewrite (fenced_answer_parsed_as_body
             (answers (str "```json" ++ str "[1]" ++ FENCE)) input_prompt2
             sample_image [] sample_job fresh_world (str "[1]") eq_refl).
  vm_compute. reflexivity.
Defined.

Lemma truthy_non_mapping_raises_witness :
  render_keywords (JList [JStr (str "SQL")]) fresh_world
  = (Raise AttributeError,
     emit (StSubheader (str "Extracted Skills")) fresh_world).
Proof.
  apply (truthy_non_mapping_raises (JList [JStr (str "SQL")]) fresh_world);
    reflexivity.
Defined.

Lemma unjoinable_category_raises_witness :
  render_keywords (JDict [(str "Technical Skills", JNull)]) fresh_world
  = (Raise TypeError, emit (StSubheader (str "Extracted Skills")) fresh_world).
Proof.
  apply (proj1 (unjoinable_category_raises
                  [(str "Technical Skills", JNull)] fresh_world eq_refl)
           JNull);
    reflexivity.
Defined.
